(** * WunderWohn backend: booking engine and property search

    A shallow embedding of the request handlers of [server.py] that carry
    domain logic ([get_properties], [create_booking], [get_user_bookings],
    [delete_booking]) over an explicit model of the document store they
    talk to, followed by the properties of the specification stated and
    proved against that embedding.

    Conventions.
    - A handler is a function of its request data, the resolved
      [current_user], and the store; a handler that writes returns the new
      store next to its response.  An [HTTPException] raised by the handler
      is the [Raise] response; a request can also end in an exception that
      nothing catches, [Uncaught], which the client sees as a server error.
    - Python [float] is IEEE 754 binary64, which is what [PrimFloat.float]
      is; [int] is [Z]; [str] is [string].
    - A collection is the list of its documents in natural (insertion)
      order.  The documents of a collection are the dictionaries the
      program writes into it: the [.dict()] of the pydantic model, to which
      [insert_one] adds the store's own [_id].  A document is encoded
      before it is written: an [int] outside the signed 64-bit range makes
      [insert_one] raise [OverflowError], and a [datetime] is kept to the
      millisecond. *)

From Stdlib Require Import ZArith Floats Btauto.
From stdpp Require Import base option list strings gmap.

Local Open Scope string_scope.
Local Open Scope Z_scope.

(* ===================================================================== *)
(** * Python values *)
(* ===================================================================== *)

(** ** [datetime.date] and the day count of a difference of dates *)

Module datetime.

Record date := mkdate { year : Z; month : Z; day : Z }.

Definition _is_leap (y : Z) : bool :=
  (y mod 4 =? 0) && (negb (y mod 100 =? 0) || (y mod 400 =? 0)).

Definition _days_before_year (y : Z) : Z :=
  let y := y - 1 in y * 365 + y / 4 - y / 100 + y / 400.

(** [_DAYS_IN_MONTH = [-1, 31, 28, 31, 30, 31, 30, 31, 31, 30, 31, 30, 31]] *)
Definition _DAYS_IN_MONTH : list Z :=
  [-1; 31; 28; 31; 30; 31; 30; 31; 31; 30; 31; 30; 31].

(** [_DAYS_BEFORE_MONTH]: the running sum of the table above. *)
Definition _DAYS_BEFORE_MONTH : list Z :=
  [-1; 0; 31; 59; 90; 120; 151; 181; 212; 243; 273; 304; 334].

Definition _days_in_month (y m : Z) : Z :=
  if (m =? 2) && _is_leap y then 29
  else nth (Z.to_nat m) _DAYS_IN_MONTH (-1).

Definition _days_before_month (y m : Z) : Z :=
  nth (Z.to_nat m) _DAYS_BEFORE_MONTH (-1)
  + (if (2 <? m) && _is_leap y then 1 else 0).

Definition _ymd2ord (y m d : Z) : Z :=
  _days_before_year y + _days_before_month y m + d.

Definition toordinal (d : date) : Z := _ymd2ord (year d) (month d) (day d).

(** The dates the [date] constructor accepts: [MINYEAR = 1],
    [MAXYEAR = 9999]. *)
Definition valid (d : date) : bool :=
  (1 <=? year d) && (year d <=? 9999)
  && (1 <=? month d) && (month d <=? 12)
  && (1 <=? day d) && (day d <=? _days_in_month (year d) (month d)).

(** [(a - b).days] *)
Definition days_between (a b : date) : Z := toordinal a - toordinal b.

(** [isoformat]: ["%04d-%02d-%02d"]. *)
Definition digit (n : Z) : string :=
  String (Ascii.ascii_of_nat (48 + Z.to_nat (n mod 10))) EmptyString.

Definition pad2 (n : Z) : string := (digit (n / 10) +:+ digit n)%string.
Definition pad4 (n : Z) : string := (pad2 (n / 100) +:+ pad2 n)%string.

Definition isoformat (d : date) : string :=
  (pad4 (year d) +:+ "-" +:+ pad2 (month d) +:+ "-" +:+ pad2 (day d))%string.

(** [datetime.datetime]: only stored and handed back, never inspected;
    kept as microseconds since the epoch. *)
Definition datetime := Z.

End datetime.

Abbreviation date := datetime.date.

(** ** Numbers *)

(** [float(n)] for an [int] [n]: the nearest binary64, ties to even.  *)
Definition float_of_int (n : Z) : float :=
  SF2Prim (SpecFloat.binary_normalize FloatOps.prec FloatOps.emax n 0 false).

(** [n * x] for an [int] [n] and a [float] [x]: the integer is converted,
    then one IEEE multiplication. *)
Definition int_mul_float (n : Z) (x : float) : float :=
  PrimFloat.mul (float_of_int n) x.

(** On the integers of a machine word, [float(n)] is the processor's
    conversion. *)
Lemma float_of_int_primitive (n : Z) :
  0 <= n < 2^63 ->
  float_of_int n = PrimFloat.of_uint63 (Uint63.of_Z n).
Proof.
  intros Hn. unfold float_of_int.
  rewrite <- (SF2Prim_Prim2SF (PrimFloat.of_uint63 (Uint63.of_Z n))).
  rewrite of_uint63_spec, Uint63.of_Z_spec.
  rewrite Z.mod_small; [reflexivity|].
  change Uint63.wB with (2^63). exact Hn.
Qed.

(** ** Truth value testing, as [if x:] does it: a number is false when it
    equals zero (for a float, either zero; a NaN is true), a string when it
    is empty. *)

Definition truthy_float (x : float) : bool := negb (PrimFloat.eqb x PrimFloat.zero).

Definition truthy_int (n : Z) : bool := negb (n =? 0).

Definition truthy_str (s : string) : bool := negb (String.eqb s EmptyString).

(* ===================================================================== *)
(** * The calendar: day counts of valid dates *)
(* ===================================================================== *)

Module calendar.
Import datetime.

(** [a < b] on dates: by year, then month, then day. *)
Definition date_lt (a b : date) : bool :=
  (year a <? year b)
  || ((year a =? year b)
      && ((month a <? month b)
          || ((month a =? month b) && (day a <? day b)))).

Definition leap_day (y : Z) : Z := if _is_leap y then 1 else 0.

Lemma days_before_next_year (y : Z) :
  _days_before_year (y + 1) = _days_before_year y + 365 + leap_day y.
Proof.
  unfold _days_before_year, leap_day, _is_leap.
  replace (y + 1 - 1) with y by lia.
  destruct (Z.eqb_spec (y mod 4) 0), (Z.eqb_spec (y mod 100) 0),
           (Z.eqb_spec (y mod 400) 0); simpl;
    Z.div_mod_to_equations; lia.
Qed.

Lemma days_before_year_mono (y y' : Z) :
  y <= y' -> _days_before_year y <= _days_before_year y'.
Proof.
  unfold _days_before_year. intros Hle. Z.div_mod_to_equations. lia.
Qed.

Lemma month_cases (m : Z) :
  1 <= m <= 12 ->
  m = 1 \/ m = 2 \/ m = 3 \/ m = 4 \/ m = 5 \/ m = 6
  \/ m = 7 \/ m = 8 \/ m = 9 \/ m = 10 \/ m = 11 \/ m = 12.
Proof. lia. Qed.

Lemma valid_bounds (d : date) :
  valid d = true ->
  1 <= year d <= 9999 /\ 1 <= month d <= 12
  /\ 1 <= day d <= _days_in_month (year d) (month d).
Proof.
  unfold valid. rewrite !andb_true_iff, !Z.leb_le. tauto.
Qed.

Ltac months m H :=
  destruct (month_cases m H) as [->|[->|[->|[->|[->|[->|[->|[->|[->|[->|[->| ->]]]]]]]]]]].

(** Within its year a valid date is day 1 to 365, or 366 in a leap year. *)
Lemma day_of_year_bounds (d : date) :
  valid d = true ->
  1 <= _days_before_month (year d) (month d) + day d <= 365 + leap_day (year d).
Proof.
  intros Hv. apply valid_bounds in Hv as (_ & Hm & Hd).
  unfold _days_before_month, _days_in_month, leap_day in *.
  revert Hd.
  destruct (_is_leap (year d)); months (month d) Hm; simpl; lia.
Qed.

(** Within a year, the day of the year grows with month and day. *)
Lemma day_of_year_mono (a b : date) :
  valid a = true -> valid b = true -> year a = year b ->
  month a < month b \/ (month a = month b /\ day a < day b) ->
  _days_before_month (year a) (month a) + day a
  < _days_before_month (year b) (month b) + day b.
Proof.
  intros Ha Hb Hy Hlt.
  apply valid_bounds in Ha as (_ & Hma & Hda).
  apply valid_bounds in Hb as (_ & Hmb & Hdb).
  rewrite <- Hy in *.
  unfold _days_before_month, _days_in_month in *.
  revert Hda Hdb Hlt.
  destruct (_is_leap (year a));
    months (month a) Hma; months (month b) Hmb; simpl; lia.
Qed.

Lemma toordinal_lt (a b : date) :
  valid a = true -> valid b = true ->
  date_lt a b = true -> toordinal a < toordinal b.
Proof.
  intros Ha Hb Hlt. unfold date_lt in Hlt.
  unfold toordinal, _ymd2ord.
  pose proof (day_of_year_bounds a Ha) as Hba.
  pose proof (day_of_year_bounds b Hb) as Hbb.
  apply orb_true_iff in Hlt as [Hy|Hlt].
  - apply Z.ltb_lt in Hy.
    pose proof (days_before_next_year (year a)) as Hnext.
    pose proof (days_before_year_mono (year a + 1) (year b) ltac:(lia)) as Hmono.
    lia.
  - apply andb_true_iff in Hlt as [Hy Hlt]. apply Z.eqb_eq in Hy.
    assert (Hmd : month a < month b \/ (month a = month b /\ day a < day b)).
    { apply orb_true_iff in Hlt as [Hm|Hlt]; [left; now apply Z.ltb_lt|].
      apply andb_true_iff in Hlt as [Hm Hd]. right.
      split; [now apply Z.eqb_eq|now apply Z.ltb_lt]. }
    pose proof (day_of_year_mono a b Ha Hb Hy Hmd) as Hlt'.
    rewrite Hy in *. lia.
Qed.

Lemma date_lt_total (a b : date) :
  date_lt a b = true \/ date_lt b a = true
  \/ (year a = year b /\ month a = month b /\ day a = day b).
Proof.
  unfold date_lt.
  destruct (Z.ltb_spec (year a) (year b)), (Z.ltb_spec (year b) (year a)),
           (Z.eqb_spec (year a) (year b)), (Z.eqb_spec (year b) (year a)),
           (Z.ltb_spec (month a) (month b)), (Z.ltb_spec (month b) (month a)),
           (Z.eqb_spec (month a) (month b)), (Z.eqb_spec (month b) (month a)),
           (Z.ltb_spec (day a) (day b)), (Z.ltb_spec (day b) (day a));
    simpl; try lia; auto.
Qed.

(** The night count is positive exactly when the second date is the later
    one in the calendar. *)
Lemma days_between_positive (check_out check_in : date) :
  valid check_in = true -> valid check_out = true ->
  (0 < days_between check_out check_in <-> date_lt check_in check_out = true).
Proof.
  intros Hin Hout. unfold days_between. split.
  - intros Hpos.
    destruct (date_lt_total check_in check_out) as [Hlt|[Hgt|(Hy & Hm & Hd)]].
    + exact Hlt.
    + pose proof (toordinal_lt _ _ Hout Hin Hgt). lia.
    + unfold toordinal in Hpos. rewrite Hy, Hm, Hd in Hpos. lia.
  - intros Hlt. pose proof (toordinal_lt _ _ Hin Hout Hlt). lia.
Qed.

(** Every valid date has an ordinal between 1 (0001-01-01) and 3652059
    (9999-12-31). *)
Lemma toordinal_range (d : date) :
  valid d = true -> 1 <= toordinal d <= 3652059.
Proof.
  intros Hv. pose proof (day_of_year_bounds d Hv) as Hday.
  apply valid_bounds in Hv as (Hy & _ & _).
  unfold toordinal, _ymd2ord.
  pose proof (days_before_year_mono 1 (year d) ltac:(lia)) as Hlo.
  pose proof (days_before_year_mono (year d + 1) 10000 ltac:(lia)) as Hhi.
  rewrite days_before_next_year in Hhi.
  change (_days_before_year 1) with 0 in Hlo.
  change (_days_before_year 10000) with 3652059 in Hhi.
  lia.
Qed.

(** The day after. *)
Definition next_day (d : date) : date :=
  if day d <? _days_in_month (year d) (month d) then
    mkdate (year d) (month d) (day d + 1)
  else if month d <? 12 then mkdate (year d) (month d + 1) 1
  else mkdate (year d + 1) 1 1.

Lemma next_day_toordinal (d : date) :
  valid d = true -> toordinal (next_day d) = toordinal d + 1.
Proof.
  intros Hv. apply valid_bounds in Hv as (Hy & Hm & Hd).
  unfold next_day, toordinal, _ymd2ord.
  destruct (Z.ltb_spec (day d) (_days_in_month (year d) (month d))) as [Hlt|Hge];
    [simpl; lia|].
  assert (Hlast : day d = _days_in_month (year d) (month d)) by lia.
  destruct (Z.ltb_spec (month d) 12) as [Hm12|Hm12]; simpl.
  - rewrite Hlast. unfold _days_before_month, _days_in_month.
    assert (Hm' : 1 <= month d <= 11) by lia. clear Hd Hge Hlast Hm Hm12.
    destruct (_is_leap (year d));
      assert (Hc : month d = 1 \/ month d = 2 \/ month d = 3 \/ month d = 4
                   \/ month d = 5 \/ month d = 6 \/ month d = 7 \/ month d = 8
                   \/ month d = 9 \/ month d = 10 \/ month d = 11) by lia;
      destruct Hc as [->|[->|[->|[->|[->|[->|[->|[->|[->|[->| ->]]]]]]]]]];
      simpl; lia.
  - assert (Hdec : month d = 12) by lia.
    rewrite Hlast, Hdec, days_before_next_year.
    unfold _days_before_month, _days_in_month, leap_day.
    destruct (_is_leap (year d)), (_is_leap (year d + 1)); simpl; lia.
Qed.

Lemma next_day_valid (d : date) :
  valid d = true -> toordinal d < 3652059 -> valid (next_day d) = true.
Proof.
  intros Hv Hmax. pose proof (valid_bounds d Hv) as (Hy & Hm & Hd).
  unfold next_day.
  destruct (Z.ltb_spec (day d) (_days_in_month (year d) (month d))) as [Hlt|Hge].
  - unfold valid. simpl. rewrite !andb_true_iff, !Z.leb_le. lia.
  - destruct (Z.ltb_spec (month d) 12) as [Hm12|Hm12].
    + unfold valid. simpl. rewrite !andb_true_iff, !Z.leb_le.
      repeat split; try lia.
      unfold _days_in_month. destruct (_ && _); [lia|].
      assert (Hc : month d = 1 \/ month d = 2 \/ month d = 3 \/ month d = 4
                   \/ month d = 5 \/ month d = 6 \/ month d = 7 \/ month d = 8
                   \/ month d = 9 \/ month d = 10 \/ month d = 11) by lia.
      destruct Hc as [->|[->|[->|[->|[->|[->|[->|[->|[->|[->| ->]]]]]]]]]];
        simpl; lia.
    + assert (Hyear : year d < 9999).
      { assert (Hdec : month d = 12) by lia.
        assert (Hlast : day d = _days_in_month (year d) (month d)) by lia.
        destruct (Z.eq_dec (year d) 9999) as [H9|H9]; [|lia].
        exfalso. unfold toordinal, _ymd2ord in Hmax.
        rewrite Hlast, Hdec, H9 in Hmax. vm_compute in Hmax. discriminate. }
      unfold valid. simpl. rewrite !andb_true_iff, !Z.leb_le.
      repeat split; try lia.
      unfold _days_in_month. simpl. lia.
Qed.

Lemma toordinal_inj (a b : date) :
  valid a = true -> valid b = true -> toordinal a = toordinal b -> a = b.
Proof.
  intros Ha Hb Heq.
  destruct (date_lt_total a b) as [Hlt|[Hlt|(Hy & Hm & Hd)]].
  - pose proof (toordinal_lt _ _ Ha Hb Hlt). lia.
  - pose proof (toordinal_lt _ _ Hb Ha Hlt). lia.
  - destruct a, b. simpl in *. congruence.
Qed.

(** The night count is the number of days to step from the first date to
    the second. *)
Lemma days_between_steps (check_out check_in : date) :
  valid check_in = true -> valid check_out = true ->
  0 <= days_between check_out check_in ->
  Nat.iter (Z.to_nat (days_between check_out check_in)) next_day check_in = check_out.
Proof.
  intros Hin Hout Hnn. unfold days_between in *.
  pose proof (toordinal_range _ Hout) as Hrout.
  assert (Hstep : forall k : nat,
             toordinal check_in + Z.of_nat k <= toordinal check_out ->
             valid (Nat.iter k next_day check_in) = true
             /\ toordinal (Nat.iter k next_day check_in)
                = toordinal check_in + Z.of_nat k).
  { induction k as [|k IH]; intros Hk.
    - simpl. split; [exact Hin|lia].
    - destruct IH as [Hv Ho]; [lia|]. simpl.
      split.
      + apply next_day_valid; [exact Hv|lia].
      + rewrite next_day_toordinal by exact Hv. lia. }
  destruct (Hstep (Z.to_nat (toordinal check_out - toordinal check_in)))
    as [Hv Ho]; [lia|].
  apply toordinal_inj; [exact Hv|exact Hout|]. lia.
Qed.

End calendar.

(* ===================================================================== *)
(** * The document store *)
(* ===================================================================== *)

(** ** Field values *)

Inductive ObjectId := mkObjectId (n : N).

#[warnings="-register-all"]
Inductive value :=
  | VNull
  | VBool (b : bool)
  | VInt (n : Z)
  | VFloat (x : float)
  | VStr (s : string)
  | VDate (t : datetime.datetime)
  | VOid (o : ObjectId)
  | VList (l : list value)
  | VDict (d : list (string * value)).

(** A document as the store sees it: a dictionary from field names to
    values. *)
Abbreviation dict := (gmap string value).

(** Number of an [int] or a [float] field, for the mixed comparisons the
    store makes between the two. *)
Definition number (v : value) : option float :=
  match v with
  | VInt n => Some (float_of_int n)
  | VFloat x => Some x
  | _ => None
  end.

(** [a <= b] in the store's order, on numbers: two integers are compared
    exactly, a float with a number in IEEE order.  The filters of this
    program compare nothing else; a comparison with a value that is not a
    number selects nothing. *)
Definition value_le (a b : value) : bool :=
  match a, b with
  | VInt m, VInt n => m <=? n
  | _, _ =>
      match number a, number b with
      | Some x, Some y => PrimFloat.leb x y
      | _, _ => false
      end
  end.

Fixpoint value_eqb (a b : value) : bool :=
  match a, b with
  | VNull, VNull => true
  | VBool p, VBool q => Bool.eqb p q
  | VInt m, VInt n => m =? n
  | VStr s, VStr t => String.eqb s t
  | VDate s, VDate t => s =? t
  | VOid (mkObjectId m), VOid (mkObjectId n) => N.eqb m n
  | VList l, VList k =>
      (fix all2 (l k : list value) : bool :=
         match l, k with
         | [], [] => true
         | x :: l, y :: k => value_eqb x y && all2 l k
         | _, _ => false
         end) l k
  | VDict d, VDict e =>
      (fix all2 (d e : list (string * value)) : bool :=
         match d, e with
         | [], [] => true
         | (k, x) :: d, (l, y) :: e =>
             String.eqb k l && value_eqb x y && all2 d e
         | _, _ => false
         end) d e
  | _, _ =>
      match number a, number b with
      | Some x, Some y => PrimFloat.eqb x y
      | _, _ => false
      end
  end.

(** ** Query filters

    A filter is a dictionary from field names to conditions; a condition is
    either a value, matched by equality ([{"id": property_id}]), or a
    dictionary of operators ([{"$gte": min_price, "$lte": max_price}],
    [{"$regex": city, "$options": "i"}]).  A document matches a filter when
    it meets the condition of every field the filter names. *)

Inductive condition :=
  | Equals (v : value)
  | Operators (ops : gmap string value).

Abbreviation Filter := (gmap string condition).

(** ** Stored documents *)

(** What is stored: the dictionary written, under the [_id] the store gave
    it.  A document read back is the same pair; [del doc["_id"]] leaves
    [None] for the key. *)
Record stored (A : Type) := mkstored { _id : option ObjectId; fields : A }.
Arguments mkstored {A} _ _.
Arguments _id {A} _.
Arguments fields {A} _.

(** The program's record types are read by the store as dictionaries. *)
Class Document (A : Type) := as_dict : A -> dict.

(* ===================================================================== *)
(** * Models *)
(* ===================================================================== *)

Module User.
Record t := mk {
  id : string;
  email : string;
  first_name : string;
  last_name : string;
  password_hash : string;
  created_at : datetime.datetime
}.
End User.
Abbreviation User := User.t.

Module Property.
Record t := mk {
  id : string;
  title : string;
  description : string;
  property_type : string;
  city : string;
  state : string;
  address : string;
  price_per_night : float;
  max_guests : Z;
  bedrooms : Z;
  bathrooms : Z;
  amenities : list string;
  images : list string;
  available : bool;
  created_at : datetime.datetime
}.
End Property.
Abbreviation Property := Property.t.

(** [Booking] carries its two dates as [date]; the dictionary written to
    the store ([booking_dict]) has the same keys with the dates replaced by
    their ISO strings.  The record is therefore indexed by the type of its
    date fields. *)
Module Booking.
Record t (D : Type) := mk {
  id : string;
  user_id : string;
  property_id : string;
  check_in : D;
  check_out : D;
  guests : Z;
  total_price : float;
  status : string;
  created_at : datetime.datetime
}.
Arguments mk {D}.
Arguments id {D}.
Arguments user_id {D}.
Arguments property_id {D}.
Arguments check_in {D}.
Arguments check_out {D}.
Arguments guests {D}.
Arguments total_price {D}.
Arguments status {D}.
Arguments created_at {D}.
End Booking.
Abbreviation Booking := (Booking.t date).
Abbreviation booking_dict := (Booking.t string).

Module BookingCreate.
Record t := mk {
  property_id : string;
  check_in : date;
  check_out : date;
  guests : Z
}.
End BookingCreate.
Abbreviation BookingCreate := BookingCreate.t.

(** The dictionaries of the stored models, key by key. *)

#[export] Instance User_Document : Document User := fun u =>
  <["id" := VStr (User.id u)]>
  (<["email" := VStr (User.email u)]>
  (<["first_name" := VStr (User.first_name u)]>
  (<["last_name" := VStr (User.last_name u)]>
  (<["password_hash" := VStr (User.password_hash u)]>
  (<["created_at" := VDate (User.created_at u)]> ∅))))).

#[export] Instance Property_Document : Document Property := fun p =>
  <["id" := VStr (Property.id p)]>
  (<["title" := VStr (Property.title p)]>
  (<["description" := VStr (Property.description p)]>
  (<["property_type" := VStr (Property.property_type p)]>
  (<["city" := VStr (Property.city p)]>
  (<["state" := VStr (Property.state p)]>
  (<["address" := VStr (Property.address p)]>
  (<["price_per_night" := VFloat (Property.price_per_night p)]>
  (<["max_guests" := VInt (Property.max_guests p)]>
  (<["bedrooms" := VInt (Property.bedrooms p)]>
  (<["bathrooms" := VInt (Property.bathrooms p)]>
  (<["amenities" := VList (VStr <$> Property.amenities p)]>
  (<["images" := VList (VStr <$> Property.images p)]>
  (<["available" := VBool (Property.available p)]>
  (<["created_at" := VDate (Property.created_at p)]> ∅)))))))))))))).

#[export] Instance booking_dict_Document : Document booking_dict := fun b =>
  <["id" := VStr (Booking.id b)]>
  (<["user_id" := VStr (Booking.user_id b)]>
  (<["property_id" := VStr (Booking.property_id b)]>
  (<["check_in" := VStr (Booking.check_in b)]>
  (<["check_out" := VStr (Booking.check_out b)]>
  (<["guests" := VInt (Booking.guests b)]>
  (<["total_price" := VFloat (Booking.total_price b)]>
  (<["status" := VStr (Booking.status b)]>
  (<["created_at" := VDate (Booking.created_at b)]> ∅)))))))).

(** The three collections of [db]. *)
Record Database := mkDatabase {
  users : list (stored User);
  properties : list (stored Property);
  bookings : list (stored booking_dict)
}.

(** ** Responses *)

Record HTTPException := mkHTTPException { status_code : Z; detail : string }.

Inductive response (A : Type) :=
  | Raise (e : HTTPException)
  | Return (a : A).
Arguments Raise {A} e.
Arguments Return {A} a.

(** An exception that no handler catches.  The request ends in it: the
    handler returns nothing and the client is told of a server error. *)
Inductive error :=
  | OverflowError
  | AttributeError.

(** How a request ends: with the handler's response, or in an exception
    nothing caught. *)
Inductive ending (A : Type) :=
  | Responds (r : response A)
  | Uncaught (e : error).
Arguments Responds {A} r.
Arguments Uncaught {A} e.
Coercion Responds : response >-> ending.

(** ** What the store can hold

    A document is encoded before it is written.  An integer has at most
    eight bytes: encoding one outside the signed 64-bit range raises
    [OverflowError], and the document is not written.  A datetime is kept
    to the millisecond. *)

Definition int64 (n : Z) : bool := (- 2 ^ 63 <=? n) && (n <? 2 ^ 63).

Definition bson_datetime (t : datetime.datetime) : datetime.datetime :=
  t / 1000 * 1000.

(** A [User] has no integer: it is written as it is, but for the clock. *)
Definition encode_user (document : User) : User :=
  User.mk (User.id document)
          (User.email document)
          (User.first_name document)
          (User.last_name document)
          (User.password_hash document)
          (bson_datetime (User.created_at document)).

(** A [Property] as the store keeps it, when it can be written. *)
Definition stored_property (document : Property) : Property :=
  Property.mk (Property.id document)
              (Property.title document)
              (Property.description document)
              (Property.property_type document)
              (Property.city document)
              (Property.state document)
              (Property.address document)
              (Property.price_per_night document)
              (Property.max_guests document)
              (Property.bedrooms document)
              (Property.bathrooms document)
              (Property.amenities document)
              (Property.images document)
              (Property.available document)
              (bson_datetime (Property.created_at document)).

Definition encode_property (document : Property) : option Property :=
  if int64 (Property.max_guests document)
     && int64 (Property.bedrooms document)
     && int64 (Property.bathrooms document)
  then Some (stored_property document)
  else None.

Definition encode_booking (document : booking_dict) : option booking_dict :=
  if int64 (Booking.guests document) then
    Some (Booking.mk (Booking.id document)
                     (Booking.user_id document)
                     (Booking.property_id document)
                     (Booking.check_in document)
                     (Booking.check_out document)
                     (Booking.guests document)
                     (Booking.total_price document)
                     (Booking.status document)
                     (bson_datetime (Booking.created_at document)))
  else None.

Section Store.

(** The store's regular-expression search: [regex_search pattern options
    subject].  The engine is the store's, not the program's, and is left
    open. *)
Variable regex_search : string -> string -> string -> bool.

(** The ["$options"] that accompany a ["$regex"]; none when absent. *)
Definition regex_options (ops : gmap string value) : string :=
  match ops !! "$options" with
  | Some (VStr o) => o
  | _ => EmptyString
  end.

(** One operator of an operator dictionary, applied to the field [x] of a
    document ([None] when the document has no such field). *)
Definition operator_holds (ops : gmap string value) (x : option value)
    (op : string) (arg : value) : bool :=
  if String.eqb op "$gte" then
    match x with Some v => value_le arg v | None => false end
  else if String.eqb op "$lte" then
    match x with Some v => value_le v arg | None => false end
  else if String.eqb op "$regex" then
    match x, arg with
    | Some (VStr s), VStr pattern => regex_search pattern (regex_options ops) s
    | _, _ => false
    end
  else if String.eqb op "$options" then true
  else false.

Definition condition_holds (c : condition) (x : option value) : bool :=
  match c with
  | Equals v =>
      match x with Some w => value_eqb w v | None => false end
  | Operators ops =>
      forallb (fun kv => operator_holds ops x kv.1 kv.2) (map_to_list ops)
  end.

Definition matches (f : Filter) (d : dict) : bool :=
  forallb (fun kc => condition_holds kc.2 (d !! kc.1)) (map_to_list f).

(** ** Collections *)

Definition stored_dict {A} `{Document A} (d : stored A) : dict :=
  match _id d with
  | Some o => <["_id" := VOid o]> (as_dict (fields d))
  | None => as_dict (fields d)
  end.

Section Collection.
Context {A : Type} `{Document A}.

(** [collection.find(filter)]: the matching documents, in natural
    order. *)
Definition find (f : Filter) (c : list (stored A)) : list (stored A) :=
  List.filter (fun d => matches f (stored_dict d)) c.

(** [cursor.to_list(length)]: at most [length] documents. *)
Definition to_list (length : nat) (cursor : list (stored A)) : list (stored A) :=
  take length cursor.

(** [collection.find_one(filter)]: the first match, or [None]. *)
Definition find_one (f : Filter) (c : list (stored A)) : option (stored A) :=
  List.find (fun d => matches f (stored_dict d)) c.

(** [collection.insert_one(document)]: the document goes to the end of
    the collection under a new [_id]. *)
Definition insert_one (o : ObjectId) (document : A) (c : list (stored A))
  : list (stored A) :=
  c ++ [mkstored (Some o) document].

(** [collection.delete_one(filter)]: removes the first match; the
    second component is [deleted_count]. *)
Fixpoint delete_one (f : Filter) (c : list (stored A)) : list (stored A) * Z :=
  match c with
  | [] => ([], 0)
  | d :: c' =>
      if matches f (stored_dict d) then (c', 1)
      else let r := delete_one f c' in (d :: r.1, r.2)
  end.

End Collection.

(* =================================================================== *)
(** * Request handlers *)
(* =================================================================== *)

(** [if x: body] on an [Optional] argument: [None] is false, and the body
    runs when [x] is there and true. *)
Definition if_truthy {A} (truthy : A -> bool) (x : option A)
    (body : A -> Filter -> Filter) (filter_dict : Filter) : Filter :=
  match x with
  | Some v => if truthy v then body v filter_dict else filter_dict
  | None => filter_dict
  end.

(** [key in filter_dict] *)
Definition contains (key : string) (filter_dict : Filter) : bool :=
  match filter_dict !! key with
  | Some _ => true
  | None => false
  end.

(** [filter_dict[key][op] = v] *)
Definition set_operator (key op : string) (v : value) (filter_dict : Filter)
  : Filter :=
  match filter_dict !! key with
  | Some (Operators ops) => <[key := Operators (<[op := v]> ops)]> filter_dict
  | _ => filter_dict
  end.

(** ** [GET /properties] *)

Definition build_filter (city : option string) (min_price max_price : option float)
    (min_guests : option Z) (property_type : option string) : Filter :=
  let filter_dict : Filter := {["available" := Equals (VBool true)]} in
  let filter_dict :=
    if_truthy truthy_str city (fun city =>
      <["city" := Operators (<["$regex" := VStr city]> {["$options" := VStr "i"]})]>)
      filter_dict in
  let filter_dict :=
    if_truthy truthy_float min_price (fun min_price =>
      <["price_per_night" := Operators {["$gte" := VFloat min_price]}]>)
      filter_dict in
  let filter_dict :=
    if_truthy truthy_float max_price (fun max_price filter_dict =>
      if contains "price_per_night" filter_dict then
        set_operator "price_per_night" "$lte" (VFloat max_price) filter_dict
      else
        <["price_per_night" := Operators {["$lte" := VFloat max_price]}]> filter_dict)
      filter_dict in
  let filter_dict :=
    if_truthy truthy_int min_guests (fun min_guests =>
      <["max_guests" := Operators {["$gte" := VInt min_guests]}]>)
      filter_dict in
  let filter_dict :=
    if_truthy truthy_str property_type (fun property_type =>
      <["property_type" :=
          Operators (<["$regex" := VStr property_type]> {["$options" := VStr "i"]})]>)
      filter_dict in
  filter_dict.

Definition get_properties (city : option string) (min_price max_price : option float)
    (min_guests : option Z) (property_type : option string) (db : Database)
  : list Property :=
  let filter_dict := build_filter city min_price max_price min_guests property_type in
  let properties := to_list 100 (find filter_dict (properties db)) in
  (* each document read as a [Property]: the model's keys; [_id] is not one *)
  map fields properties.

(** ** [POST /bookings] *)

(** What a request draws from outside the program: [uuid.uuid4()] for the
    booking's [id], [datetime.utcnow()] for [created_at], and the [_id]
    the store gives the inserted document. *)
Record Fresh := mkFresh {
  uuid4 : string;
  utcnow : datetime.datetime;
  object_id : ObjectId
}.

Record BookingCreated := mkBookingCreated {
  created_success : bool;
  created_booking_id : string;
  created_total_price : float
}.

Definition create_booking (booking_data : BookingCreate) (current_user : User)
    (fresh : Fresh) (db : Database) : ending BookingCreated * Database :=
  (* Get property details *)
  match find_one {["id" := Equals (VStr (BookingCreate.property_id booking_data))]}
                 (properties db) with
  | None => (Responds (Raise (mkHTTPException 404 "Property not found")), db)
  | Some property_doc =>
      (* Calculate total price *)
      let days := datetime.days_between (BookingCreate.check_out booking_data)
                                        (BookingCreate.check_in booking_data) in
      if days <=? 0 then
        (Responds (Raise (mkHTTPException 400 "Invalid date range")), db)
      else
        let total_price :=
          int_mul_float days (Property.price_per_night (fields property_doc)) in
        (* Create booking *)
        let booking : Booking :=
          Booking.mk (uuid4 fresh)
                     (User.id current_user)
                     (BookingCreate.property_id booking_data)
                     (BookingCreate.check_in booking_data)
                     (BookingCreate.check_out booking_data)
                     (BookingCreate.guests booking_data)
                     total_price
                     "confirmed"
                     (utcnow fresh) in
        (* Convert date objects to strings for MongoDB storage *)
        let booking_dict : booking_dict :=
          Booking.mk (Booking.id booking)
                     (Booking.user_id booking)
                     (Booking.property_id booking)
                     (datetime.isoformat (Booking.check_in booking))
                     (datetime.isoformat (Booking.check_out booking))
                     (Booking.guests booking)
                     (Booking.total_price booking)
                     (Booking.status booking)
                     (Booking.created_at booking) in
        (* [insert_one]: the document is encoded, then written; when it
           cannot be encoded the exception leaves the handler *)
        match encode_booking booking_dict with
        | None => (Uncaught OverflowError, db)
        | Some document =>
            (Responds (Return (mkBookingCreated true (Booking.id booking) total_price)),
             mkDatabase (users db) (properties db)
                        (insert_one (object_id fresh) document (bookings db)))
        end
  end.

(** ** [GET /bookings] *)

(** [if "_id" in doc: del doc["_id"]] *)
Definition del_id {A} (doc : stored A) : stored A :=
  match _id doc with
  | Some _ => mkstored None (fields doc)
  | None => doc
  end.

(** [{**booking, "property": property_doc}]: the booking's own keys and
    one more, whose value is the property document or [None]. *)
Record booking_with_property := mk_booking_with_property {
  booking : stored booking_dict;
  property : option (stored Property)
}.

Definition get_user_bookings (current_user : User) (db : Database)
  : list booking_with_property :=
  let bookings :=
    if String.eqb (User.email current_user) "admin@wunderwohn.com" then
      (* For admin users, return all bookings *)
      to_list 1000 (find ∅ (bookings db))
    else
      (* For regular users, return only their bookings *)
      to_list 100
        (find {["user_id" := Equals (VStr (User.id current_user))]} (bookings db)) in
  (* Get property details for each booking *)
  map (fun booking =>
         let booking := del_id booking in
         let property_doc :=
           find_one {["id" := Equals (VStr (Booking.property_id (fields booking)))]}
                    (properties db) in
         let property_doc := del_id <$> property_doc in
         mk_booking_with_property booking property_doc)
      bookings.

(** ** [DELETE /bookings/{booking_id}] *)

Record Deleted := mkDeleted {
  deleted_success : bool;
  deleted_message : string
}.

Definition delete_booking (booking_id : string) (current_user : User)
    (db : Database) : response Deleted * Database :=
  (* Find the booking *)
  match find_one {["id" := Equals (VStr booking_id)]} (bookings db) with
  | None => (Raise (mkHTTPException 404 "Booking not found"), db)
  | Some booking =>
      (* Check if user owns the booking or is admin *)
      if negb (String.eqb (Booking.user_id (fields booking)) (User.id current_user))
         && negb (String.eqb (User.email current_user) "admin@wunderwohn.com")
      then
        (Raise (mkHTTPException 403 "Not authorized to delete this booking"), db)
      else
        (* Delete the booking *)
        let result := delete_one {["id" := Equals (VStr booking_id)]} (bookings db) in
        let db := mkDatabase (users db) (properties db) result.1 in
        if result.2 =? 0 then
          (Raise (mkHTTPException 404 "Booking not found"), db)
        else
          (Return (mkDeleted true "Booking deleted successfully"), db)
  end.

(* =================================================================== *)
(** * How filters select *)
(* =================================================================== *)

Lemma forallb_Permutation {A} (f : A -> bool) (l k : list A) :
  l ≡ₚ k -> forallb f l = forallb f k.
Proof.
  induction 1 as [|x l k _ IH|x y l|l k m _ IH1 _ IH2]; simpl.
  - reflexivity.
  - now rewrite IH.
  - now destruct (f x), (f y).
  - now rewrite IH1.
Qed.

Lemma matches_empty (d : dict) : matches ∅ d = true.
Proof. unfold matches. now rewrite map_to_list_empty. Qed.

Lemma matches_insert (f : Filter) (k : string) (c : condition) (d : dict) :
  f !! k = None ->
  matches (<[k := c]> f) d = condition_holds c (d !! k) && matches f d.
Proof.
  intros Hk. unfold matches.
  now rewrite (forallb_Permutation _ _ _ (map_to_list_insert f k c Hk)).
Qed.

Lemma matches_singleton (k : string) (c : condition) (d : dict) :
  matches {[k := c]} d = condition_holds c (d !! k).
Proof.
  unfold matches. rewrite map_to_list_singleton. simpl.
  apply andb_true_r.
Qed.

Lemma matches_spec (f : Filter) (d : dict) :
  matches f d = true <->
  forall k c, f !! k = Some c -> condition_holds c (d !! k) = true.
Proof.
  unfold matches. rewrite forallb_forall. split.
  - intros H k c Hk. apply (H (k, c)).
    apply list_elem_of_In, elem_of_map_to_list, Hk.
  - intros H [k c] Hin. apply H.
    apply elem_of_map_to_list, list_elem_of_In, Hin.
Qed.

Lemma operators_insert (ops : gmap string value) (op : string) (arg : value)
    (x : option value) :
  ops !! op = None ->
  condition_holds (Operators (<[op := arg]> ops)) x
  = operator_holds (<[op := arg]> ops) x op arg
    && forallb (fun kv => operator_holds (<[op := arg]> ops) x kv.1 kv.2)
               (map_to_list ops).
Proof.
  intros Hop. simpl.
  now rewrite (forallb_Permutation _ _ _ (map_to_list_insert ops op arg Hop)).
Qed.

(** The conditions the handlers put into their filters, read on a
    document's field. *)

Lemma gte_holds (lo : value) (x : option value) :
  condition_holds (Operators {["$gte" := lo]}) x
  = match x with Some v => value_le lo v | None => false end.
Proof.
  simpl. rewrite map_to_list_singleton. simpl.
  unfold operator_holds. simpl. apply andb_true_r.
Qed.

Lemma lte_holds (hi : value) (x : option value) :
  condition_holds (Operators {["$lte" := hi]}) x
  = match x with Some v => value_le v hi | None => false end.
Proof.
  simpl. rewrite map_to_list_singleton. simpl.
  unfold operator_holds. simpl. apply andb_true_r.
Qed.

Lemma range_holds (lo hi : value) (x : option value) :
  condition_holds (Operators (<["$lte" := hi]> {["$gte" := lo]})) x
  = match x with
    | Some v => value_le lo v && value_le v hi
    | None => false
    end.
Proof.
  rewrite operators_insert by reflexivity.
  rewrite map_to_list_singleton. simpl.
  unfold operator_holds. simpl.
  destruct x as [v|]; [|reflexivity].
  rewrite andb_true_r. apply andb_comm.
Qed.

Lemma regex_holds (pattern : string) (x : option value) :
  condition_holds
    (Operators (<["$regex" := VStr pattern]> {["$options" := VStr "i"]})) x
  = match x with
    | Some (VStr s) => regex_search pattern "i" s
    | _ => false
    end.
Proof.
  rewrite operators_insert by reflexivity.
  rewrite map_to_list_singleton. simpl.
  unfold operator_holds. simpl.
  replace (regex_options _) with "i" by reflexivity.
  destruct x as [[]|]; simpl; try reflexivity.
  now rewrite !andb_true_r.
Qed.

Lemma equals_str_holds (s : string) (x : option value) :
  condition_holds (Equals (VStr s)) x = true <-> x = Some (VStr s).
Proof.
  destruct x as [[| | | |t| |[]| |]|]; simpl;
    try (split; [discriminate|intros [=]]).
  rewrite String.eqb_eq. split; [intros ->; reflexivity|intros [=]; assumption].
Qed.

(** A stored document's fields other than [_id] are those of the
    dictionary that was written. *)
Lemma stored_dict_lookup {A} `{Document A} (d : stored A) (k : string) :
  k <> "_id" -> stored_dict d !! k = as_dict (fields d) !! k.
Proof.
  intros Hk. unfold stored_dict.
  destruct (_id d); [|reflexivity].
  now rewrite lookup_insert_ne.
Qed.

(** ** The search predicate

    What [build_filter] asks of a property, criterion by criterion: a
    criterion that is absent or false as a truth value asks nothing. *)

Definition admits {A} (truthy : A -> bool) (x : option A) (test : A -> bool)
  : bool :=
  match x with
  | Some v => if truthy v then test v else true
  | None => true
  end.

Definition selects (city : option string) (min_price max_price : option float)
    (min_guests : option Z) (property_type : option string) (p : Property)
  : bool :=
  Property.available p
  && admits truthy_str city
       (fun city => regex_search city "i" (Property.city p))
  && admits truthy_float min_price
       (fun min_price => PrimFloat.leb min_price (Property.price_per_night p))
  && admits truthy_float max_price
       (fun max_price => PrimFloat.leb (Property.price_per_night p) max_price)
  && admits truthy_int min_guests
       (fun min_guests => min_guests <=? Property.max_guests p)
  && admits truthy_str property_type
       (fun property_type => regex_search property_type "i" (Property.property_type p)).

Lemma Property_lookup (p : Property) :
  as_dict p !! "available" = Some (VBool (Property.available p))
  /\ as_dict p !! "city" = Some (VStr (Property.city p))
  /\ as_dict p !! "price_per_night" = Some (VFloat (Property.price_per_night p))
  /\ as_dict p !! "max_guests" = Some (VInt (Property.max_guests p))
  /\ as_dict p !! "property_type" = Some (VStr (Property.property_type p))
  /\ as_dict p !! "id" = Some (VStr (Property.id p)).
Proof. repeat split. Qed.

Lemma booking_dict_lookup (b : booking_dict) :
  as_dict b !! "id" = Some (VStr (Booking.id b))
  /\ as_dict b !! "user_id" = Some (VStr (Booking.user_id b))
  /\ as_dict b !! "property_id" = Some (VStr (Booking.property_id b)).
Proof. repeat split. Qed.

(** The criterion that takes part in the search: the argument when it is
    there and true, nothing otherwise. *)
Definition effective {A} (truthy : A -> bool) (x : option A) : option A :=
  match x with
  | Some v => if truthy v then Some v else None
  | None => None
  end.

Lemma if_truthy_effective {A} (truthy : A -> bool) (x : option A)
    (body : A -> Filter -> Filter) (f : Filter) :
  if_truthy truthy x body f
  = match effective truthy x with Some v => body v f | None => f end.
Proof. destruct x as [v|]; simpl; [destruct (truthy v)|]; reflexivity. Qed.

Lemma admits_effective {A} (truthy : A -> bool) (x : option A) (test : A -> bool) :
  admits truthy x test
  = match effective truthy x with Some v => test v | None => true end.
Proof. destruct x as [v|]; simpl; [destruct (truthy v)|]; reflexivity. Qed.

Ltac lookups :=
  repeat first
    [ rewrite lookup_insert_eq
    | rewrite lookup_insert_ne by discriminate
    | rewrite lookup_singleton_eq
    | rewrite lookup_singleton_ne by discriminate
    | rewrite lookup_empty ].

(** The filter built from the criteria selects exactly by [selects]. *)
Lemma build_filter_selects city min_price max_price min_guests property_type
    (d : stored Property) :
  matches (build_filter city min_price max_price min_guests property_type)
          (stored_dict d)
  = selects city min_price max_price min_guests property_type (fields d).
Proof.
  destruct (Property_lookup (fields d)) as (Ha & Hc & Hp & Hg & Ht & _).
  unfold build_filter, selects.
  rewrite !if_truthy_effective, !admits_effective.
  destruct (effective truthy_str city) as [c|];
    destruct (effective truthy_float min_price) as [lo|];
    destruct (effective truthy_float max_price) as [hi|];
    destruct (effective truthy_int min_guests) as [g|];
    destruct (effective truthy_str property_type) as [t|].
  all: unfold set_operator, contains; lookups; rewrite ?insert_insert_eq.
  all: repeat (rewrite matches_insert by (lookups; reflexivity));
         rewrite matches_singleton.
  all: rewrite ?stored_dict_lookup by discriminate.
  all: rewrite ?Ha, ?Hc, ?Hp, ?Hg, ?Ht.
  all: rewrite ?regex_holds, ?gte_holds, ?lte_holds, ?range_holds.
  all: cbn [condition_holds value_eqb value_le number].
  all: destruct (Property.available (fields d)); cbn [Bool.eqb].
  all: btauto.
Qed.

Lemma filter_map_fields {A} (P : A -> bool) (l : list (stored A)) :
  map fields (List.filter (fun d => P (fields d)) l)
  = List.filter P (map fields l).
Proof.
  induction l as [|d l IH]; simpl; [reflexivity|].
  destruct (P (fields d)); simpl; now rewrite IH.
Qed.

(** [get_properties] returns the first hundred of the properties that
    [selects] admits, in the store's order. *)
Lemma get_properties_selects city min_price max_price min_guests property_type db :
  get_properties city min_price max_price min_guests property_type db
  = take 100
      (List.filter (selects city min_price max_price min_guests property_type)
                   (map fields (properties db))).
Proof.
  unfold get_properties, to_list, find.
  rewrite <- List.firstn_map. f_equal.
  rewrite <- filter_map_fields.
  f_equal. apply List.filter_ext. intros d. apply build_filter_selects.
Qed.

(* =================================================================== *)
(** * Property search *)
(* =================================================================== *)

Lemma selects_available city min_price max_price min_guests property_type p :
  selects city min_price max_price min_guests property_type p = true ->
  Property.available p = true.
Proof.
  unfold selects. rewrite !andb_true_iff. tauto.
Qed.

Lemma get_properties_In city min_price max_price min_guests property_type db p :
  In p (get_properties city min_price max_price min_guests property_type db) ->
  selects city min_price max_price min_guests property_type p = true.
Proof.
  rewrite get_properties_selects. intros Hin.
  apply list_elem_of_In, elem_of_take in Hin as (i & Hi & _).
  apply list_elem_of_lookup_2, list_elem_of_In, filter_In in Hi.
  apply Hi.
Qed.

(** C5.  Whatever the criteria, every property a search returns has its
    [available] flag true, and a search returns at most 100 properties. *)
Theorem search_available_and_capped
    city min_price max_price min_guests property_type db :
  (forall p,
      In p (get_properties city min_price max_price min_guests property_type db) ->
      Property.available p = true)
  /\ (length (get_properties city min_price max_price min_guests property_type db)
      <= 100)%nat.
Proof.
  split.
  - intros p Hin. eapply selects_available, get_properties_In, Hin.
  - rewrite get_properties_selects, length_take. apply Nat.le_min_l.
  Qed.


(** C10.  A criterion whose value is false as a truth value takes no part
    in the search: [min_price = 0], [max_price = 0], [min_guests = 0],
    [city = ""] and [property_type = ""] each give the result of the
    search without that criterion. *)
Theorem search_falsy_is_unset
    city min_price max_price min_guests property_type db :
  get_properties city (Some 0%float) max_price min_guests property_type db
  = get_properties city None max_price min_guests property_type db
  /\ get_properties city min_price (Some 0%float) min_guests property_type db
     = get_properties city min_price None min_guests property_type db
  /\ get_properties city min_price max_price (Some 0) property_type db
     = get_properties city min_price max_price None property_type db
  /\ get_properties (Some EmptyString) min_price max_price min_guests property_type db
     = get_properties None min_price max_price min_guests property_type db
  /\ get_properties city min_price max_price min_guests (Some EmptyString) db
     = get_properties city min_price max_price min_guests None db.
Proof.
  repeat split; reflexivity.
Qed.

(* =================================================================== *)
(** * Bookings *)
(* =================================================================== *)

(** ** The equality filters of the booking handlers *)

Lemma matches_property_id (property_id : string) (d : stored Property) :
  matches {["id" := Equals (VStr property_id)]} (stored_dict d)
  = String.eqb (Property.id (fields d)) property_id.
Proof.
  rewrite matches_singleton, stored_dict_lookup by discriminate.
  destruct (Property_lookup (fields d)) as (_ & _ & _ & _ & _ & ->).
  reflexivity.
Qed.

Lemma matches_booking_id (booking_id : string) (d : stored booking_dict) :
  matches {["id" := Equals (VStr booking_id)]} (stored_dict d)
  = String.eqb (Booking.id (fields d)) booking_id.
Proof.
  rewrite matches_singleton, stored_dict_lookup by discriminate.
  destruct (booking_dict_lookup (fields d)) as (-> & _).
  reflexivity.
Qed.

Lemma matches_user_id (user_id : string) (d : stored booking_dict) :
  matches {["user_id" := Equals (VStr user_id)]} (stored_dict d)
  = String.eqb (Booking.user_id (fields d)) user_id.
Proof.
  rewrite matches_singleton, stored_dict_lookup by discriminate.
  destruct (booking_dict_lookup (fields d)) as (_ & -> & _).
  reflexivity.
Qed.

Lemma find_all {A} `{Document A} (c : list (stored A)) : find ∅ c = c.
Proof.
  unfold find. induction c as [|d c IH]; simpl; [reflexivity|].
  rewrite matches_empty. now rewrite IH.
Qed.

Lemma find_user_id (user_id : string) (c : list (stored booking_dict)) :
  find {["user_id" := Equals (VStr user_id)]} c
  = List.filter (fun d => String.eqb (Booking.user_id (fields d)) user_id) c.
Proof. apply List.filter_ext. intros d. apply matches_user_id. Qed.

(** ** [create_booking] *)

(** The booking that a successful [create_booking] writes. *)
Definition written_booking (booking_data : BookingCreate) (current_user : User)
    (fresh : Fresh) (price_per_night : float) : stored booking_dict :=
  mkstored (Some (object_id fresh))
    (Booking.mk (uuid4 fresh)
                (User.id current_user)
                (BookingCreate.property_id booking_data)
                (datetime.isoformat (BookingCreate.check_in booking_data))
                (datetime.isoformat (BookingCreate.check_out booking_data))
                (BookingCreate.guests booking_data)
                (int_mul_float
                   (datetime.days_between (BookingCreate.check_out booking_data)
                                          (BookingCreate.check_in booking_data))
                   price_per_night)
                "confirmed"
                (bson_datetime (utcnow fresh))).

Lemma create_booking_ok booking_data current_user fresh db property_doc :
  find_one {["id" := Equals (VStr (BookingCreate.property_id booking_data))]}
           (properties db) = Some property_doc ->
  0 < datetime.days_between (BookingCreate.check_out booking_data)
                            (BookingCreate.check_in booking_data) ->
  int64 (BookingCreate.guests booking_data) = true ->
  create_booking booking_data current_user fresh db
  = (Responds
       (Return
          (mkBookingCreated true (uuid4 fresh)
             (int_mul_float
                (datetime.days_between (BookingCreate.check_out booking_data)
                                       (BookingCreate.check_in booking_data))
                (Property.price_per_night (fields property_doc))))),
     mkDatabase (users db) (properties db)
       (bookings db
        ++ [written_booking booking_data current_user fresh
              (Property.price_per_night (fields property_doc))])).
Proof.
  intros Hfind Hdays Hguests. unfold create_booking. rewrite Hfind.
  destruct (Z.leb_spec (datetime.days_between (BookingCreate.check_out booking_data)
                                              (BookingCreate.check_in booking_data)) 0)
    as [Hle|_]; [lia|].
  unfold encode_booking. cbn [Booking.guests]. rewrite Hguests.
  reflexivity.
Qed.

Lemma create_booking_overflow booking_data current_user fresh db property_doc :
  find_one {["id" := Equals (VStr (BookingCreate.property_id booking_data))]}
           (properties db) = Some property_doc ->
  0 < datetime.days_between (BookingCreate.check_out booking_data)
                            (BookingCreate.check_in booking_data) ->
  int64 (BookingCreate.guests booking_data) = false ->
  create_booking booking_data current_user fresh db = (Uncaught OverflowError, db).
Proof.
  intros Hfind Hdays Hguests. unfold create_booking. rewrite Hfind.
  destruct (Z.leb_spec (datetime.days_between (BookingCreate.check_out booking_data)
                                              (BookingCreate.check_in booking_data)) 0)
    as [Hle|_]; [lia|].
  unfold encode_booking. cbn [Booking.guests]. rewrite Hguests.
  reflexivity.
Qed.

(** The product of the handler is the processor's: the night count
    converted to a float, times the price. *)
Lemma int_mul_float_primitive (n : Z) (x : float) :
  0 <= n < 2 ^ 63 ->
  int_mul_float n x = PrimFloat.mul (PrimFloat.of_uint63 (Uint63.of_Z n)) x.
Proof.
  intros Hn. unfold int_mul_float. now rewrite float_of_int_primitive.
Qed.

(** C1, as the code has it.  A request carries two valid dates.  When its
    property is found, the stay has at least one night and the guest count
    is one the store can hold (a signed 64-bit integer), [create_booking]
    succeeds.  The nights are the days of the calendar from [check_in] to
    [check_out]; the [total_price] returned, and written into the booking,
    is the floating-point product of the night count and the
    [price_per_night] of the property document that was read.  At 120.0 a
    night, from 2025-06-01 to 2025-06-04, that is 3 nights and 360.0. *)
Theorem create_booking_total_price booking_data current_user fresh db property_doc :
  datetime.valid (BookingCreate.check_in booking_data) = true ->
  datetime.valid (BookingCreate.check_out booking_data) = true ->
  find_one {["id" := Equals (VStr (BookingCreate.property_id booking_data))]}
           (properties db) = Some property_doc ->
  let nights := datetime.days_between (BookingCreate.check_out booking_data)
                                      (BookingCreate.check_in booking_data) in
  let price := Property.price_per_night (fields property_doc) in
  0 < nights ->
  int64 (BookingCreate.guests booking_data) = true ->
  let total_price := PrimFloat.mul (PrimFloat.of_uint63 (Uint63.of_Z nights)) price in
  Nat.iter (Z.to_nat nights) calendar.next_day (BookingCreate.check_in booking_data)
  = BookingCreate.check_out booking_data
  /\ (exists db',
        create_booking booking_data current_user fresh db
        = (Responds (Return (mkBookingCreated true (uuid4 fresh) total_price)), db')
        /\ users db' = users db
        /\ properties db' = properties db
        /\ exists b, bookings db' = (bookings db ++ [b])%list
                     /\ Booking.total_price (fields b) = total_price
                     /\ Booking.property_id (fields b)
                        = BookingCreate.property_id booking_data
                     /\ Booking.user_id (fields b) = User.id current_user)
  /\ (price = 120%float ->
      BookingCreate.check_in booking_data = datetime.mkdate 2025 6 1 ->
      BookingCreate.check_out booking_data = datetime.mkdate 2025 6 4 ->
      nights = 3 /\ total_price = 360%float).
Proof.
  intros Hin Hout Hfind nights price Hnights Hguests total_price.
  pose proof (create_booking_ok _ current_user fresh _ _ Hfind Hnights Hguests) as Hok.
  fold nights price in Hok.
  assert (Hbound : 0 <= nights < 2 ^ 63).
  { pose proof (calendar.toordinal_range _ Hin).
    pose proof (calendar.toordinal_range _ Hout).
    subst nights. unfold datetime.days_between in *. lia. }
  rewrite (int_mul_float_primitive _ _ Hbound) in Hok. fold total_price in Hok.
  split; [|split].
  - apply calendar.days_between_steps; [exact Hin|exact Hout|].
    fold nights. lia.
  - eexists. split; [exact Hok|]. split; [reflexivity|]. split; [reflexivity|].
    eexists. split; [reflexivity|]. cbn [fields written_booking Booking.total_price].
    split; [|split; reflexivity].
    fold nights. rewrite (int_mul_float_primitive _ _ Hbound). reflexivity.
  - intros Hprice Hci Hco. subst total_price nights. rewrite Hprice, Hci, Hco.
    split; vm_compute; reflexivity.
Qed.

(** C2, as the code has it.  [create_booking] raises 404 exactly when the
    property of the request is not found, whatever the dates; when the
    property is found it raises 400 exactly when the stay has no night or
    a negative number of them.  Otherwise, with a guest count the store
    can hold, it returns: the dates relative to today, the bookings
    already in the store and the guest count within that range are not
    looked at.  With a guest count outside the signed 64-bit range the
    insertion raises [OverflowError].  A request that does not return
    leaves the store as it was. *)
Theorem create_booking_rejections booking_data current_user fresh db :
  let lookup :=
    find_one {["id" := Equals (VStr (BookingCreate.property_id booking_data))]}
             (properties db) in
  let nights := datetime.days_between (BookingCreate.check_out booking_data)
                                      (BookingCreate.check_in booking_data) in
  let result := create_booking booking_data current_user fresh db in
  (result.1 = Responds (Raise (mkHTTPException 404 "Property not found"))
   <-> lookup = None)
  /\ (is_Some lookup ->
      (result.1 = Responds (Raise (mkHTTPException 400 "Invalid date range"))
       <-> nights <= 0))
  /\ (is_Some lookup -> 0 < nights ->
      ((exists r, result.1 = Responds (Return r))
       <-> int64 (BookingCreate.guests booking_data) = true)
      /\ (result.1 = Uncaught OverflowError
          <-> int64 (BookingCreate.guests booking_data) = false))
  /\ ((forall r, result.1 <> Responds (Return r)) -> result.2 = db)
  /\ (forall e, result.1 = Responds (Raise e) ->
        e = mkHTTPException 404 "Property not found"
        \/ e = mkHTTPException 400 "Invalid date range").
Proof.
  intros lookup nights result. subst result.
  destruct lookup as [property_doc|] eqn:Hlookup; subst lookup.
  - destruct (Z.leb_spec nights 0) as [Hle|Hlt].
    + unfold create_booking. rewrite Hlookup. fold nights.
      apply Z.leb_le in Hle. rewrite Hle. apply Z.leb_le in Hle. simpl.
      split; [split; discriminate|].
      split; [intros _; split; [intros _; exact Hle|reflexivity]|].
      split; [intros _ Hpos; lia|].
      split; [reflexivity|].
      intros e [= <-]. now right.
    + destruct (int64 (BookingCreate.guests booking_data)) eqn:Hguests.
      * rewrite (create_booking_ok _ current_user fresh _ _ Hlookup Hlt Hguests).
        simpl.
        split; [split; discriminate|].
        split; [intros _; split; [discriminate|fold nights; lia]|].
        split; [intros _ _; split; split; try discriminate;
                 try reflexivity; intros _; eexists; reflexivity|].
        split; [intros Hnot; exfalso; eapply Hnot; reflexivity|].
        intros e [=].
      * rewrite (create_booking_overflow _ current_user fresh _ _ Hlookup Hlt Hguests).
        simpl.
        split; [split; discriminate|].
        split; [intros _; split; [discriminate|fold nights; lia]|].
        split; [intros _ _; split; split; try discriminate; try reflexivity;
                 intros [r [=]]|].
        split; [reflexivity|].
        intros e [=].
  - unfold create_booking. rewrite Hlookup. simpl.
    split; [split; reflexivity|].
    split; [intros [? [=]]|].
    split; [intros [? [=]]|].
    split; [reflexivity|].
    intros e [= <-]. now left.
Qed.

(** C7, as the code has it.  [create_booking] does not look at the
    bookings of the store.  With a confirmed booking [b0] of the same
    property already there, whatever its dates (those of the request among
    them), a request for a found property, at least one night and a guest
    count the store can hold succeeds and adds a second booking next to
    [b0]; the same request made twice succeeds twice. *)
Theorem create_booking_ignores_overlap
    booking_data current_user fresh fresh' db property_doc b0 :
  In b0 (bookings db) ->
  Booking.property_id (fields b0) = BookingCreate.property_id booking_data ->
  Booking.status (fields b0) = "confirmed" ->
  find_one {["id" := Equals (VStr (BookingCreate.property_id booking_data))]}
           (properties db) = Some property_doc ->
  0 < datetime.days_between (BookingCreate.check_out booking_data)
                            (BookingCreate.check_in booking_data) ->
  int64 (BookingCreate.guests booking_data) = true ->
  let price := Property.price_per_night (fields property_doc) in
  let b1 := written_booking booking_data current_user fresh price in
  let b2 := written_booking booking_data current_user fresh' price in
  let first := create_booking booking_data current_user fresh db in
  let second := create_booking booking_data current_user fresh' first.2 in
  (exists r, first.1 = Responds (Return r))
  /\ bookings first.2 = (bookings db ++ [b1])%list
  /\ In b0 (bookings first.2)
  /\ (exists r, second.1 = Responds (Return r))
  /\ bookings second.2 = (bookings db ++ [b1; b2])%list
  /\ Booking.property_id (fields b1) = Booking.property_id (fields b2)
  /\ Booking.check_in (fields b1) = Booking.check_in (fields b2)
  /\ Booking.check_out (fields b1) = Booking.check_out (fields b2).
Proof.
  intros Hb0 _ _ Hfind Hnights Hguests price b1 b2 first second.
  assert (Hfirst : first = create_booking booking_data current_user fresh db)
    by reflexivity.
  rewrite (create_booking_ok _ current_user fresh _ _ Hfind Hnights Hguests) in Hfirst.
  assert (Hsecond : second = create_booking booking_data current_user fresh' first.2)
    by reflexivity.
  rewrite Hfirst in Hsecond. simpl in Hsecond.
  rewrite (create_booking_ok _ current_user fresh' _ property_doc) in Hsecond
    by (simpl; assumption).
  simpl in Hsecond. rewrite Hfirst, Hsecond. simpl.
  split; [eexists; reflexivity|].
  split; [reflexivity|].
  split; [apply in_or_app; now left|].
  split; [eexists; reflexivity|].
  split; [now rewrite <- app_assoc|].
  repeat split; reflexivity.
Qed.

(** ** [get_user_bookings] *)

(** The bookings the handler fetches for a caller, told without the
    store's filters: for the reserved address the first thousand of the
    collection, for anyone else the first hundred of those whose
    [user_id] is the caller's [id]. *)
Definition owned_by (current_user : User) (b : stored booking_dict) : bool :=
  String.eqb (Booking.user_id (fields b)) (User.id current_user).

Definition visible_bookings (current_user : User) (db : Database)
  : list (stored booking_dict) :=
  if String.eqb (User.email current_user) "admin@wunderwohn.com"
  then take 1000 (bookings db)
  else take 100 (List.filter (owned_by current_user) (bookings db)).

(** One entry of the listing: the booking without its [_id], joined with
    the property document its [property_id] finds, if any. *)
Definition listed (db : Database) (b : stored booking_dict) : booking_with_property :=
  mk_booking_with_property
    (del_id b)
    (del_id <$> find_one {["id" := Equals (VStr (Booking.property_id (fields b)))]}
                         (properties db)).

Lemma del_id_fields {A} (d : stored A) : fields (del_id d) = fields d.
Proof. unfold del_id. now destruct (_id d). Qed.

Lemma del_id_id {A} (d : stored A) : _id (del_id d) = None.
Proof. unfold del_id. now destruct (_id d) eqn:E. Qed.

Lemma get_user_bookings_listed current_user db :
  get_user_bookings current_user db
  = map (listed db) (visible_bookings current_user db).
Proof.
  unfold get_user_bookings, visible_bookings, to_list.
  rewrite find_all, find_user_id.
  destruct (String.eqb (User.email current_user) "admin@wunderwohn.com");
    apply map_ext; intros b; unfold listed; now rewrite del_id_fields.
Qed.

Lemma visible_bookings_owned current_user db b :
  User.email current_user <> "admin@wunderwohn.com" ->
  In b (visible_bookings current_user db) ->
  In b (bookings db) /\ Booking.user_id (fields b) = User.id current_user.
Proof.
  intros Hadmin. unfold visible_bookings.
  apply String.eqb_neq in Hadmin. rewrite Hadmin. intros Hin.
  apply list_elem_of_In, elem_of_take in Hin as (i & Hi & _).
  apply list_elem_of_lookup_2, list_elem_of_In, filter_In in Hi as [Hin Hown].
  split; [exact Hin|]. now apply String.eqb_eq.
Qed.

(** C3, as the code has it.  The listing holds, in the store's order and
    without their [_id], for the reserved address the first 1000
    bookings of the store, for any other caller the first 100 of the
    bookings whose [user_id] is the caller's [id]; every booking listed
    for such a caller is one of the store that the caller owns.  Below
    those bounds the listing holds all the bookings of the store,
    respectively all those of the caller. *)
Theorem listing_visibility current_user db :
  let listing := map booking (get_user_bookings current_user db) in
  let own := List.filter (owned_by current_user) (bookings db) in
  (User.email current_user = "admin@wunderwohn.com" ->
     listing = map del_id (take 1000 (bookings db))
     /\ ((length (bookings db) <= 1000)%nat -> listing = map del_id (bookings db)))
  /\ (User.email current_user <> "admin@wunderwohn.com" ->
        listing = map del_id (take 100 own)
        /\ ((length own <= 100)%nat -> listing = map del_id own)
        /\ (forall e, In e (get_user_bookings current_user db) ->
              Booking.user_id (fields (booking e)) = User.id current_user
              /\ exists b, In b (bookings db) /\ booking e = del_id b)).
Proof.
  intros listing own. subst listing.
  rewrite get_user_bookings_listed, map_map. simpl.
  split.
  - intros Hadmin. unfold visible_bookings.
    apply String.eqb_eq in Hadmin. rewrite Hadmin.
    split; [reflexivity|]. intros Hlen. now rewrite take_ge.
  - intros Hadmin.
    pose proof (visible_bookings_owned current_user db) as Hown.
    specialize (fun b => Hown b Hadmin).
    unfold visible_bookings in *.
    apply String.eqb_neq in Hadmin. rewrite Hadmin in *.
    split; [reflexivity|]. split; [intros Hlen; now rewrite take_ge|].
    intros e Hin. apply in_map_iff in Hin as (b & <- & Hb).
    apply Hown in Hb as [Hb Hu]. simpl. rewrite del_id_fields.
    split; [exact Hu|]. now exists b.
Qed.

(** C8, as the code has it.  The handler fetches, for the reserved
    address, the first 1000 bookings of the store and, for any other
    caller, the first 100 of the caller's own.  A booking among those
    whose [property_id] finds no property is still listed, with [None] in
    the place of the property; the listing does not fail, and has one
    entry for each booking fetched. *)
Theorem listing_keeps_dangling_booking current_user db b :
  let fetched :=
    if String.eqb (User.email current_user) "admin@wunderwohn.com"
    then take 1000 (bookings db)
    else take 100 (List.filter (owned_by current_user) (bookings db)) in
  In b fetched ->
  find_one {["id" := Equals (VStr (Booking.property_id (fields b)))]}
           (properties db) = None ->
  In (mk_booking_with_property (del_id b) None) (get_user_bookings current_user db)
  /\ length (get_user_bookings current_user db) = length fetched.
Proof.
  intros fetched Hin Hnone. rewrite get_user_bookings_listed.
  change (visible_bookings current_user db) with fetched. split.
  - apply in_map_iff. exists b. split; [|exact Hin].
    unfold listed. now rewrite Hnone.
  - apply length_map.
Qed.

(** ** [delete_booking] *)

Lemma delete_booking_returns booking_id current_user db r :
  (delete_booking booking_id current_user db).1 = Return r ->
  r = mkDeleted true "Booking deleted successfully".
Proof.
  unfold delete_booking.
  destruct (find_one _ (bookings db)) as [b|]; [|discriminate].
  destruct (_ && _); [discriminate|].
  destruct (_ =? 0); [discriminate|].
  now intros [= <-].
Qed.

(** C9.  No record of the listing carries the store's [_id]: neither the
    booking of an entry nor the property joined to it.  [delete_booking]
    returns no record at all: its answer is the success flag and a fixed
    message. *)
Theorem responses_without_store_id current_user db :
  (forall e, In e (get_user_bookings current_user db) ->
     _id (booking e) = None
     /\ forall p, property e = Some p -> _id p = None)
  /\ (forall booking_id r,
        (delete_booking booking_id current_user db).1 = Return r ->
        r = mkDeleted true "Booking deleted successfully").
Proof.
  split.
  - intros e Hin. rewrite get_user_bookings_listed in Hin.
    apply in_map_iff in Hin as (b & <- & _). unfold listed. simpl.
    split; [apply del_id_id|].
    intros p Hp. destruct (find_one _ (properties db)) as [q|]; [|discriminate].
    injection Hp as <-. apply del_id_id.
  - intros booking_id r. apply delete_booking_returns.
Qed.

(** C4.  When [booking_id] finds a booking whose [user_id] is not the
    caller's [id], and the caller's address is not the reserved one,
    [delete_booking] raises 403 and the store is as it was; when
    [booking_id] finds no booking it raises 404 and the store is as it
    was. *)
Theorem delete_booking_refusals booking_id current_user db :
  (forall b,
      find_one {["id" := Equals (VStr booking_id)]} (bookings db) = Some b ->
      Booking.user_id (fields b) <> User.id current_user ->
      User.email current_user <> "admin@wunderwohn.com" ->
      delete_booking booking_id current_user db
      = (Raise (mkHTTPException 403 "Not authorized to delete this booking"), db))
  /\ (find_one {["id" := Equals (VStr booking_id)]} (bookings db) = None ->
      delete_booking booking_id current_user db
      = (Raise (mkHTTPException 404 "Booking not found"), db)).
Proof.
  unfold delete_booking. split.
  - intros b -> Hown Hadmin.
    apply String.eqb_neq in Hown, Hadmin. now rewrite Hown, Hadmin.
  - now intros ->.
Qed.

End Store.

(* ===================================================================== *)
(** * The handlers at work *)
(* ===================================================================== *)

(** A store that takes a pattern literally, with the option ["i"] for
    letter case: on a pattern without metacharacters this is what a
    regular-expression engine finds.  The examples below run on it. *)

Definition lower (a : Ascii.ascii) : Ascii.ascii :=
  let n := Ascii.nat_of_ascii a in
  if (65 <=? n)%nat && (n <=? 90)%nat then Ascii.ascii_of_nat (n + 32) else a.

Fixpoint lowercase (s : string) : string :=
  match s with
  | EmptyString => EmptyString
  | String a s => String (lower a) (lowercase s)
  end.

Fixpoint occurs (pattern subject : string) : bool :=
  String.prefix pattern subject
  || match subject with
     | EmptyString => false
     | String _ subject => occurs pattern subject
     end.

Definition literal_search (pattern options subject : string) : bool :=
  if String.eqb options "i" then occurs (lowercase pattern) (lowercase subject)
  else occurs pattern subject.

Module Sample.

Definition berlin : Property :=
  Property.mk "p-berlin" "Charming Apartment in Berlin Mitte" "" "apartment"
              "Berlin" "Berlin" "" 120%float 4 2 1 ["WiFi"; "Kitchen"] [] true 0.

Definition munich : Property :=
  Property.mk "p-munich" "Luxury Villa in Munich" "" "villa"
              "Munich" "Bavaria" "" 180%float 8 4 3 ["WiFi"; "Garden"] [] true 0.

Definition guest : User :=
  User.mk "u-guest" "guest@example.com" "Greta" "Gast" "" 0.

Definition other : User :=
  User.mk "u-other" "other@example.com" "Otto" "Anders" "" 0.

Definition admin : User :=
  User.mk "u-admin" "admin@wunderwohn.com" "Admin" "User" "" 0.

Definition stored_berlin : stored Property := mkstored (Some (mkObjectId 1)) berlin.
Definition stored_munich : stored Property := mkstored (Some (mkObjectId 2)) munich.

(** Two listings, no booking yet. *)
Definition store : Database := mkDatabase [] [stored_berlin; stored_munich] [].

(** Three nights in Berlin, 2025-06-01 to 2025-06-04. *)
Definition june : BookingCreate :=
  BookingCreate.mk "p-berlin" (datetime.mkdate 2025 6 1) (datetime.mkdate 2025 6 4) 2.

Definition fresh1 : Fresh := mkFresh "b-1" 1 (mkObjectId 11).
Definition fresh2 : Fresh := mkFresh "b-2" 2 (mkObjectId 12).

(** The store after the guest has booked [june]. *)
Definition booked : Database := (create_booking literal_search june guest fresh1 store).2.

Definition june_booking : stored booking_dict :=
  written_booking june guest fresh1 120%float.

(** A booking of the guest for a listing that is not in the store. *)
Definition dangling : stored booking_dict :=
  mkstored (Some (mkObjectId 13))
           (Booking.mk "b-3" "u-guest" "p-gone" "2025-07-01" "2025-07-03" 1
                       200%float "confirmed" 3).

Definition with_dangling : Database :=
  mkDatabase [] [stored_berlin; stored_munich] [june_booking; dangling].

(** The guest's [n]-th booking of the Berlin listing. *)
Definition nth_booking (n : nat) : stored booking_dict :=
  mkstored (Some (mkObjectId (N.of_nat n)))
           (Booking.mk ("b-" +:+ datetime.pad4 (Z.of_nat n))%string "u-guest" "p-berlin"
                       "2025-06-01" "2025-06-04" 2 360%float "confirmed" 0).

(** A store in which the guest has 1001 bookings. *)
Definition crowded : Database :=
  mkDatabase [] [stored_berlin; stored_munich] (map nth_booking (seq 0 1001)).

(** The three nights of [june] for more guests than a signed 64-bit
    integer counts, and for fewer. *)
Definition june_crowd : BookingCreate :=
  BookingCreate.mk "p-berlin" (datetime.mkdate 2025 6 1) (datetime.mkdate 2025 6 4)
                   (2 ^ 63).

Definition june_nobody : BookingCreate :=
  BookingCreate.mk "p-berlin" (datetime.mkdate 2025 6 1) (datetime.mkdate 2025 6 4)
                   (- 2 ^ 63 - 1).

(** A store in which the guest has 100 bookings of the Berlin listing and,
    after them, the one of the listing that is gone. *)
Definition hundred_then_dangling : Database :=
  mkDatabase [] [stored_berlin; stored_munich]
             (map nth_booking (seq 0 100) ++ [dangling]).

End Sample.

Section Examples.

Import Sample.

(** The scenario of C1: 120.0 a night, 2025-06-01 to 2025-06-04. *)
Lemma create_booking_total_price_witness :
  datetime.valid (datetime.mkdate 2025 6 1) = true
  /\ datetime.valid (datetime.mkdate 2025 6 4) = true
  /\ find_one literal_search {["id" := Equals (VStr "p-berlin")]} (properties store)
     = Some stored_berlin
  /\ 0 < datetime.days_between (datetime.mkdate 2025 6 4) (datetime.mkdate 2025 6 1)
  /\ int64 2 = true
  /\ datetime.days_between (datetime.mkdate 2025 6 4) (datetime.mkdate 2025 6 1) = 3
  /\ calendar.next_day (calendar.next_day (calendar.next_day (datetime.mkdate 2025 6 1)))
     = datetime.mkdate 2025 6 4
  /\ (create_booking literal_search june guest fresh1 store).1
     = Responds (Return (mkBookingCreated true "b-1" 360%float)).
Proof.
  assert (Hin : datetime.valid (BookingCreate.check_in june) = true)
    by (vm_compute; reflexivity).
  assert (Hout : datetime.valid (BookingCreate.check_out june) = true)
    by (vm_compute; reflexivity).
  assert (Hfind : find_one literal_search {["id" := Equals (VStr "p-berlin")]}
                           (properties store) = Some stored_berlin)
    by (vm_compute; reflexivity).
  assert (Hnights : 0 < datetime.days_between (datetime.mkdate 2025 6 4)
                                              (datetime.mkdate 2025 6 1))
    by (vm_compute; reflexivity).
  assert (Hguests : int64 (BookingCreate.guests june) = true)
    by (vm_compute; reflexivity).
  pose proof (create_booking_total_price literal_search june guest fresh1 store
                stored_berlin Hin Hout Hfind Hnights Hguests) as H.
  cbv zeta in H. destruct H as (Hsteps & (db' & Hok & _) & Hexample).
  destruct (Hexample eq_refl eq_refl eq_refl) as [Hthree Htotal].
  split; [exact Hin|]. split; [exact Hout|]. split; [exact Hfind|].
  split; [exact Hnights|]. split; [exact Hguests|]. split; [exact Hthree|].
  split.
  - vm_compute in Hsteps |- *. exact Hsteps.
  - rewrite Hok. cbn [fst]. rewrite Htotal. reflexivity.
Defined.

(** Found and valid, no night, unknown listing, too many guests. *)
Lemma create_booking_rejections_witness :
  (exists r, (create_booking literal_search june guest fresh1 store).1
             = Responds (Return r))
  /\ (create_booking literal_search (BookingCreate.mk "p-berlin" (datetime.mkdate 2025 6 4)
                               (datetime.mkdate 2025 6 4) 2)
             guest fresh1 store).1
     = Responds (Raise (mkHTTPException 400 "Invalid date range"))
  /\ (create_booking literal_search (BookingCreate.mk "p-gone" (datetime.mkdate 2025 6 4)
                               (datetime.mkdate 2025 6 1) 2)
             guest fresh1 store).1
     = Responds (Raise (mkHTTPException 404 "Property not found"))
  /\ (create_booking literal_search june_crowd guest fresh1 store).1
     = Uncaught OverflowError.
Proof.
  assert (Hfound : is_Some (find_one literal_search
                              {["id" := Equals (VStr "p-berlin")]}
                              (properties store)))
    by (exists stored_berlin; vm_compute; reflexivity).
  split; [|split; [|split]].
  - pose proof (create_booking_rejections literal_search june guest fresh1 store)
      as H.
    cbv zeta in H. destruct H as (_ & _ & Hok & _).
    apply Hok; [exact Hfound|vm_compute; reflexivity|vm_compute; reflexivity].
  - pose proof (create_booking_rejections literal_search
                  (BookingCreate.mk "p-berlin" (datetime.mkdate 2025 6 4)
                                    (datetime.mkdate 2025 6 4) 2)
                  guest fresh1 store) as H.
    cbv zeta in H. destruct H as (_ & H400 & _).
    apply (H400 Hfound). vm_compute. discriminate.
  - pose proof (create_booking_rejections literal_search
                  (BookingCreate.mk "p-gone" (datetime.mkdate 2025 6 4)
                                    (datetime.mkdate 2025 6 1) 2)
                  guest fresh1 store) as H.
    cbv zeta in H. destruct H as (H404 & _).
    apply H404. vm_compute. reflexivity.
  - pose proof (create_booking_rejections literal_search june_crowd guest fresh1 store)
      as H.
    cbv zeta in H. destruct H as (_ & _ & Hok & _).
    apply Hok; [exact Hfound|vm_compute; reflexivity|vm_compute; reflexivity].
Defined.

(** The guest books the same three nights a second time. *)
Lemma create_booking_ignores_overlap_witness :
  In june_booking (bookings booked)
  /\ Booking.property_id (fields june_booking) = BookingCreate.property_id june
  /\ Booking.status (fields june_booking) = "confirmed"
  /\ Booking.check_in (fields june_booking) = "2025-06-01"
  /\ Booking.check_out (fields june_booking) = "2025-06-04"
  /\ int64 (BookingCreate.guests june) = true
  /\ (exists r, (create_booking literal_search june guest fresh2 booked).1
                = Responds (Return r))
  /\ bookings (create_booking literal_search june guest fresh2 booked).2
     = [june_booking; written_booking june guest fresh2 120%float].
Proof.
  assert (Hin : In june_booking (bookings booked))
    by (vm_compute; left; reflexivity).
  assert (Hfind : find_one literal_search
                    {["id" := Equals (VStr (BookingCreate.property_id june))]}
                    (properties booked) = Some stored_berlin)
    by (vm_compute; reflexivity).
  assert (Hnights : 0 < datetime.days_between (BookingCreate.check_out june)
                                              (BookingCreate.check_in june))
    by (vm_compute; reflexivity).
  assert (Hguests : int64 (BookingCreate.guests june) = true)
    by (vm_compute; reflexivity).
  pose proof (create_booking_ignores_overlap literal_search june guest fresh2 fresh1
                booked stored_berlin june_booking Hin eq_refl eq_refl Hfind Hnights
                Hguests)
    as (Hok & Hbookings & _).
  split; [exact Hin|].
  repeat (split; [vm_compute; reflexivity|]).
  split; [exact Hok|exact Hbookings].
Defined.

(** The reserved address sees both bookings, the guest their own two,
    another user none. *)
Lemma listing_visibility_witness :
  User.email admin = "admin@wunderwohn.com"
  /\ User.email guest <> "admin@wunderwohn.com"
  /\ map booking (get_user_bookings literal_search admin with_dangling)
     = [del_id june_booking; del_id dangling]
  /\ map booking (get_user_bookings literal_search guest with_dangling)
     = [del_id june_booking; del_id dangling]
  /\ map booking (get_user_bookings literal_search other with_dangling) = [].
Proof.
  assert (Hguest : User.email guest <> "admin@wunderwohn.com") by discriminate.
  assert (Hother : User.email other <> "admin@wunderwohn.com") by discriminate.
  split; [reflexivity|]. split; [exact Hguest|].
  split; [|split].
  - exact (proj1 (proj1 (listing_visibility literal_search admin with_dangling)
                          eq_refl)).
  - exact (proj1 (proj2 (listing_visibility literal_search guest with_dangling)
                          Hguest)).
  - exact (proj1 (proj2 (listing_visibility literal_search other with_dangling)
                          Hother)).
Defined.

(** The guest's booking of a listing that is gone is listed with [None]. *)
Lemma listing_keeps_dangling_booking_witness :
  In dangling (take 100 (List.filter (owned_by guest) (bookings with_dangling)))
  /\ find_one literal_search {["id" := Equals (VStr "p-gone")]}
              (properties with_dangling) = None
  /\ In (mk_booking_with_property (del_id dangling) None)
        (get_user_bookings literal_search guest with_dangling)
  /\ length (get_user_bookings literal_search guest with_dangling) = 2%nat.
Proof.
  assert (Hin : In dangling
                   (take 100 (List.filter (owned_by guest) (bookings with_dangling))))
    by (vm_compute; right; left; reflexivity).
  assert (Hnone : find_one literal_search
                    {["id" := Equals (VStr (Booking.property_id (fields dangling)))]}
                    (properties with_dangling) = None)
    by (vm_compute; reflexivity).
  split; [exact Hin|]. split; [exact Hnone|].
  destruct (listing_keeps_dangling_booking literal_search guest with_dangling
              dangling Hin Hnone) as [Hlisted Hlength].
  split; [exact Hlisted|]. rewrite Hlength. vm_compute. reflexivity.
Defined.

(** Nothing listed for the guest carries an [_id]. *)
Lemma responses_without_store_id_witness :
  Forall (fun e => _id (booking e) = None) (get_user_bookings literal_search guest with_dangling)
  /\ (delete_booking literal_search "b-1" guest booked).1
     = Return (mkDeleted true "Booking deleted successfully").
Proof.
  split.
  - apply Forall_forall. intros e He.
    apply (proj1 (responses_without_store_id literal_search guest with_dangling)),
          list_elem_of_In, He.
  - vm_compute. reflexivity.
Defined.

(** Another user may not delete the guest's booking; an unknown id finds
    nothing. *)
Lemma delete_booking_refusals_witness :
  delete_booking literal_search "b-1" other booked
  = (Raise (mkHTTPException 403 "Not authorized to delete this booking"), booked)
  /\ delete_booking literal_search "b-9" other booked
     = (Raise (mkHTTPException 404 "Booking not found"), booked).
Proof.
  split.
  - apply (proj1 (delete_booking_refusals literal_search "b-1" other booked)
             june_booking).
    + vm_compute. reflexivity.
    + discriminate.
    + discriminate.
  - apply (proj2 (delete_booking_refusals literal_search "b-9" other booked)).
    vm_compute. reflexivity.
Defined.


(** Every listing the sample search returns is available. *)
Lemma search_available_and_capped_witness :
  Forall (fun p => Property.available p = true)
         (get_properties literal_search (Some "ber") None None (Some 2%Z) None store)
  /\ (length (get_properties literal_search (Some "ber") None None (Some 2%Z) None store) <= 100)%nat.
Proof.
  split.
  - apply Forall_forall. intros p Hp.
    apply (proj1 (search_available_and_capped literal_search (Some "ber") None None
                    (Some 2%Z) None store)), list_elem_of_In, Hp.
  - apply (search_available_and_capped literal_search).
Defined.

(** ** Where the specification says more than the code does *)

(** C3, as stated, fails: of the guest's 1001 bookings the guest is shown
    100 and the reserved address 1000; the booking ["b-1000"] is in the
    store, is the guest's, and is in neither listing. *)
Lemma listing_is_capped :
  length (List.filter (owned_by guest) (bookings crowded)) = 1001%nat
  /\ length (get_user_bookings literal_search guest crowded) = 100%nat
  /\ length (get_user_bookings literal_search admin crowded) = 1000%nat
  /\ In (nth_booking 1000) (bookings crowded)
  /\ Booking.user_id (fields (nth_booking 1000)) = User.id guest
  /\ existsb (fun e => String.eqb (Booking.id (fields (booking e))) "b-1000")
             (get_user_bookings literal_search guest crowded) = false
  /\ existsb (fun e => String.eqb (Booking.id (fields (booking e))) "b-1000")
             (get_user_bookings literal_search admin crowded) = false.
Proof.
  split; [vm_compute; reflexivity|].
  split; [vm_compute; reflexivity|].
  split; [vm_compute; reflexivity|].
  split; [apply in_map, in_seq; lia|].
  split; [reflexivity|].
  split; vm_compute; reflexivity.
Qed.

(** C1, as stated, fails: the Berlin listing is found and the stay has
    three nights, but the guest count, 2^63, is more than the store can
    write; the insertion raises, no [total_price] is returned and no
    booking is written. *)
Lemma overflowing_guest_count_has_no_price :
  find_one literal_search
           {["id" := Equals (VStr (BookingCreate.property_id june_crowd))]}
           (properties store) = Some stored_berlin
  /\ datetime.days_between (BookingCreate.check_out june_crowd)
                           (BookingCreate.check_in june_crowd) = 3
  /\ BookingCreate.guests june_crowd = 9223372036854775808
  /\ create_booking literal_search june_crowd guest fresh1 store
     = (Uncaught OverflowError, store).
Proof.
  repeat split; vm_compute; reflexivity.
Qed.

(** C2, as stated, fails: the guest count is a condition of its own.  Of
    two requests that differ in nothing but the guest count, the one for
    2 guests returns and the one for -2^63 - 1 guests does not; the
    listing is found and the dates are in order in both. *)
Lemma guest_count_alone_rejects :
  BookingCreate.property_id june_nobody = BookingCreate.property_id june
  /\ BookingCreate.check_in june_nobody = BookingCreate.check_in june
  /\ BookingCreate.check_out june_nobody = BookingCreate.check_out june
  /\ is_Some (find_one literal_search
                {["id" := Equals (VStr (BookingCreate.property_id june))]}
                (properties store))
  /\ 0 < datetime.days_between (BookingCreate.check_out june)
                               (BookingCreate.check_in june)
  /\ (create_booking literal_search june guest fresh1 store).1
     = Responds (Return (mkBookingCreated true "b-1" 360%float))
  /\ (create_booking literal_search june_nobody guest fresh1 store).1
     = Uncaught OverflowError.
Proof.
  split; [reflexivity|]. split; [reflexivity|]. split; [reflexivity|].
  split; [exists stored_berlin; vm_compute; reflexivity|].
  repeat split; vm_compute; reflexivity.
Qed.

(** C7, as stated, fails: the store holds the guest's confirmed booking of
    the Berlin listing; a second request for the same listing and the same
    dates, three nights, with a guest count of 2^63 does not succeed, and
    no second booking is inserted. *)
Lemma second_booking_not_inserted :
  bookings booked = [june_booking]
  /\ Booking.status (fields june_booking) = "confirmed"
  /\ Booking.property_id (fields june_booking) = BookingCreate.property_id june_crowd
  /\ Booking.check_in (fields june_booking)
     = datetime.isoformat (BookingCreate.check_in june_crowd)
  /\ Booking.check_out (fields june_booking)
     = datetime.isoformat (BookingCreate.check_out june_crowd)
  /\ 0 < datetime.days_between (BookingCreate.check_out june_crowd)
                               (BookingCreate.check_in june_crowd)
  /\ (create_booking literal_search june_crowd guest fresh2 booked).1
     = Uncaught OverflowError
  /\ bookings (create_booking literal_search june_crowd guest fresh2 booked).2
     = [june_booking].
Proof.
  repeat split; vm_compute; reflexivity.
Qed.

(** C8, as stated, fails: the guest's booking ["b-3"] of a listing that is
    gone comes after 100 other bookings of the guest; the guest's listing
    has 100 entries and ["b-3"] is not among them. *)
Lemma dangling_booking_beyond_cap :
  In dangling (bookings hundred_then_dangling)
  /\ Booking.user_id (fields dangling) = User.id guest
  /\ find_one literal_search
              {["id" := Equals (VStr (Booking.property_id (fields dangling)))]}
              (properties hundred_then_dangling) = None
  /\ length (get_user_bookings literal_search guest hundred_then_dangling) = 100%nat
  /\ existsb (fun e => String.eqb (Booking.id (fields (booking e))) "b-3")
             (get_user_bookings literal_search guest hundred_then_dangling) = false.
Proof.
  split; [apply in_or_app; right; left; reflexivity|].
  split; [reflexivity|].
  repeat split; vm_compute; reflexivity.
Qed.


End Examples.

(* ===================================================================== *)
(** * More about the store *)
(* ===================================================================== *)

Section StoreFacts.

Variable regex_search : string -> string -> string -> bool.

(** [find_one] returns the first match: the documents before it do not
    match, and when it returns [None] no document does. *)
Lemma find_one_split {A} `{Document A} (f : Filter) (c : list (stored A)) :
  match find_one regex_search f c with
  | Some d =>
      exists before after,
        c = (before ++ d :: after)%list
        /\ Forall (fun d' => matches regex_search f (stored_dict d') = false) before
        /\ matches regex_search f (stored_dict d) = true
  | None => Forall (fun d => matches regex_search f (stored_dict d) = false) c
  end.
Proof.
  unfold find_one. induction c as [|x c IH]; simpl; [constructor|].
  destruct (matches regex_search f (stored_dict x)) eqn:Hx.
  - exists [], c. repeat split; [constructor|exact Hx].
  - destruct (List.find _ c) as [d|].
    + destruct IH as (before & after & -> & Hbefore & Hd).
      exists (x :: before), after. repeat split; [|exact Hd].
      constructor; assumption.
    + constructor; assumption.
Qed.

Lemma find_one_Some_split {A} `{Document A} (f : Filter) (c : list (stored A)) d :
  find_one regex_search f c = Some d ->
  exists before after,
    c = (before ++ d :: after)%list
    /\ Forall (fun d' => matches regex_search f (stored_dict d') = false) before
    /\ matches regex_search f (stored_dict d) = true.
Proof.
  intros Hfind. pose proof (find_one_split f c) as Hsplit.
  now rewrite Hfind in Hsplit.
Qed.

Lemma find_one_None {A} `{Document A} (f : Filter) (c : list (stored A)) :
  find_one regex_search f c = None <->
  Forall (fun d => matches regex_search f (stored_dict d) = false) c.
Proof.
  split.
  - intros Hfind. pose proof (find_one_split f c) as Hsplit.
    now rewrite Hfind in Hsplit.
  - unfold find_one. induction 1 as [|d c Hd _ IH]; simpl; [reflexivity|].
    now rewrite Hd.
Qed.

Lemma find_one_app_miss {A} `{Document A} (f : Filter) (l k : list (stored A)) :
  Forall (fun d => matches regex_search f (stored_dict d) = false) l ->
  find_one regex_search f (l ++ k) = find_one regex_search f k.
Proof.
  unfold find_one. induction 1 as [|d l Hd _ IH]; simpl; [reflexivity|].
  now rewrite Hd.
Qed.

Lemma find_one_append {A} `{Document A} (f : Filter) (c : list (stored A)) d :
  Forall (fun d' => matches regex_search f (stored_dict d') = false) c ->
  matches regex_search f (stored_dict d) = true ->
  find_one regex_search f (c ++ [d]) = Some d.
Proof.
  unfold find_one. induction 1 as [|x c Hx _ IH]; simpl; intros Hd.
  - now rewrite Hd.
  - rewrite Hx. now apply IH.
Qed.

Lemma find_one_filter_keeps {A} `{Document A} (f : Filter) (keep : stored A -> bool)
    (c extra : list (stored A)) d :
  find_one regex_search f c = Some d ->
  keep d = true ->
  find_one regex_search f (List.filter keep c ++ extra) = Some d.
Proof.
  unfold find_one. induction c as [|x c IH]; simpl; [discriminate|].
  destruct (matches regex_search f (stored_dict x)) eqn:Hx.
  - intros [= ->] Hkeep. rewrite Hkeep. simpl. now rewrite Hx.
  - intros Hfind Hkeep. destruct (keep x); simpl; [rewrite Hx|]; now apply IH.
Qed.

(** [delete_one] and [find_one] agree on whether there is a match; the
    document removed is the one [find_one] returns, the first match, and
    the documents around it stay in place. *)
Lemma delete_one_find_one {A} `{Document A} (f : Filter) (c : list (stored A)) :
  match find_one regex_search f c with
  | None => delete_one regex_search f c = (c, 0)
  | Some d =>
      exists before after,
        c = (before ++ d :: after)%list
        /\ Forall (fun d' => matches regex_search f (stored_dict d') = false) before
        /\ matches regex_search f (stored_dict d) = true
        /\ delete_one regex_search f c = ((before ++ after)%list, 1)
  end.
Proof.
  induction c as [|d c IH]; simpl; [reflexivity|].
  destruct (matches regex_search f (stored_dict d)) eqn:Hd.
  - exists [], c. repeat split; [constructor|exact Hd].
  - unfold find_one in *. destruct (List.find _ c) as [d'|].
    + destruct IH as (before & after & -> & Hbefore & Hd' & ->).
      exists (d :: before), after. repeat split; [|exact Hd'].
      constructor; assumption.
    + now rewrite IH.
Qed.

Lemma delete_one_app_miss {A} `{Document A} (f : Filter) (l k : list (stored A)) :
  Forall (fun d => matches regex_search f (stored_dict d) = false) l ->
  delete_one regex_search f (l ++ k)
  = ((l ++ (delete_one regex_search f k).1)%list, (delete_one regex_search f k).2).
Proof.
  induction 1 as [|d l Hd _ IH]; simpl.
  - now destruct (delete_one regex_search f k).
  - rewrite Hd, IH. reflexivity.
Qed.

Lemma Database_eta db : mkDatabase (users db) (properties db) (bookings db) = db.
Proof. now destruct db. Qed.

End StoreFacts.

(* ===================================================================== *)
(** * The life of a booking: created, listed, deleted *)
(* ===================================================================== *)

Section Lifecycle.

Variable regex_search : string -> string -> string -> bool.

(** The caller may delete: owner of the booking, or the reserved address. *)
Definition may_delete (current_user : User) (b : stored booking_dict) : bool :=
  String.eqb (Booking.user_id (fields b)) (User.id current_user)
  || String.eqb (User.email current_user) "admin@wunderwohn.com".

(** X1.  When [booking_id] finds a booking and the caller is its owner or
    the reserved address, [delete_booking] succeeds: the booking found,
    which is the first of the collection with that [id], is taken out, the
    bookings before and after it stay in place and in order, and the users
    and properties are as they were. *)
Theorem delete_booking_removes_first booking_id current_user db b :
  find_one regex_search {["id" := Equals (VStr booking_id)]} (bookings db) = Some b ->
  may_delete current_user b = true ->
  exists before after,
    bookings db = (before ++ b :: after)%list
    /\ Forall (fun d => Booking.id (fields d) <> booking_id) before
    /\ Booking.id (fields b) = booking_id
    /\ delete_booking regex_search booking_id current_user db
       = (Return (mkDeleted true "Booking deleted successfully"),
          mkDatabase (users db) (properties db) (before ++ after)%list).
Proof.
  intros Hfind Hmay.
  pose proof (delete_one_find_one regex_search {["id" := Equals (VStr booking_id)]} (bookings db))
    as Hdel.
  rewrite Hfind in Hdel. destruct Hdel as (before & after & Hc & Hbefore & Hb & Hdel).
  exists before, after. split; [exact Hc|]. split; [|split].
  - eapply Forall_impl; [exact Hbefore|]. intros d Hd.
    cbv beta in Hd. rewrite matches_booking_id in Hd. now apply String.eqb_neq.
  - rewrite matches_booking_id in Hb. now apply String.eqb_eq.
  - unfold delete_booking. rewrite Hfind.
    unfold may_delete in Hmay. rewrite <- negb_orb, Hmay.
    cbv zeta. rewrite Hdel. reflexivity.
Qed.

(** X2.  The answers of [delete_booking], all of them: 404 exactly when
    [booking_id] finds no booking, 403 exactly when it finds one that the
    caller may not delete, success otherwise.  The second [404] of the
    handler, after [delete_one], is never raised: a booking that was found
    is there to be deleted. *)
Theorem delete_booking_answers booking_id current_user db :
  let found := find_one regex_search {["id" := Equals (VStr booking_id)]} (bookings db) in
  let answer := (delete_booking regex_search booking_id current_user db).1 in
  (answer = Raise (mkHTTPException 404 "Booking not found") <-> found = None)
  /\ (answer = Raise (mkHTTPException 403 "Not authorized to delete this booking")
      <-> exists b, found = Some b /\ may_delete current_user b = false)
  /\ (answer = Return (mkDeleted true "Booking deleted successfully")
      <-> exists b, found = Some b /\ may_delete current_user b = true).
Proof.
  intros found answer. subst answer.
  destruct found as [b|] eqn:Hfound; subst found.
  - destruct (may_delete current_user b) eqn:Hmay.
    + destruct (delete_booking_removes_first _ _ _ _ Hfound Hmay)
        as (before & after & _ & _ & _ & ->). simpl.
      split; [split; discriminate|].
      split; [split; [discriminate|intros (b' & [= <-] & Hb'); congruence]|].
      split; [intros _; now exists b|reflexivity].
    + unfold delete_booking. rewrite Hfound.
      pose proof Hmay as Hmay'.
      unfold may_delete in Hmay'. apply orb_false_iff in Hmay' as [-> ->]. simpl.
      split; [split; discriminate|].
      split; [split; [intros _; now exists b|reflexivity]|].
      split; [discriminate|]. intros (b' & [= <-] & Hb'). congruence.
  - unfold delete_booking. rewrite Hfound. simpl.
    split; [split; reflexivity|].
    split; split; try discriminate; intros (b' & [=] & _).
Qed.

Lemma visible_bookings_stored current_user db b :
  In b (visible_bookings current_user db) -> In b (bookings db).
Proof.
  unfold visible_bookings.
  destruct (String.eqb (User.email current_user) "admin@wunderwohn.com");
    intros Hin; apply list_elem_of_In, elem_of_take in Hin as (i & Hi & _);
    apply list_elem_of_lookup_2, list_elem_of_In in Hi.
  - exact Hi.
  - now apply filter_In in Hi.
Qed.

(** X3.  In a store whose bookings have distinct [id]s, a booking that was
    deleted is gone: deleting it again is answered 404 for every caller, no
    listing shows it, and every booking with another [id] is still in the
    store. *)
Theorem deleted_booking_is_gone booking_id current_user db r db' :
  NoDup (map (fun d => Booking.id (fields d)) (bookings db)) ->
  delete_booking regex_search booking_id current_user db = (Return r, db') ->
  (forall caller,
      delete_booking regex_search booking_id caller db'
      = (Raise (mkHTTPException 404 "Booking not found"), db'))
  /\ (forall caller e,
        In e (get_user_bookings regex_search caller db') ->
        Booking.id (fields (booking e)) <> booking_id)
  /\ (forall d, In d (bookings db) -> Booking.id (fields d) <> booking_id ->
                In d (bookings db')).
Proof.
  intros Hnodup Hdel.
  destruct (find_one regex_search {["id" := Equals (VStr booking_id)]} (bookings db))
    as [b|] eqn:Hfind.
  2:{ unfold delete_booking in Hdel. rewrite Hfind in Hdel. discriminate. }
  destruct (may_delete current_user b) eqn:Hmay.
  2:{ unfold delete_booking in Hdel. rewrite Hfind in Hdel.
      unfold may_delete in Hmay. apply orb_false_iff in Hmay as [H1 H2].
      rewrite H1, H2 in Hdel. discriminate. }
  destruct (delete_booking_removes_first _ _ _ _ Hfind Hmay)
    as (before & after & Hc & Hbefore & Hb & Heq).
  rewrite Heq in Hdel. injection Hdel as _ <-.
  assert (Hgone : Forall (fun d => Booking.id (fields d) <> booking_id)
                         (before ++ after)).
  { apply Forall_app. split; [exact Hbefore|].
    rewrite Hc, map_app in Hnodup. simpl in Hnodup.
    apply NoDup_app in Hnodup as (_ & _ & Hnodup).
    apply NoDup_cons in Hnodup as [Hnotin _].
    apply Forall_forall. intros d Hd Heqid. apply Hnotin.
    rewrite Hb, <- Heqid. apply list_elem_of_In, in_map_iff.
    exists d. split; [reflexivity|apply list_elem_of_In, Hd]. }
  split; [|split].
  - intros caller.
    apply (proj2 (delete_booking_refusals regex_search booking_id caller _)).
    simpl. apply find_one_None.
    eapply Forall_impl; [exact Hgone|]. intros d Hd. cbv beta.
    rewrite matches_booking_id. now apply String.eqb_neq.
  - intros caller e He. rewrite get_user_bookings_listed in He.
    apply in_map_iff in He as (d & <- & Hd).
    apply visible_bookings_stored in Hd. simpl in Hd. simpl.
    rewrite del_id_fields.
    rewrite Forall_forall in Hgone. apply Hgone, list_elem_of_In, Hd.
  - intros d Hd Hid. simpl. rewrite Hc in Hd.
    apply in_app_iff in Hd as [Hd|[<-|Hd]].
    + apply in_app_iff. now left.
    + congruence.
    + apply in_app_iff. now right.
Qed.

(** ** A booking that was just created *)

(** What a [create_booking] that returned has done. *)
Lemma create_booking_returns booking_data current_user fresh db r db' :
  create_booking regex_search booking_data current_user fresh db
  = (Responds (Return r), db') ->
  exists property_doc,
    find_one regex_search
             {["id" := Equals (VStr (BookingCreate.property_id booking_data))]}
             (properties db) = Some property_doc
    /\ 0 < datetime.days_between (BookingCreate.check_out booking_data)
                                 (BookingCreate.check_in booking_data)
    /\ int64 (BookingCreate.guests booking_data) = true
    /\ created_booking_id r = uuid4 fresh
    /\ db' = mkDatabase (users db) (properties db)
               (bookings db
                ++ [written_booking booking_data current_user fresh
                      (Property.price_per_night (fields property_doc))]).
Proof.
  intros Hcreate.
  destruct (find_one regex_search
              {["id" := Equals (VStr (BookingCreate.property_id booking_data))]}
              (properties db)) as [property_doc|] eqn:Hfind.
  2:{ unfold create_booking in Hcreate. rewrite Hfind in Hcreate. discriminate. }
  destruct (Z.leb_spec (datetime.days_between (BookingCreate.check_out booking_data)
                                              (BookingCreate.check_in booking_data)) 0)
    as [Hle|Hlt].
  { unfold create_booking in Hcreate. rewrite Hfind in Hcreate.
    apply Z.leb_le in Hle. rewrite Hle in Hcreate. discriminate. }
  destruct (int64 (BookingCreate.guests booking_data)) eqn:Hguests.
  2:{ rewrite (create_booking_overflow _ _ current_user fresh _ _ Hfind Hlt Hguests)
        in Hcreate. discriminate. }
  rewrite (create_booking_ok _ _ current_user fresh _ _ Hfind Hlt Hguests) in Hcreate.
  injection Hcreate as <- <-.
  exists property_doc. repeat split; assumption || reflexivity.
Qed.

(** X4.  Create, then delete with the [booking_id] that was returned: when
    [create_booking] has returned and no booking of the store already had
    that [id], the caller's deletion succeeds and the store is again what
    it was before the booking. *)
Theorem create_then_delete booking_data current_user fresh db r db' :
  create_booking regex_search booking_data current_user fresh db
  = (Responds (Return r), db') ->
  Forall (fun d => Booking.id (fields d) <> created_booking_id r) (bookings db) ->
  delete_booking regex_search (created_booking_id r) current_user db'
  = (Return (mkDeleted true "Booking deleted successfully"), db).
Proof.
  intros Hcreate Hfresh.
  apply create_booking_returns in Hcreate
    as (property_doc & _ & _ & _ & Hid & ->).
  rewrite Hid in *.
  assert (Hmiss : Forall (fun d => matches regex_search
                                     {["id" := Equals (VStr (uuid4 fresh))]}
                                     (stored_dict d) = false) (bookings db)).
  { eapply Forall_impl; [exact Hfresh|]. intros d Hd. cbv beta.
    rewrite matches_booking_id. now apply String.eqb_neq. }
  unfold delete_booking. simpl.
  rewrite (find_one_app_miss _ _ _ _ Hmiss), (delete_one_app_miss _ _ _ _ Hmiss).
  simpl. rewrite matches_booking_id. simpl.
  rewrite !String.eqb_refl. simpl.
  rewrite app_nil_r. now rewrite Database_eta.
Qed.

(** X5.  What the creator sees after a [create_booking] that returned: the
    booking written has the [id] that was returned; with fewer than 100
    bookings of their own before, it is in the creator's listing, joined
    with the property document the price was read from; with 100 or more,
    the listing is what it was, and the new booking is not shown to them. *)
Theorem created_booking_in_listing booking_data current_user fresh db r db' :
  create_booking regex_search booking_data current_user fresh db
  = (Responds (Return r), db') ->
  User.email current_user <> "admin@wunderwohn.com" ->
  let own := List.filter (owned_by current_user) (bookings db) in
  exists property_doc,
    find_one regex_search
             {["id" := Equals (VStr (BookingCreate.property_id booking_data))]}
             (properties db) = Some property_doc
    /\ let b := written_booking booking_data current_user fresh
                  (Property.price_per_night (fields property_doc)) in
       Booking.id (fields b) = created_booking_id r
       /\ Booking.total_price (fields b) = created_total_price r
       /\ ((length own < 100)%nat ->
             In (mk_booking_with_property (del_id b) (Some (del_id property_doc)))
                (get_user_bookings regex_search current_user db'))
       /\ ((100 <= length own)%nat ->
             get_user_bookings regex_search current_user db'
             = get_user_bookings regex_search current_user db).
Proof.
  intros Hcreate Hadmin own.
  pose proof Hcreate as Hreturned.
  apply create_booking_returns in Hreturned
    as (property_doc & Hfind & Hnights & Hguests & Hid & Hdb).
  rewrite (create_booking_ok _ _ current_user fresh _ _ Hfind Hnights Hguests)
    in Hcreate.
  injection Hcreate as <- _. subst db'.
  exists property_doc. split; [exact Hfind|]. cbv zeta.
  set (b := written_booking booking_data current_user fresh
              (Property.price_per_night (fields property_doc))).
  split; [reflexivity|]. split; [reflexivity|].
  rewrite !get_user_bookings_listed. unfold visible_bookings. simpl.
  apply String.eqb_neq in Hadmin. rewrite Hadmin.
  rewrite List.filter_app. simpl.
  assert (Hown : owned_by current_user b = true) by apply String.eqb_refl.
  rewrite Hown. fold own. split.
  - intros Hlen. apply in_map_iff. exists b. split.
    + unfold listed. simpl. now rewrite Hfind.
    + apply list_elem_of_In, elem_of_take. exists (length own). split; [|exact Hlen].
      rewrite lookup_app_r by reflexivity. now rewrite Nat.sub_diag.
  - intros Hlen. rewrite take_app_le by exact Hlen. reflexivity.
Qed.

(** X6.  Bookings never touch the listings: whatever [create_booking] or
    [delete_booking] answer, the users and the properties of the store are
    as they were, and so is the result of every search; the [available]
    flag of a booked property stays as it was. *)
Theorem bookings_leave_properties booking_data booking_id current_user fresh db :
  let created := (create_booking regex_search booking_data current_user fresh db).2 in
  let deleted := (delete_booking regex_search booking_id current_user db).2 in
  users created = users db /\ properties created = properties db
  /\ users deleted = users db /\ properties deleted = properties db
  /\ (forall city min_price max_price min_guests property_type,
        get_properties regex_search city min_price max_price min_guests
                       property_type created
        = get_properties regex_search city min_price max_price min_guests
                         property_type db
        /\ get_properties regex_search city min_price max_price min_guests
                          property_type deleted
           = get_properties regex_search city min_price max_price min_guests
                            property_type db).
Proof.
  intros created deleted.
  assert (Hc : users created = users db /\ properties created = properties db).
  { subst created. unfold create_booking.
    destruct (find_one _ _ (properties db)); [|now split].
    destruct (_ <=? 0); [now split|].
    destruct (encode_booking _); now split. }
  assert (Hd : users deleted = users db /\ properties deleted = properties db).
  { subst deleted. unfold delete_booking.
    destruct (find_one _ _ (bookings db)); [|now split].
    destruct (_ && _); [now split|].
    destruct (_ =? 0); now split. }
  destruct Hc as [Hcu Hcp], Hd as [Hdu Hdp].
  repeat (split; [assumption|]).
  intros. unfold get_properties. now rewrite Hcp, Hdp.
Qed.

End Lifecycle.

(* ===================================================================== *)
(** * Stays and the calendar *)
(* ===================================================================== *)

Section Stay.

Variable regex_search : string -> string -> string -> bool.

(** X7.  For the dates a request can carry, [create_booking] goes by the
    calendar.  With the property found, it answers 400 exactly when
    [check_out] is the same day as [check_in] or an earlier one; it books
    exactly when [check_out] is a later day and the guest count is one the
    store can hold, and ends in [OverflowError] exactly when [check_out]
    is a later day and the guest count is not.  The nights counted are
    never more than 3652058, the span from 0001-01-01 to 9999-12-31. *)
Theorem create_booking_by_calendar booking_data current_user fresh db property_doc :
  datetime.valid (BookingCreate.check_in booking_data) = true ->
  datetime.valid (BookingCreate.check_out booking_data) = true ->
  find_one regex_search
           {["id" := Equals (VStr (BookingCreate.property_id booking_data))]}
           (properties db) = Some property_doc ->
  let later := calendar.date_lt (BookingCreate.check_in booking_data)
                                (BookingCreate.check_out booking_data) in
  let fits := int64 (BookingCreate.guests booking_data) in
  let answer := (create_booking regex_search booking_data current_user fresh db).1 in
  ((exists r, answer = Responds (Return r)) <-> later = true /\ fits = true)
  /\ (answer = Responds (Raise (mkHTTPException 400 "Invalid date range"))
      <-> later = false)
  /\ (answer = Uncaught OverflowError <-> later = true /\ fits = false)
  /\ datetime.days_between (BookingCreate.check_out booking_data)
                           (BookingCreate.check_in booking_data) <= 3652058.
Proof.
  intros Hin Hout Hfind later fits answer.
  pose proof (calendar.days_between_positive _ _ Hin Hout) as Hpos.
  fold later in Hpos.
  pose proof (calendar.toordinal_range _ Hin) as Hrin.
  pose proof (calendar.toordinal_range _ Hout) as Hrout.
  assert (Hspan : datetime.days_between (BookingCreate.check_out booking_data)
                                        (BookingCreate.check_in booking_data)
                  <= 3652058)
    by (unfold datetime.days_between; lia).
  subst answer.
  destruct (Z.leb_spec (datetime.days_between (BookingCreate.check_out booking_data)
                                              (BookingCreate.check_in booking_data)) 0)
    as [Hle|Hlt].
  - assert (Hlater : later = false).
    { destruct later; [|reflexivity]. destruct Hpos as [_ Hpos].
      specialize (Hpos eq_refl). lia. }
    unfold create_booking. rewrite Hfind.
    apply Z.leb_le in Hle. rewrite Hle. simpl. rewrite Hlater.
    split; [split; [intros [r [=]]|intros [[=] _]]|].
    split; [split; reflexivity|].
    split; [split; [discriminate|intros [[=] _]]|exact Hspan].
  - assert (Hlater : later = true) by now apply Hpos.
    rewrite Hlater. destruct fits eqn:Hfits; subst fits.
    + rewrite (create_booking_ok _ _ current_user fresh _ _ Hfind Hlt Hfits). simpl.
      split; [split; [intros _; now split|intros _; eexists; reflexivity]|].
      split; [split; discriminate|].
      split; [split; [discriminate|intros [_ [=]]]|exact Hspan].
    + rewrite (create_booking_overflow _ _ current_user fresh _ _ Hfind Hlt Hfits).
      simpl.
      split; [split; [intros [r [=]]|intros [_ [=]]]|].
      split; [split; discriminate|].
      split; [split; [intros _; now split|reflexivity]|exact Hspan].
Qed.

End Stay.

(** ** The dates as they are stored *)

Lemma digit_inj (m n : Z) :
  datetime.digit m = datetime.digit n -> m mod 10 = n mod 10.
Proof.
  unfold datetime.digit. intros [= Heq].
  assert (Hm : 0 <= m mod 10 < 10) by (apply Z.mod_pos_bound; lia).
  assert (Hn : 0 <= n mod 10 < 10) by (apply Z.mod_pos_bound; lia).
  apply (f_equal Ascii.nat_of_ascii) in Heq.
  rewrite !Ascii.nat_ascii_embedding in Heq by lia. lia.
Qed.

Lemma pad2_inj (m n : Z) :
  0 <= m < 100 -> 0 <= n < 100 -> datetime.pad2 m = datetime.pad2 n -> m = n.
Proof.
  intros Hm Hn. unfold datetime.pad2.
  intros Heq.
  assert (H1 : datetime.digit (m / 10) = datetime.digit (n / 10)
               /\ datetime.digit m = datetime.digit n).
  { unfold datetime.digit in *. cbv [String.append] in Heq.
    injection Heq as H1 H2. split; f_equal; assumption. }
  destruct H1 as [H1 H2]. apply digit_inj in H1, H2.
  Z.div_mod_to_equations. lia.
Qed.

(** X8.  The ISO strings written for [check_in] and [check_out] tell the
    dates apart: two valid dates with the same [isoformat] are the same
    date, and the string has the ten characters of [YYYY-MM-DD]. *)
Theorem isoformat_injective (a b : date) :
  datetime.valid a = true -> datetime.valid b = true ->
  (datetime.isoformat a = datetime.isoformat b -> a = b)
  /\ String.length (datetime.isoformat a) = 10%nat
  /\ String.substring 4 1 (datetime.isoformat a) = "-"
  /\ String.substring 7 1 (datetime.isoformat a) = "-".
Proof.
  intros Ha Hb.
  pose proof (calendar.valid_bounds a Ha) as (Hya & Hma & Hda).
  pose proof (calendar.valid_bounds b Hb) as (Hyb & Hmb & Hdb).
  assert (Hdim : forall y m, datetime._days_in_month y m <= 31).
  { intros y m. unfold datetime._days_in_month.
    destruct (_ && _); [lia|].
    unfold datetime._DAYS_IN_MONTH. generalize (Z.to_nat m). intros k.
    do 13 (destruct k as [|k]; [simpl; lia|]). destruct k; simpl; lia. }
  pose proof (Hdim (datetime.year a) (datetime.month a)).
  pose proof (Hdim (datetime.year b) (datetime.month b)).
  split; [|repeat split].
  intros Heq. unfold datetime.isoformat, datetime.pad4 in Heq.
  assert (Hparts :
            datetime.pad2 (datetime.year a / 100) = datetime.pad2 (datetime.year b / 100)
            /\ datetime.pad2 (datetime.year a) = datetime.pad2 (datetime.year b)
            /\ datetime.pad2 (datetime.month a) = datetime.pad2 (datetime.month b)
            /\ datetime.pad2 (datetime.day a) = datetime.pad2 (datetime.day b)).
  { unfold datetime.pad2, datetime.digit in *. cbv [String.append] in *.
    injection Heq as H1 H2 H3 H4 H5 H6 H7 H8.
    repeat split; cbv [String.append];
      (f_equal; [assumption|f_equal; assumption]). }
  destruct Hparts as (Hy1 & Hy2 & Hm & Hd).
  apply pad2_inj in Hy1; [|Z.div_mod_to_equations; lia|Z.div_mod_to_equations; lia].
  apply pad2_inj in Hm; [|lia|lia].
  apply pad2_inj in Hd; [|lia|lia].
  assert (Hy : datetime.year a = datetime.year b).
  { unfold datetime.pad2 in Hy2.
    assert (Hlow : datetime.digit (datetime.year a / 10)
                   = datetime.digit (datetime.year b / 10)
                   /\ datetime.digit (datetime.year a)
                      = datetime.digit (datetime.year b)).
    { unfold datetime.digit in *. cbv [String.append] in Hy2.
      injection Hy2 as H1 H2. split; f_equal; assumption. }
    destruct Hlow as [Hl1 Hl2]. apply digit_inj in Hl1, Hl2.
    Z.div_mod_to_equations. lia. }
  destruct a, b. simpl in *. congruence.
Qed.

(* ===================================================================== *)
(** * Listings: [get_property], [create_property] and the search *)
(* ===================================================================== *)

Module PropertyCreate.
Record t := mk {
  title : string;
  description : string;
  property_type : string;
  city : string;
  state : string;
  address : string;
  price_per_night : float;
  max_guests : Z;
  bedrooms : Z;
  bathrooms : Z;
  amenities : list string;
  images : list string
}.
End PropertyCreate.
Abbreviation PropertyCreate := PropertyCreate.t.

(** The [Property] built from the keys of a [PropertyCreate]: the model's
    defaults fill the rest, [id] from [uuid.uuid4()], [available] with
    [True], [created_at] from [datetime.utcnow()]. *)
Definition new_Property (data : PropertyCreate) (fresh : Fresh) : Property :=
  Property.mk (uuid4 fresh)
              (PropertyCreate.title data)
              (PropertyCreate.description data)
              (PropertyCreate.property_type data)
              (PropertyCreate.city data)
              (PropertyCreate.state data)
              (PropertyCreate.address data)
              (PropertyCreate.price_per_night data)
              (PropertyCreate.max_guests data)
              (PropertyCreate.bedrooms data)
              (PropertyCreate.bathrooms data)
              (PropertyCreate.amenities data)
              (PropertyCreate.images data)
              true
              (utcnow fresh).

Section Listings.

Variable regex_search : string -> string -> string -> bool.

(** ** [GET /properties/{property_id}] *)

Definition get_property (property_id : string) (db : Database) : response Property :=
  match find_one regex_search {["id" := Equals (VStr property_id)]} (properties db) with
  | None => Raise (mkHTTPException 404 "Property not found")
  | Some property_doc => Return (fields property_doc)
  end.

(** ** [POST /properties] *)

Definition create_property (property_data : PropertyCreate) (fresh : Fresh)
    (db : Database) : ending Property * Database :=
  let property_obj := new_Property property_data fresh in
  (* [insert_one]: the document is encoded, then written *)
  match encode_property property_obj with
  | None => (Uncaught OverflowError, db)
  | Some document =>
      (Responds (Return property_obj),
       mkDatabase (users db)
                  (insert_one (object_id fresh) document (properties db))
                  (bookings db))
  end.

(** X9.  [get_property] answers 404 exactly when no property of the store
    has the [id] asked for; otherwise it returns the first property of the
    store, in store order, that has it. *)
Theorem get_property_first_match property_id db :
  match get_property property_id db with
  | Raise e =>
      e = mkHTTPException 404 "Property not found"
      /\ Forall (fun d => Property.id (fields d) <> property_id) (properties db)
  | Return p =>
      Property.id p = property_id
      /\ exists before d after,
           properties db = (before ++ d :: after)%list
           /\ fields d = p
           /\ Forall (fun d' => Property.id (fields d') <> property_id) before
  end.
Proof.
  unfold get_property.
  destruct (find_one _ _ (properties db)) as [d|] eqn:Hfind.
  - apply find_one_Some_split in Hfind as (before & after & Hc & Hbefore & Hd).
    rewrite matches_property_id in Hd. apply String.eqb_eq in Hd.
    split; [exact Hd|]. exists before, d, after.
    split; [exact Hc|]. split; [reflexivity|].
    eapply Forall_impl; [exact Hbefore|]. intros d' Hd'. cbv beta in Hd'.
    rewrite matches_property_id in Hd'. now apply String.eqb_neq.
  - split; [reflexivity|]. apply find_one_None in Hfind.
    eapply Forall_impl; [exact Hfind|]. intros d' Hd'. cbv beta in Hd'.
    rewrite matches_property_id in Hd'. now apply String.eqb_neq.
Qed.

(** X10.  [create_property] with counts the store can hold (guests,
    bedrooms and bathrooms within the signed 64-bit range) returns the
    property it has built, always with [available] true, and writes it at
    the end of the collection with [created_at] cut to the millisecond:
    what is stored is what is returned exactly when the clock read a whole
    millisecond.  Bookings and users are as they were, and when no
    property of the store already had the new [id], [get_property] on
    that [id] returns the stored property.  With a count outside the
    range the request ends in [OverflowError] and the store is as it
    was. *)
Theorem create_then_get_property property_data fresh db :
  let created := create_property property_data fresh db in
  let property_obj := new_Property property_data fresh in
  let fits := int64 (PropertyCreate.max_guests property_data)
              && int64 (PropertyCreate.bedrooms property_data)
              && int64 (PropertyCreate.bathrooms property_data) in
  (fits = false -> created = (Uncaught OverflowError, db))
  /\ (fits = true ->
      created.1 = Responds (Return property_obj)
      /\ Property.available property_obj = true
      /\ Property.id property_obj = uuid4 fresh
      /\ Property.created_at property_obj = utcnow fresh
      /\ properties created.2
         = (properties db
            ++ [mkstored (Some (object_id fresh)) (stored_property property_obj)])%list
      /\ Property.created_at (stored_property property_obj)
         = utcnow fresh / 1000 * 1000
      /\ (stored_property property_obj = property_obj
          <-> utcnow fresh mod 1000 = 0)
      /\ users created.2 = users db
      /\ bookings created.2 = bookings db
      /\ (Forall (fun d => Property.id (fields d) <> uuid4 fresh) (properties db) ->
          get_property (uuid4 fresh) created.2
          = Return (stored_property property_obj))).
Proof.
  intros created property_obj fits. subst created.
  unfold create_property, encode_property. fold property_obj.
  change (int64 (Property.max_guests property_obj)
          && int64 (Property.bedrooms property_obj)
          && int64 (Property.bathrooms property_obj)) with fits.
  destruct fits; (split; [intros Hfits|intros Hfits]);
    try discriminate; try reflexivity.
  cbn [fst snd users properties bookings].
  repeat (split; [reflexivity|]).
  split.
  { unfold stored_property, property_obj, new_Property, bson_datetime.
    cbn [Property.created_at Property.id Property.title Property.description
         Property.property_type Property.city Property.state Property.address
         Property.price_per_night Property.max_guests Property.bedrooms
         Property.bathrooms Property.amenities Property.images
         Property.available].
    pose proof (Z.div_mod (utcnow fresh) 1000 ltac:(lia)) as Hdiv.
    split.
    - intros [= Heq]. lia.
    - intros Hmod. f_equal. lia. }
  repeat (split; [reflexivity|]).
  intros Hfresh. unfold get_property.
  assert (Hmiss : Forall (fun d => matches regex_search
                                     {["id" := Equals (VStr (uuid4 fresh))]}
                                     (stored_dict d) = false) (properties db)).
  { eapply Forall_impl; [exact Hfresh|]. intros d Hd. cbv beta.
    rewrite matches_property_id. now apply String.eqb_neq. }
  cbn [properties]. unfold insert_one.
  rewrite find_one_append; [reflexivity|exact Hmiss|].
  rewrite matches_property_id. apply String.eqb_refl.
Qed.

(** ** The search, criterion by criterion *)

Lemma get_properties_stored city min_price max_price min_guests property_type db p :
  In p (get_properties regex_search city min_price max_price min_guests
                       property_type db) ->
  exists d, In d (properties db) /\ fields d = p.
Proof.
  rewrite get_properties_selects. intros Hin.
  apply list_elem_of_In, elem_of_take in Hin as (i & Hi & _).
  apply list_elem_of_lookup_2, list_elem_of_In, filter_In in Hi as [Hi _].
  apply in_map_iff in Hi as (d & Hd & Hin). now exists d.
Qed.

(** X11.  Every property a search returns is one of the store and meets
    each criterion that is there and true as a truth value: its city and
    its type are found by the store's case-insensitive search for the
    pattern given, its price is at least [min_price] and at most
    [max_price], and it takes at least [min_guests] guests. *)
Theorem search_results_meet_criteria
    city min_price max_price min_guests property_type db p :
  In p (get_properties regex_search city min_price max_price min_guests
                       property_type db) ->
  (exists d, In d (properties db) /\ fields d = p)
  /\ (forall c, city = Some c -> c <> EmptyString ->
        regex_search c "i" (Property.city p) = true)
  /\ (forall lo, min_price = Some lo -> truthy_float lo = true ->
        PrimFloat.leb lo (Property.price_per_night p) = true)
  /\ (forall hi, max_price = Some hi -> truthy_float hi = true ->
        PrimFloat.leb (Property.price_per_night p) hi = true)
  /\ (forall g, min_guests = Some g -> g <> 0 -> g <= Property.max_guests p)
  /\ (forall t, property_type = Some t -> t <> EmptyString ->
        regex_search t "i" (Property.property_type p) = true).
Proof.
  intros Hin. split; [eapply get_properties_stored, Hin|].
  apply get_properties_In in Hin. unfold selects in Hin.
  rewrite !andb_true_iff in Hin.
  destruct Hin as (((((_ & Hc) & Hlo) & Hhi) & Hg) & Ht).
  split; [|split; [|split; [|split]]].
  - intros c -> Hne. simpl in Hc. unfold truthy_str in Hc.
    apply String.eqb_neq in Hne. now rewrite Hne in Hc.
  - intros lo -> Htr. simpl in Hlo. now rewrite Htr in Hlo.
  - intros hi -> Htr. simpl in Hhi. now rewrite Htr in Hhi.
  - intros g -> Hne. simpl in Hg. unfold truthy_int in Hg.
    apply Z.eqb_neq in Hne. rewrite Hne in Hg. simpl in Hg. now apply Z.leb_le.
  - intros t -> Hne. simpl in Ht. unfold truthy_str in Ht.
    apply String.eqb_neq in Hne. now rewrite Hne in Ht.
Qed.


(** ** The join of the listing *)

(** X13.  The property joined to a listed booking is the first property
    of the store whose [id] is the booking's [property_id], without its
    [_id]; [None] is joined exactly when no property of the store has
    that [id]. *)
Theorem listing_joins_by_property_id current_user db e :
  In e (get_user_bookings regex_search current_user db) ->
  match property e with
  | Some p =>
      Property.id (fields p) = Booking.property_id (fields (booking e))
      /\ _id p = None
      /\ get_property (Booking.property_id (fields (booking e))) db
         = Return (fields p)
  | None =>
      Forall (fun d => Property.id (fields d)
                       <> Booking.property_id (fields (booking e)))
             (properties db)
  end.
Proof.
  intros He. rewrite get_user_bookings_listed in He.
  apply in_map_iff in He as (b & <- & _). unfold listed. simpl.
  rewrite del_id_fields. unfold get_property.
  destruct (find_one _ _ (properties db)) as [d|] eqn:Hfind; simpl.
  - rewrite del_id_fields, del_id_id. split; [|split; reflexivity].
    apply find_one_Some_split in Hfind as (_ & _ & _ & _ & Hd).
    rewrite matches_property_id in Hd. now apply String.eqb_eq.
  - apply find_one_None in Hfind.
    eapply Forall_impl; [exact Hfind|]. intros d' Hd'. cbv beta in Hd'.
    rewrite matches_property_id in Hd'. now apply String.eqb_neq.
Qed.

End Listings.

(* ===================================================================== *)
(** * Accounts: [register], [login], [get_current_user] *)
(* ===================================================================== *)

Module UserCreate.
Record t := mk {
  email : string;
  first_name : string;
  last_name : string;
  password : string
}.
End UserCreate.
Abbreviation UserCreate := UserCreate.t.

Module UserLogin.
Record t := mk { email : string; password : string }.
End UserLogin.
Abbreviation UserLogin := UserLogin.t.

(** [{"id": ..., "email": ..., "first_name": ..., "last_name": ...}] *)
Record user_info := mk_user_info {
  info_id : string;
  info_email : string;
  info_first_name : string;
  info_last_name : string
}.

(** [{"token": token, "user": {...}}] *)
Record token_response := mk_token_response {
  token : string;
  user : user_info
}.

Definition JWT_SECRET : string := "wunderwohn-secret-key-2025".
Definition JWT_ALGORITHM : string := "HS256".

(** What [jwt.decode] comes to: the payload, or an error of the library.
    [import jwt] is PyJWT: of the two errors the handler names it has
    [ExpiredSignatureError]; its others (a signature that does not verify,
    a string that is no token, another algorithm, ...) are all an
    [InvalidTokenError].  A name [JWTError] the module does not have. *)
Inductive decoded :=
  | Payload (payload : dict)
  | ExpiredSignatureError
  | InvalidTokenError.

(** What the [try] block of [get_current_user] can raise. *)
Inductive exception :=
  | HTTP (e : HTTPException)
  | Expired
  | Invalid
  | OperationFailure.

(** Truth value of a field value, for [if not user_id]. *)
Definition truthy_value (v : value) : bool :=
  match v with
  | VNull => false
  | VBool b => b
  | VInt n => truthy_int n
  | VFloat x => truthy_float x
  | VStr s => truthy_str s
  | VDate _ => true
  | VOid _ => true
  | VList l => match l with [] => false | _ :: _ => true end
  | VDict d => match d with [] => false | _ :: _ => true end
  end.

Section Accounts.

Variable regex_search : string -> string -> string -> bool.

(** The password context and the token library are used as they come:
    [pwd_hash password salt] is [pwd_context.hash(password)] under the salt
    it draws, [pwd_verify] is [pwd_context.verify], [jwt_encode payload key
    algorithm] is [jwt.encode], and [jwt_decode token key algorithms now]
    is [jwt.decode] at the time [now]. *)
Variable pwd_hash : string -> string -> string.
Variable pwd_verify : string -> string -> bool.
Variable jwt_encode : dict -> string -> string -> string.
Variable jwt_decode : string -> string -> list string -> float -> decoded.

(** A token can carry any JSON value under ["user_id"], an object among
    them, and the handler hands it to the store as the condition on
    ["id"].  How the store reads a condition that is a document, as in
    [{"id": {"$ne": 0}}], is the store's matter and is left open:
    [document_condition d] is [None] when the store rejects the query, and
    otherwise tells which values of the field (or its absence) the
    condition selects. *)
Variable document_condition : list (string * value) -> option (option value -> bool).

Definition hash_password (password salt : string) : string :=
  pwd_hash password salt.

Definition verify_password (password hashed : string) : bool :=
  pwd_verify password hashed.

(** [now] is [datetime.utcnow().timestamp()]. *)
Definition create_jwt_token (user_id : string) (now : float) : string :=
  let payload : dict :=
    <["user_id" := VStr user_id]> {["exp" := VFloat (PrimFloat.add now 86400)]} in
  jwt_encode payload JWT_SECRET JWT_ALGORITHM.

(** [db.users.find_one({"id": user_id})], for whatever the token carries;
    [None] when the store raises. *)
Definition find_user (user_id : value) (c : list (stored User))
  : option (option (stored User)) :=
  match user_id with
  | VDict d =>
      match document_condition d with
      | None => None
      | Some selects =>
          Some (List.find (fun user => selects (stored_dict user !! "id")) c)
      end
  | _ => Some (find_one regex_search {["id" := Equals user_id]} c)
  end.

(** The [try] block. *)
Definition get_current_user_try (credentials : string) (now : float)
    (db : Database) : exception + User :=
  match jwt_decode credentials JWT_SECRET [JWT_ALGORITHM] now with
  | Payload payload =>
      let user_id := default VNull (payload !! "user_id") in
      if negb (truthy_value user_id) then
        inl (HTTP (mkHTTPException 401 "Invalid token"))
      else
        match find_user user_id (users db) with
        | None => inl OperationFailure
        | Some None => inl (HTTP (mkHTTPException 401 "User not found"))
        | Some (Some user) => inr (fields user)
        end
  | ExpiredSignatureError => inl Expired
  | InvalidTokenError => inl Invalid
  end.

(** The [except] clauses are tried in order.  The first takes an expired
    token.  For anything else raised in the block, the [HTTPException]s of
    the block among them, the second clause is looked at, and evaluating
    its [jwt.JWTError] raises [AttributeError]: that is what leaves the
    function. *)
Definition get_current_user (credentials : string) (now : float) (db : Database)
  : ending User :=
  match get_current_user_try credentials now db with
  | inr user => Responds (Return user)
  | inl Expired => Responds (Raise (mkHTTPException 401 "Token expired"))
  | inl _ => Uncaught AttributeError
  end.

Definition info (u : User) : user_info :=
  mk_user_info (User.id u) (User.email u) (User.first_name u) (User.last_name u).

(** [POST /auth/register].  [salt] is what the hash draws, [fresh] gives the
    new user's [id], [created_at] and [_id], and [now] is the clock read
    for the token. *)
Definition register (user_data : UserCreate) (salt : string) (fresh : Fresh)
    (now : float) (db : Database) : response token_response * Database :=
  (* Check if user exists *)
  match find_one regex_search {["email" := Equals (VStr (UserCreate.email user_data))]}
                 (users db) with
  | Some existing_user =>
      (Raise (mkHTTPException 400 "Email already registered"), db)
  | None =>
      (* Create user *)
      let user : User :=
        User.mk (uuid4 fresh)
                (UserCreate.email user_data)
                (UserCreate.first_name user_data)
                (UserCreate.last_name user_data)
                (hash_password (UserCreate.password user_data) salt)
                (utcnow fresh) in
      let db := mkDatabase (insert_one (object_id fresh) (encode_user user) (users db))
                           (properties db) (bookings db) in
      let token := create_jwt_token (User.id user) now in
      (Return (mk_token_response token (info user)), db)
  end.

(** [POST /auth/login] *)
Definition login (login_data : UserLogin) (now : float) (db : Database)
  : response token_response :=
  match find_one regex_search {["email" := Equals (VStr (UserLogin.email login_data))]}
                 (users db) with
  | None => Raise (mkHTTPException 401 "Invalid credentials")
  | Some user =>
      if negb (verify_password (UserLogin.password login_data)
                               (User.password_hash (fields user)))
      then Raise (mkHTTPException 401 "Invalid credentials")
      else
        let token := create_jwt_token (User.id (fields user)) now in
        Return (mk_token_response token (info (fields user)))
  end.

(** [GET /auth/me] *)
Definition get_me (current_user : User) : user_info := info current_user.

(** ** The filters of the account handlers *)

Lemma User_lookup (u : User) :
  as_dict u !! "id" = Some (VStr (User.id u))
  /\ as_dict u !! "email" = Some (VStr (User.email u)).
Proof. split; reflexivity. Qed.

Lemma matches_email (email : string) (d : stored User) :
  matches regex_search {["email" := Equals (VStr email)]} (stored_dict d)
  = String.eqb (User.email (fields d)) email.
Proof.
  rewrite matches_singleton, stored_dict_lookup by discriminate.
  destruct (User_lookup (fields d)) as (_ & ->). reflexivity.
Qed.

Lemma matches_user_value (v : value) (d : stored User) :
  matches regex_search {["id" := Equals v]} (stored_dict d) = true ->
  v = VStr (User.id (fields d)).
Proof.
  rewrite matches_singleton, stored_dict_lookup by discriminate.
  destruct (User_lookup (fields d)) as (-> & _). simpl.
  destruct v as [| | | |s| |[]| |]; simpl; try discriminate.
  intros Heq. apply String.eqb_eq in Heq. now subst.
Qed.

(** The user that a successful [register] writes, as the store keeps
    it. *)
Definition registered_user (user_data : UserCreate) (salt : string) (fresh : Fresh)
  : User :=
  User.mk (uuid4 fresh)
          (UserCreate.email user_data)
          (UserCreate.first_name user_data)
          (UserCreate.last_name user_data)
          (pwd_hash (UserCreate.password user_data) salt)
          (bson_datetime (utcnow fresh)).

Lemma register_new user_data salt fresh now db :
  Forall (fun d => User.email (fields d) <> UserCreate.email user_data) (users db) ->
  register user_data salt fresh now db
  = (Return (mk_token_response (create_jwt_token (uuid4 fresh) now)
                               (info (registered_user user_data salt fresh))),
     mkDatabase (users db ++ [mkstored (Some (object_id fresh))
                                       (registered_user user_data salt fresh)])
                (properties db) (bookings db)).
Proof.
  intros Hnew. unfold register.
  pose proof (find_one_split regex_search {["email" := Equals (VStr (UserCreate.email user_data))]}
                (users db)) as Hfind.
  destruct (find_one _ _ (users db)) as [d|]; [|reflexivity].
  destruct Hfind as (before & after & Hc & _ & Hd).
  rewrite matches_email in Hd. apply String.eqb_eq in Hd.
  rewrite Hc in Hnew. apply Forall_app in Hnew as [_ Hnew].
  apply Forall_cons in Hnew as [Hnew _]. contradiction.
Qed.

(** X14.  [register] never makes a second account for an address.  When a
    user of the store has the address, it answers 400 and the store is as
    it was; otherwise it adds one user, with that address and the hash of
    the password, and answers with a token for the new [id].  Either way,
    if the addresses of the store were distinct, they still are. *)
Theorem register_keeps_emails_distinct user_data salt fresh now db :
  let outcome := register user_data salt fresh now db in
  let emails (db : Database) := map (fun d => User.email (fields d)) (users db) in
  (In (UserCreate.email user_data) (emails db) ->
     outcome = (Raise (mkHTTPException 400 "Email already registered"), db))
  /\ (~ In (UserCreate.email user_data) (emails db) ->
        outcome.1
        = Return (mk_token_response (create_jwt_token (uuid4 fresh) now)
                                    (info (registered_user user_data salt fresh)))
        /\ users outcome.2
           = (users db ++ [mkstored (Some (object_id fresh))
                                    (registered_user user_data salt fresh)])%list
        /\ properties outcome.2 = properties db
        /\ bookings outcome.2 = bookings db)
  /\ (NoDup (emails db) -> NoDup (emails outcome.2)).
Proof.
  intros outcome emails. subst outcome.
  assert (Hknown : In (UserCreate.email user_data) (emails db) ->
                   register user_data salt fresh now db
                   = (Raise (mkHTTPException 400 "Email already registered"), db)).
  { intros Hin. unfold register.
    pose proof (find_one_split regex_search
                  {["email" := Equals (VStr (UserCreate.email user_data))]}
                  (users db)) as Hfind.
    destruct (find_one _ _ (users db)) as [d|]; [reflexivity|].
    apply in_map_iff in Hin as (d & Hd & Hin).
    rewrite Forall_forall in Hfind. apply list_elem_of_In, Hfind in Hin.
    rewrite matches_email in Hin. apply String.eqb_neq in Hin. contradiction. }
  assert (Hnew : ~ In (UserCreate.email user_data) (emails db) ->
                 Forall (fun d => User.email (fields d) <> UserCreate.email user_data)
                        (users db)).
  { intros Hnotin. apply Forall_forall. intros d Hd Heq. apply Hnotin.
    apply in_map_iff. exists d. split; [exact Heq|apply list_elem_of_In, Hd]. }
  split; [exact Hknown|]. split.
  - intros Hnotin. rewrite (register_new _ _ _ _ _ (Hnew Hnotin)). simpl.
    repeat split; reflexivity.
  - intros Hnodup.
    destruct (in_dec String.string_dec (UserCreate.email user_data) (emails db))
      as [Hin|Hnotin].
    + now rewrite (Hknown Hin).
    + rewrite (register_new _ _ _ _ _ (Hnew Hnotin)). simpl.
      subst emails. simpl. rewrite map_app. simpl.
      apply NoDup_app. split; [exact Hnodup|]. split.
      * intros e He Hin. apply list_elem_of_In in Hin. simpl in Hin.
        destruct Hin as [Heq|[]]. subst e. apply Hnotin, list_elem_of_In, He.
      * apply NoDup_singleton.
Qed.

(** X15.  [login] answers with a token only for the first user of the
    store that has the address given, and only when the password verifies
    against that user's hash; the token is for that user's [id].  It
    refuses with 401 in every other case: no user with the address, or a
    password that does not verify. *)
Theorem login_answers login_data now db :
  match login login_data now db with
  | Return r =>
      exists before d after,
        users db = (before ++ d :: after)%list
        /\ Forall (fun d' => User.email (fields d') <> UserLogin.email login_data) before
        /\ User.email (fields d) = UserLogin.email login_data
        /\ pwd_verify (UserLogin.password login_data) (User.password_hash (fields d))
           = true
        /\ r = mk_token_response (create_jwt_token (User.id (fields d)) now)
                                 (info (fields d))
  | Raise e =>
      e = mkHTTPException 401 "Invalid credentials"
      /\ (Forall (fun d => User.email (fields d) <> UserLogin.email login_data) (users db)
          \/ exists before d after,
               users db = (before ++ d :: after)%list
               /\ Forall (fun d' => User.email (fields d')
                                    <> UserLogin.email login_data) before
               /\ User.email (fields d) = UserLogin.email login_data
               /\ pwd_verify (UserLogin.password login_data)
                             (User.password_hash (fields d)) = false)
  end.
Proof.
  unfold login.
  pose proof (find_one_split regex_search {["email" := Equals (VStr (UserLogin.email login_data))]}
                (users db)) as Hfind.
  assert (Hne : forall l,
             Forall (fun d' : stored User =>
                       matches regex_search
                         {["email" := Equals (VStr (UserLogin.email login_data))]}
                         (stored_dict d') = false) l ->
             Forall (fun d' => User.email (fields d') <> UserLogin.email login_data) l).
  { intros l Hl. eapply Forall_impl; [exact Hl|]. intros d' Hd'. cbv beta in Hd'.
    rewrite matches_email in Hd'. now apply String.eqb_neq. }
  destruct (find_one _ _ (users db)) as [d|].
  - destruct Hfind as (before & after & Hc & Hbefore & Hd).
    rewrite matches_email in Hd. apply String.eqb_eq in Hd.
    unfold verify_password.
    destruct (pwd_verify _ _) eqn:Hverify; simpl.
    + exists before, d, after. repeat split; auto.
    + split; [reflexivity|]. right. exists before, d, after. repeat split; auto.
  - split; [reflexivity|]. left. now apply Hne.
Qed.

(** X16.  How [get_current_user] ends, case by case.  It returns a user
    only for a token that decodes to a payload with a true ["user_id"],
    and the user is one of the store: the one whose [id] is that string,
    not empty, or, when ["user_id"] is an object, one whose [id] the store
    selects by it as a condition.  It answers 401 only for an expired
    token, with "Token expired".  Every other token ends in
    [AttributeError]: one the library rejects, one without a true
    ["user_id"], one whose user the store does not find, one whose
    condition the store rejects. *)
Theorem get_current_user_sound credentials now db :
  let token := jwt_decode credentials JWT_SECRET [JWT_ALGORITHM] now in
  match get_current_user credentials now db with
  | Responds (Return u) =>
      exists payload user_id d,
        token = Payload payload
        /\ payload !! "user_id" = Some user_id
        /\ truthy_value user_id = true
        /\ In d (users db) /\ fields d = u
        /\ match user_id with
           | VDict condition =>
               exists selects,
                 document_condition condition = Some selects
                 /\ selects (Some (VStr (User.id u))) = true
           | _ => user_id = VStr (User.id u) /\ User.id u <> EmptyString
           end
  | Responds (Raise e) =>
      e = mkHTTPException 401 "Token expired" /\ token = ExpiredSignatureError
  | Uncaught e =>
      e = AttributeError
      /\ (token = InvalidTokenError
          \/ exists payload,
               token = Payload payload
               /\ let user_id := default VNull (payload !! "user_id") in
                  truthy_value user_id = false
                  \/ find_user user_id (users db) = None
                  \/ find_user user_id (users db) = Some None)
  end.
Proof.
  intros token. unfold get_current_user, get_current_user_try. fold token.
  destruct token as [payload| |] eqn:Htoken.
  2:{ split; reflexivity. }
  2:{ split; [reflexivity|now left]. }
  cbv zeta.
  destruct (payload !! "user_id") as [v|] eqn:Hv; cbn [from_option id].
  2:{ cbn. split; [reflexivity|]. right. exists payload. split; [reflexivity|].
      rewrite Hv. now left. }
  destruct (truthy_value v) eqn:Htruthy; cbn -[find_user].
  2:{ split; [reflexivity|]. right. exists payload. split; [reflexivity|].
      rewrite Hv. cbn [from_option id]. now left. }
  destruct (find_user v (users db)) as [[d|]|] eqn:Hfind.
  - exists payload, v, d. split; [reflexivity|]. split; [exact Hv|].
    split; [exact Htruthy|].
    assert (Hcases :
              (exists condition selects,
                  v = VDict condition
                  /\ document_condition condition = Some selects
                  /\ List.find (fun user => selects (stored_dict user !! "id"))
                               (users db) = Some d)
              \/ ((forall condition, v <> VDict condition)
                  /\ find_one regex_search {["id" := Equals v]} (users db) = Some d)).
    { unfold find_user in Hfind. destruct v; try (right; split; [discriminate|congruence]).
      left. destruct (document_condition d0) as [selects|] eqn:Hcondition;
        [|discriminate].
      exists d0, selects. split; [reflexivity|]. split; [exact Hcondition|].
      congruence. }
    destruct Hcases as [(condition & selects & -> & Hcondition & Hfound)
                       |[Hscalar Hfound]].
    + apply find_some in Hfound as [Hin Hsel].
      split; [exact Hin|]. split; [reflexivity|].
      exists selects. split; [exact Hcondition|].
      rewrite stored_dict_lookup in Hsel by discriminate.
      destruct (User_lookup (fields d)) as (Hid & _). now rewrite Hid in Hsel.
    + apply find_one_Some_split in Hfound as (before & after & Hc & _ & Hd).
      apply matches_user_value in Hd. subst v.
      split; [rewrite Hc; apply in_app_iff; right; now left|].
      split; [reflexivity|]. split; [reflexivity|].
      simpl in Htruthy. unfold truthy_str in Htruthy.
      apply negb_true_iff, String.eqb_neq in Htruthy. exact Htruthy.
  - split; [reflexivity|]. right. exists payload. split; [reflexivity|].
    rewrite Hv. cbn [from_option id]. right. now right.
  - split; [reflexivity|]. right. exists payload. split; [reflexivity|].
    rewrite Hv. cbn [from_option id]. right. now left.
Qed.

(** ** When the libraries do their part *)

(** A password verifies against its own hash, whatever the salt. *)
Hypothesis verify_hash :
  forall password salt, pwd_verify password (pwd_hash password salt) = true.

(** X17.  After [register] has made an account, [login] with the same
    address and password succeeds and its token is for the [id] of that
    account. *)
Theorem register_then_login user_data salt fresh now now' db :
  ~ In (UserCreate.email user_data)
       (map (fun d => User.email (fields d)) (users db)) ->
  login (UserLogin.mk (UserCreate.email user_data) (UserCreate.password user_data))
        now' (register user_data salt fresh now db).2
  = Return (mk_token_response (create_jwt_token (uuid4 fresh) now')
                              (info (registered_user user_data salt fresh))).
Proof.
  intros Hnotin.
  assert (Hnew : Forall (fun d => User.email (fields d) <> UserCreate.email user_data)
                        (users db)).
  { apply Forall_forall. intros d Hd Heq. apply Hnotin.
    apply in_map_iff. exists d. split; [exact Heq|apply list_elem_of_In, Hd]. }
  rewrite (register_new _ _ _ _ _ Hnew). unfold login. simpl.
  rewrite find_one_append.
  - simpl. unfold verify_password. now rewrite verify_hash.
  - eapply Forall_impl; [exact Hnew|]. intros d Hd. cbv beta.
    rewrite matches_email. now apply String.eqb_neq.
  - rewrite matches_email. apply String.eqb_refl.
Qed.

(** X18.  The token of [register] opens the session of the account it was
    made for: at a time [now'] at which the token decodes to the payload it
    was made from, [get_current_user] returns the registered user, when
    the new [id] is not empty and no user of the store already had it. *)
Theorem register_token_authenticates user_data salt fresh now now' db r db' :
  register user_data salt fresh now db = (Return r, db') ->
  jwt_decode (token r) JWT_SECRET [JWT_ALGORITHM] now'
  = Payload (<["user_id" := VStr (uuid4 fresh)]>
               {["exp" := VFloat (PrimFloat.add now 86400)]}) ->
  uuid4 fresh <> EmptyString ->
  Forall (fun d => User.id (fields d) <> uuid4 fresh) (users db) ->
  get_current_user (token r) now' db' = Return (registered_user user_data salt fresh).
Proof.
  intros Hreg Hjwt Hid Hfresh. unfold register in Hreg.
  destruct (find_one _ _ (users db)); [discriminate|].
  injection Hreg as <- <-. simpl in Hjwt. simpl.
  unfold get_current_user, get_current_user_try. rewrite Hjwt.
  rewrite lookup_insert_eq. simpl.
  unfold truthy_str. apply String.eqb_neq in Hid. rewrite Hid. simpl.
  unfold insert_one. rewrite find_one_append; [reflexivity| |].
  - eapply Forall_impl; [exact Hfresh|]. intros d Hd. cbv beta.
    rewrite matches_singleton, stored_dict_lookup by discriminate.
    destruct (User_lookup (fields d)) as (-> & _). simpl.
    now apply String.eqb_neq.
  - rewrite matches_singleton, stored_dict_lookup by discriminate.
    match goal with
    | |- context [as_dict ?u !! "id"] => destruct (User_lookup u) as (-> & _)
    end.
    simpl. apply String.eqb_refl.
Qed.

End Accounts.

(* ===================================================================== *)
(** * Seeding: [initialize_sample_data] and [refresh_sample_data] *)
(* ===================================================================== *)

(** [sample_properties]: the twelve listings both seeding routes write. *)
Definition sample_properties : list PropertyCreate := [
  PropertyCreate.mk
    "Charming Apartment in Berlin Mitte"
    "Beautiful 2-bedroom apartment in the heart of Berlin with modern amenities and great transport links. Perfect for exploring the city's rich history and vibrant culture."
    "apartment" "Berlin" "Berlin"
    "Alexanderplatz 1, 10178 Berlin"
    120%float 4 2 1
    ["WiFi";
     "Kitchen";
     "Washing Machine";
     "TV";
     "Air Conditioning"]
    ["https://images.unsplash.com/photo-1703698800457-da754d6f454f";
     "https://images.unsplash.com/photo-1583847268964-b28dc8f51f92";
     "https://images.pexels.com/photos/1454806/pexels-photo-1454806.jpeg"];
  PropertyCreate.mk
    "Historic House in Munich Old Town"
    "Traditional Bavarian house with authentic architecture, perfect for experiencing Munich's culture. Located near Marienplatz with easy access to beer gardens and museums."
    "house" "Munich" "Bavaria"
    "Marienplatz 5, 80331 Munich"
    200%float 6 3 2
    ["WiFi";
     "Kitchen";
     "Garden";
     "Parking";
     "Fireplace"]
    ["https://images.unsplash.com/photo-1670145867818-1fbbbd12e800";
     "https://images.unsplash.com/photo-1556911220-bff31c812dba";
     "https://images.unsplash.com/photo-1615874959474-d609969a20ed"];
  PropertyCreate.mk
    "Modern Riverside Apartment in Hamburg"
    "Contemporary apartment with stunning views of Hamburg's canals and modern amenities. Close to the historic Speicherstadt and HafenCity district."
    "apartment" "Hamburg" "Hamburg"
    "HafenCity 10, 20457 Hamburg"
    150%float 3 1 1
    ["WiFi";
     "Kitchen";
     "River View";
     "TV";
     "Balcony"]
    ["https://images.pexels.com/photos/31838667/pexels-photo-31838667.png";
     "https://images.pexels.com/photos/1080721/pexels-photo-1080721.jpeg";
     "https://images.unsplash.com/photo-1665249934445-1de680641f50"];
  PropertyCreate.mk
    "Cozy Canal House in Cologne"
    "Beautiful traditional house along Cologne's historic canals with authentic German charm. Walking distance to the famous Cologne Cathedral."
    "house" "Cologne" "North Rhine-Westphalia"
    "Rheinauhafen 15, 50678 Cologne"
    180%float 5 2 2
    ["WiFi";
     "Kitchen";
     "Canal View";
     "Parking";
     "Pet Friendly"]
    ["https://images.pexels.com/photos/2773415/pexels-photo-2773415.jpeg";
     "https://images.unsplash.com/photo-1632057254608-5f9b14e37444";
     "https://images.pexels.com/photos/1454806/pexels-photo-1454806.jpeg"];
  PropertyCreate.mk
    "Luxury Apartment in Frankfurt Financial District"
    "High-end apartment in Frankfurt's business district with panoramic city views and premium amenities. Perfect for business travelers and luxury seekers."
    "apartment" "Frankfurt" "Hesse"
    "Zeil 50, 60313 Frankfurt am Main"
    250%float 4 2 2
    ["WiFi";
     "Kitchen";
     "City View";
     "Gym Access";
     "Concierge";
     "Air Conditioning"]
    ["https://images.unsplash.com/photo-1649006613961-26e0c7aa581a";
     "https://images.unsplash.com/photo-1583847268964-b28dc8f51f92";
     "https://images.unsplash.com/photo-1556911220-bff31c812dba"];
  PropertyCreate.mk
    "Charming Villa in Stuttgart Hills"
    "Elegant villa in Stuttgart's hills with beautiful garden and city views, perfect for a luxurious stay. Close to Mercedes-Benz and Porsche museums."
    "villa" "Stuttgart" "Baden-Württemberg"
    "Königstraße 25, 70173 Stuttgart"
    300%float 8 4 3
    ["WiFi";
     "Kitchen";
     "Garden";
     "Pool";
     "Parking";
     "City View"]
    ["https://images.unsplash.com/photo-1726334487986-6f90bfa9e87a";
     "https://images.unsplash.com/photo-1615874959474-d609969a20ed";
     "https://images.pexels.com/photos/1080721/pexels-photo-1080721.jpeg"];
  PropertyCreate.mk
    "Elegant Loft in Dresden Historic Center"
    "Stylish loft apartment in Dresden's beautifully restored historic center. Experience the baroque architecture and cultural heritage of this magnificent city."
    "loft" "Dresden" "Saxony"
    "Neumarkt 8, 01067 Dresden"
    140%float 3 1 1
    ["WiFi";
     "Kitchen";
     "Historic View";
     "TV";
     "Heating"]
    ["https://images.pexels.com/photos/11114194/pexels-photo-11114194.jpeg";
     "https://images.unsplash.com/photo-1583847268964-b28dc8f51f92";
     "https://images.unsplash.com/photo-1665249934445-1de680641f50"];
  PropertyCreate.mk
    "Seaside Apartment in Kiel Baltic Coast"
    "Bright apartment overlooking the Baltic Sea in Kiel. Perfect for sailing enthusiasts and those seeking coastal tranquility in northern Germany."
    "apartment" "Kiel" "Schleswig-Holstein"
    "Kiellinie 20, 24105 Kiel"
    110%float 4 2 1
    ["WiFi";
     "Kitchen";
     "Sea View";
     "Balcony";
     "Beach Access"]
    ["https://images.unsplash.com/photo-1632057254608-5f9b14e37444";
     "https://images.pexels.com/photos/1080721/pexels-photo-1080721.jpeg";
     "https://images.unsplash.com/photo-1615874959474-d609969a20ed"];
  PropertyCreate.mk
    "Mountain Chalet in Garmisch-Partenkirchen"
    "Authentic Alpine chalet with breathtaking mountain views near the Zugspitze. Perfect for hiking, skiing, and experiencing Bavarian mountain culture."
    "chalet" "Garmisch-Partenkirchen" "Bavaria"
    "Alpspitzstraße 12, 82467 Garmisch-Partenkirchen"
    220%float 6 3 2
    ["WiFi";
     "Kitchen";
     "Mountain View";
     "Fireplace";
     "Ski Storage";
     "Garden"]
    ["https://images.unsplash.com/photo-1726334487986-6f90bfa9e87a";
     "https://images.unsplash.com/photo-1703698800457-da754d6f454f";
     "https://images.unsplash.com/photo-1556911220-bff31c812dba"];
  PropertyCreate.mk
    "Industrial Loft in Düsseldorf Art Quarter"
    "Contemporary converted warehouse loft in Düsseldorf's trendy art district. Modern design meets industrial heritage in this unique space."
    "loft" "Düsseldorf" "North Rhine-Westphalia"
    "Königsallee 100, 40212 Düsseldorf"
    170%float 4 2 1
    ["WiFi";
     "Kitchen";
     "Art Gallery Access";
     "TV";
     "Air Conditioning";
     "Workspace"]
    ["https://images.unsplash.com/photo-1649006613961-26e0c7aa581a";
     "https://images.unsplash.com/photo-1665249934445-1de680641f50";
     "https://images.pexels.com/photos/1454806/pexels-photo-1454806.jpeg"];
  PropertyCreate.mk
    "Historic Townhouse in Heidelberg Old Town"
    "Beautifully preserved 16th-century townhouse in romantic Heidelberg. Experience medieval charm with modern comforts near the famous castle."
    "townhouse" "Heidelberg" "Baden-Württemberg"
    "Hauptstraße 45, 69117 Heidelberg"
    190%float 5 3 2
    ["WiFi";
     "Kitchen";
     "Historic Charm";
     "Castle View";
     "Garden";
     "Parking"]
    ["https://images.unsplash.com/photo-1670145867818-1fbbbd12e800";
     "https://images.pexels.com/photos/2773415/pexels-photo-2773415.jpeg";
     "https://images.unsplash.com/photo-1632057254608-5f9b14e37444"];
  PropertyCreate.mk
    "Modern Penthouse in Leipzig City Center"
    "Stunning penthouse apartment in Leipzig's vibrant city center. Enjoy panoramic views and easy access to the city's famous music venues and cultural sites."
    "penthouse" "Leipzig" "Saxony"
    "Augustusplatz 15, 04109 Leipzig"
    280%float 6 3 2
    ["WiFi";
     "Kitchen";
     "Panoramic View";
     "Rooftop Terrace";
     "Elevator";
     "Premium Appliances"]
    ["https://images.pexels.com/photos/11114194/pexels-photo-11114194.jpeg";
     "https://images.unsplash.com/photo-1583847268964-b28dc8f51f92";
     "https://images.pexels.com/photos/1080721/pexels-photo-1080721.jpeg"]
].

From Stdlib Require Import DecimalString.

(** [str(n)] for a length. *)
Definition str_of_nat (n : nat) : string :=
  DecimalString.NilZero.string_of_uint (Nat.to_uint n).

Section Seeding.

Variable regex_search : string -> string -> string -> bool.
Variable pwd_hash : string -> string -> string.

(** ** The membership operators of the store

    [refresh_sample_data] is the one handler that filters with ["$in"] and
    ["$nin"]; every other operator is read as before. *)

Definition member (x : option value) (arg : value) : bool :=
  match x, arg with
  | Some v, VList l => existsb (value_eqb v) l
  | _, _ => false
  end.

Definition operator_holds_in (ops : gmap string value) (x : option value)
    (op : string) (arg : value) : bool :=
  if String.eqb op "$in" then member x arg
  else if String.eqb op "$nin" then negb (member x arg)
  else operator_holds regex_search ops x op arg.

Definition condition_holds_in (c : condition) (x : option value) : bool :=
  match c with
  | Equals _ => condition_holds regex_search c x
  | Operators ops =>
      forallb (fun kv => operator_holds_in ops x kv.1 kv.2) (map_to_list ops)
  end.

Definition matches_in (f : Filter) (d : dict) : bool :=
  forallb (fun kc => condition_holds_in kc.2 (d !! kc.1)) (map_to_list f).

(** [collection.find(filter).to_list(length=None)]: all the matches. *)
Definition find_in {A} `{Document A} (f : Filter) (c : list (stored A))
  : list (stored A) :=
  List.filter (fun d => matches_in f (stored_dict d)) c.

(** [collection.delete_many(filter)]: every match goes. *)
Definition delete_many {A} `{Document A} (f : Filter) (c : list (stored A))
  : list (stored A) :=
  List.filter (fun d => negb (matches_in f (stored_dict d))) c.

(** [collection.count_documents(filter)] *)
Definition count_documents {A} `{Document A} (f : Filter) (c : list (stored A)) : Z :=
  Z.of_nat (length (find regex_search f c)).

(** [list(s)] for a set of strings, as the argument of an operator. *)
Definition id_list (s : gset string) : value := VList (VStr <$> elements s).

(** ** What both routes write *)

(** The loop over [sample_properties]: the [i]-th insertion draws
    [fresh i]. *)
Fixpoint insert_samples (fresh : nat -> Fresh) (i : nat) (samples : list PropertyCreate)
    (c : list (stored Property)) : list (stored Property) :=
  match samples with
  | [] => c
  | prop_data :: samples =>
      let property_obj := new_Property prop_data (fresh i) in
      (* the counts of the table are small: the document is one the store
         can hold, see [sample_properties_encode] *)
      insert_samples fresh (S i) samples
                     (insert_one (object_id (fresh i)) (stored_property property_obj) c)
  end.

(** The admin account, written unless a user has its address already; it
    is drawn after the listings. *)
Definition ensure_admin (fresh : Fresh) (salt : string) (c : list (stored User))
  : list (stored User) :=
  let admin_user :=
    User.mk (uuid4 fresh) "admin@wunderwohn.com" "Admin" "User"
            (pwd_hash "admin123" salt) (utcnow fresh) in
  match find_one regex_search {["email" := Equals (VStr "admin@wunderwohn.com")]} c with
  | Some existing_admin => c
  | None => insert_one (object_id fresh) (encode_user admin_user) c
  end.

(** The admin account as the store keeps it. *)
Definition admin_user (fresh : Fresh) (salt : string) : User :=
  User.mk (uuid4 fresh) "admin@wunderwohn.com" "Admin" "User"
          (pwd_hash "admin123" salt) (bson_datetime (utcnow fresh)).

(** ** [POST /init-data] *)

Definition initialize_sample_data (fresh : nat -> Fresh) (salt : string)
    (db : Database) : string * Database :=
  (* Check if data already exists *)
  let existing_properties := count_documents ∅ (properties db) in
  if 0 <? existing_properties then
    ("Sample data already exists", db)
  else
    let properties := insert_samples fresh 0 sample_properties (properties db) in
    let users := ensure_admin (fresh (length sample_properties)) salt (users db) in
    (("Initialized " +:+ str_of_nat (length sample_properties)
      +:+ " sample properties and admin user")%string,
     mkDatabase users properties (bookings db)).

(** ** [POST /refresh-data] *)

Definition refresh_sample_data (current_user : User) (fresh : nat -> Fresh)
    (salt : string) (db : Database) : response string * Database :=
  (* Only allow admin to refresh data *)
  if negb (String.eqb (User.email current_user) "admin@wunderwohn.com") then
    (Raise (mkHTTPException 403 "Only admin can refresh data"), db)
  else
    (* Get existing bookings *)
    let existing_bookings := find_in ∅ (bookings db) in
    let booked_property_ids : gset string :=
      list_to_set (map (fun booking => Booking.property_id (fields booking))
                       existing_bookings) in
    (* Get existing properties that have bookings *)
    let existing_properties :=
      find_in {["id" := Operators {["$in" := id_list booked_property_ids]}]}
              (properties db) in
    let existing_property_ids : gset string :=
      list_to_set (map (fun prop => Property.id (fields prop)) existing_properties) in
    (* Delete only properties that don't have bookings *)
    let properties :=
      delete_many {["id" := Operators {["$nin" := id_list existing_property_ids]}]}
                  (properties db) in
    (* Create all properties *)
    let properties := insert_samples fresh 0 sample_properties properties in
    (* Create admin user if not exists *)
    let users := ensure_admin (fresh (length sample_properties)) salt (users db) in
    (Return ("Successfully refreshed data with "
             +:+ str_of_nat (length sample_properties)
             +:+ " properties and admin user")%string,
     mkDatabase users properties (bookings db)).

(** ** How the membership filters select *)

Lemma matches_in_empty (d : dict) : matches_in ∅ d = true.
Proof. unfold matches_in. now rewrite map_to_list_empty. Qed.

Lemma find_in_all {A} `{Document A} (c : list (stored A)) : find_in ∅ c = c.
Proof.
  unfold find_in. induction c as [|d c IH]; simpl; [reflexivity|].
  rewrite matches_in_empty. now rewrite IH.
Qed.

Lemma member_id_list (id : string) (s : gset string) :
  member (Some (VStr id)) (id_list s) = bool_decide (id ∈ s).
Proof.
  unfold member, id_list.
  destruct (bool_decide (id ∈ s)) eqn:Hin.
  - apply bool_decide_eq_true in Hin. apply existsb_exists.
    exists (VStr id). split.
    + apply in_map, list_elem_of_In, elem_of_elements, Hin.
    + simpl. apply String.eqb_refl.
  - apply bool_decide_eq_false in Hin.
    destruct (existsb _ _) eqn:Hex; [|reflexivity].
    apply existsb_exists in Hex as (v & Hv & Heq).
    apply in_map_iff in Hv as (x & <- & Hx). simpl in Heq.
    apply String.eqb_eq in Heq. subst x.
    exfalso. apply Hin, elem_of_elements, list_elem_of_In, Hx.
Qed.

Lemma matches_id_in (s : gset string) (d : stored Property) :
  matches_in {["id" := Operators {["$in" := id_list s]}]} (stored_dict d)
  = bool_decide (Property.id (fields d) ∈ s).
Proof.
  unfold matches_in. rewrite map_to_list_singleton.
  cbn -[member id_list]. rewrite map_to_list_singleton.
  cbn -[member id_list].
  rewrite stored_dict_lookup by discriminate.
  destruct (Property_lookup (fields d)) as (_ & _ & _ & _ & _ & ->).
  unfold operator_holds_in. cbn -[member id_list]. rewrite member_id_list.
  now rewrite !andb_true_r.
Qed.

Lemma matches_id_nin (s : gset string) (d : stored Property) :
  matches_in {["id" := Operators {["$nin" := id_list s]}]} (stored_dict d)
  = negb (bool_decide (Property.id (fields d) ∈ s)).
Proof.
  unfold matches_in. rewrite map_to_list_singleton.
  cbn -[member id_list]. rewrite map_to_list_singleton.
  cbn -[member id_list].
  rewrite stored_dict_lookup by discriminate.
  destruct (Property_lookup (fields d)) as (_ & _ & _ & _ & _ & ->).
  unfold operator_holds_in. cbn -[member id_list]. rewrite member_id_list.
  now rewrite !andb_true_r.
Qed.

(** ** What is written *)

Fixpoint written_samples (fresh : nat -> Fresh) (i : nat)
    (samples : list PropertyCreate) : list (stored Property) :=
  match samples with
  | [] => []
  | prop_data :: samples =>
      mkstored (Some (object_id (fresh i)))
               (stored_property (new_Property prop_data (fresh i)))
      :: written_samples fresh (S i) samples
  end.

(** Each listing of the table is one the store can hold. *)
Lemma sample_properties_encode (fresh : Fresh) :
  Forall (fun prop_data =>
            encode_property (new_Property prop_data fresh)
            = Some (stored_property (new_Property prop_data fresh)))
         sample_properties.
Proof.
  repeat constructor.
Qed.

Lemma insert_samples_written fresh i samples c :
  insert_samples fresh i samples c = (c ++ written_samples fresh i samples)%list.
Proof.
  revert i c. induction samples as [|d samples IH]; intros i c; simpl.
  - now rewrite app_nil_r.
  - rewrite IH. unfold insert_one. now rewrite <- app_assoc.
Qed.

Lemma written_samples_available fresh i samples :
  Forall (fun d => Property.available (fields d) = true)
         (written_samples fresh i samples).
Proof.
  revert i. induction samples as [|d samples IH]; intros i; simpl; constructor.
  - reflexivity.
  - apply IH.
Qed.

Lemma written_samples_length fresh i samples :
  length (written_samples fresh i samples) = length samples.
Proof.
  revert i. induction samples as [|d samples IH]; intros i; simpl; [reflexivity|].
  now rewrite IH.
Qed.

Lemma count_documents_all {A} `{Document A} (c : list (stored A)) :
  count_documents ∅ c = Z.of_nat (length c).
Proof. unfold count_documents. now rewrite find_all. Qed.

Definition emails (c : list (stored User)) : list string :=
  map (fun d => User.email (fields d)) c.

Lemma ensure_admin_spec fresh salt c :
  In "admin@wunderwohn.com" (emails (ensure_admin fresh salt c))
  /\ (In "admin@wunderwohn.com" (emails c) -> ensure_admin fresh salt c = c)
  /\ (~ In "admin@wunderwohn.com" (emails c) ->
      ensure_admin fresh salt c
      = (c ++ [mkstored (Some (object_id fresh)) (admin_user fresh salt)])%list)
  /\ (NoDup (emails c) -> NoDup (emails (ensure_admin fresh salt c))).
Proof.
  unfold ensure_admin.
  pose proof (find_one_split regex_search
                {["email" := Equals (VStr "admin@wunderwohn.com")]} c) as Hfind.
  destruct (find_one _ _ c) as [d|].
  - destruct Hfind as (before & after & Hc & _ & Hd).
    rewrite matches_email in Hd. apply String.eqb_eq in Hd.
    assert (Hin : In "admin@wunderwohn.com" (emails c)).
    { rewrite Hc. unfold emails. rewrite map_app. apply in_app_iff. right.
      left. exact Hd. }
    split; [exact Hin|]. split; [reflexivity|]. split; [contradiction|auto].
  - assert (Hnotin : ~ In "admin@wunderwohn.com" (emails c)).
    { intros Hin. apply in_map_iff in Hin as (d & Hd & Hin).
      rewrite Forall_forall in Hfind. apply list_elem_of_In, Hfind in Hin.
      rewrite matches_email in Hin. apply String.eqb_neq in Hin. contradiction. }
    unfold insert_one, emails. rewrite map_app. simpl.
    split; [apply in_app_iff; right; now left|].
    split; [contradiction|]. split; [reflexivity|].
    intros Hnodup. apply NoDup_app. split; [exact Hnodup|]. split.
    + intros e He Hin. apply list_elem_of_In in Hin. simpl in Hin.
      destruct Hin as [Heq|[]]. subst e. apply Hnotin, list_elem_of_In, He.
    + apply NoDup_singleton.
Qed.

(** X19.  [initialize_sample_data] seeds once.  On a store with a property
    in it, it changes nothing; on a store without, it writes the twelve
    sample listings in the order of the table, each available, and leaves
    the bookings alone.  Run again on its own result, with whatever it
    draws, it changes nothing. *)
Theorem initialize_sample_data_once fresh salt db :
  let seeded := initialize_sample_data fresh salt db in
  (properties db <> [] -> seeded = ("Sample data already exists", db))
  /\ (properties db = [] ->
        seeded.1 = "Initialized 12 sample properties and admin user"
        /\ properties seeded.2 = written_samples fresh 0 sample_properties
        /\ length (properties seeded.2) = 12%nat
        /\ Forall (fun d => Property.available (fields d) = true)
                  (properties seeded.2)
        /\ bookings seeded.2 = bookings db)
  /\ (forall fresh' salt',
        initialize_sample_data fresh' salt' seeded.2
        = ("Sample data already exists", seeded.2)).
Proof.
  intros seeded.
  assert (Hfull : forall fresh salt db,
             properties db <> [] ->
             initialize_sample_data fresh salt db
             = ("Sample data already exists", db)).
  { intros f s d Hne. unfold initialize_sample_data.
    rewrite count_documents_all.
    destruct (properties d); [contradiction|]. reflexivity. }
  assert (Hempty : properties db = [] ->
             properties seeded.2 = written_samples fresh 0 sample_properties
             /\ seeded.1 = "Initialized 12 sample properties and admin user"
             /\ bookings seeded.2 = bookings db).
  { intros Hnil. subst seeded. unfold initialize_sample_data.
    rewrite count_documents_all, Hnil.
    cbn -[insert_samples written_samples sample_properties ensure_admin].
    rewrite insert_samples_written. repeat split; reflexivity. }
  split; [apply Hfull|]. split.
  - intros Hnil. destruct (Hempty Hnil) as (Hp & Hm & Hb).
    split; [exact Hm|]. split; [exact Hp|]. rewrite Hp.
    split; [apply written_samples_length|].
    split; [apply written_samples_available|exact Hb].
  - intros fresh' salt'. apply Hfull.
    destruct (properties db) eqn:Hp.
    + destruct (Hempty eq_refl) as (-> & _). discriminate.
    + subst seeded. rewrite Hfull by (rewrite Hp; discriminate).
      simpl. rewrite Hp. discriminate.
Qed.

(** The properties a booking of the store refers to. *)
Definition has_booking (db : Database) (d : stored Property) : bool :=
  bool_decide (Property.id (fields d)
               ∈ (list_to_set (map (fun b => Booking.property_id (fields b))
                                   (bookings db)) : gset string)).

Lemma refresh_by_admin current_user fresh salt db :
  User.email current_user = "admin@wunderwohn.com" ->
  refresh_sample_data current_user fresh salt db
  = (Return "Successfully refreshed data with 12 properties and admin user",
     mkDatabase (ensure_admin (fresh 12%nat) salt (users db))
                (List.filter (has_booking db) (properties db)
                 ++ written_samples fresh 0 sample_properties)
                (bookings db)).
Proof.
  intros Hadmin. unfold refresh_sample_data.
  apply String.eqb_eq in Hadmin. rewrite Hadmin.
  cbn -[insert_samples written_samples sample_properties ensure_admin
        find_in delete_many].
  rewrite insert_samples_written, find_in_all.
  f_equal. f_equal. f_equal.
  unfold delete_many, find_in, has_booking.
  apply List.filter_ext_in. intros d Hd.
  rewrite matches_id_nin, negb_involutive.
  apply bool_decide_ext.
  rewrite !elem_of_list_to_set. split.
  - intros Hin. apply list_elem_of_In, in_map_iff in Hin as (d' & Heq & Hd').
    apply filter_In in Hd' as [_ Hd']. rewrite matches_id_in in Hd'.
    apply bool_decide_eq_true in Hd'. rewrite Heq in Hd'.
    now apply elem_of_list_to_set in Hd'.
  - intros Hin. apply list_elem_of_In, in_map_iff. exists d. split; [reflexivity|].
    apply filter_In. split; [exact Hd|].
    rewrite matches_id_in. apply bool_decide_eq_true.
    now apply elem_of_list_to_set.
Qed.

(** X20.  [refresh_sample_data] is for the reserved address only: any
    other caller gets 403 and the store is as it was.  For the reserved
    address it keeps, in their order, exactly the properties that some
    booking of the store refers to, drops the others, appends the twelve
    sample listings, and leaves the bookings alone. *)
Theorem refresh_keeps_booked_properties current_user fresh salt db :
  let refreshed := refresh_sample_data current_user fresh salt db in
  (User.email current_user <> "admin@wunderwohn.com" ->
     refreshed = (Raise (mkHTTPException 403 "Only admin can refresh data"), db))
  /\ (User.email current_user = "admin@wunderwohn.com" ->
        refreshed.1
        = Return "Successfully refreshed data with 12 properties and admin user"
        /\ properties refreshed.2
           = (List.filter (has_booking db) (properties db)
              ++ written_samples fresh 0 sample_properties)%list
        /\ bookings refreshed.2 = bookings db
        /\ (forall d, In d (properties db) ->
              (In d (List.filter (has_booking db) (properties db))
               <-> exists b, In b (bookings db)
                             /\ Booking.property_id (fields b)
                                = Property.id (fields d)))).
Proof.
  intros refreshed. subst refreshed. split.
  - intros Hadmin. unfold refresh_sample_data.
    apply String.eqb_neq in Hadmin. now rewrite Hadmin.
  - intros Hadmin. rewrite (refresh_by_admin _ _ _ _ Hadmin). simpl.
    repeat (split; [reflexivity|]).
    intros d Hd. rewrite filter_In. unfold has_booking.
    rewrite bool_decide_eq_true, elem_of_list_to_set, list_elem_of_In, in_map_iff.
    split.
    + intros (_ & b & Hb & Hin). now exists b.
    + intros (b & Hin & Hb). split; [exact Hd|]. now exists b.
Qed.

(** X21.  [refresh_sample_data] leaves no booking without its property: a
    booking of the store whose [property_id] found a property document
    before the refresh finds the same document after it, and is listed
    with it as before; when every booking of the store found its
    property, every caller's listing is what it was. *)
Theorem refresh_keeps_bookings_joined current_user fresh salt db :
  User.email current_user = "admin@wunderwohn.com" ->
  let refreshed := (refresh_sample_data current_user fresh salt db).2 in
  let property_of (db : Database) (b : stored booking_dict) :=
    find_one regex_search
             {["id" := Equals (VStr (Booking.property_id (fields b)))]}
             (properties db) in
  (forall b d, In b (bookings db) ->
     property_of db b = Some d ->
     property_of refreshed b = Some d
     /\ listed regex_search refreshed b = listed regex_search db b)
  /\ (Forall (fun b => is_Some (property_of db b)) (bookings db) ->
      forall caller,
        get_user_bookings regex_search caller refreshed
        = get_user_bookings regex_search caller db).
Proof.
  intros Hadmin refreshed property_of. subst refreshed property_of.
  rewrite (refresh_by_admin _ _ _ _ Hadmin). cbv beta. cbn [snd properties bookings users].
  assert (Hkeep : forall b d, In b (bookings db) ->
            find_one regex_search
                     {["id" := Equals (VStr (Booking.property_id (fields b)))]}
                     (properties db) = Some d ->
            find_one regex_search
                     {["id" := Equals (VStr (Booking.property_id (fields b)))]}
                     (List.filter (has_booking db) (properties db)
                      ++ written_samples fresh 0 sample_properties) = Some d).
  { intros b d Hb Hfind.
    apply find_one_filter_keeps; [exact Hfind|].
    pose proof (find_one_split regex_search
                  {["id" := Equals (VStr (Booking.property_id (fields b)))]}
                  (properties db)) as Hsplit.
    rewrite Hfind in Hsplit. destruct Hsplit as (_ & _ & _ & _ & Hd).
    rewrite matches_property_id in Hd. apply String.eqb_eq in Hd.
    unfold has_booking. apply bool_decide_eq_true, elem_of_list_to_set.
    rewrite Hd. apply list_elem_of_In, in_map_iff. now exists b. }
  split.
  - intros b d Hb Hfind. split; [now apply Hkeep|].
    unfold listed. cbn [snd properties bookings users]. rewrite (Hkeep b d Hb Hfind). now rewrite Hfind.
  - intros Hall caller. rewrite !get_user_bookings_listed.
    unfold visible_bookings. cbn [snd properties bookings users].
    apply map_ext_in. intros b Hb.
    assert (Hin : In b (bookings db)).
    { destruct (String.eqb (User.email caller) "admin@wunderwohn.com");
        apply list_elem_of_In, elem_of_take in Hb as (i & Hi & _);
        apply list_elem_of_lookup_2, list_elem_of_In in Hi; [exact Hi|].
      now apply filter_In in Hi. }
    rewrite Forall_forall in Hall.
    destruct (Hall b (proj2 (list_elem_of_In _ _) Hin)) as [d Hd].
    unfold listed. cbn [snd properties bookings users]. rewrite (Hkeep b d Hin Hd). now rewrite Hd.
Qed.

(** X22.  Both seeding routes see to the admin account without doubling
    it: after [initialize_sample_data] on a store without properties, and
    after [refresh_sample_data] by the reserved address, some user has the
    reserved address; if one had it before, the users are as they were,
    and otherwise one user was added; addresses that were distinct stay
    distinct. *)
Theorem seeding_admin_account current_user fresh salt db :
  let accounts (users' : list (stored User)) :=
    In "admin@wunderwohn.com" (emails users')
    /\ (In "admin@wunderwohn.com" (emails (users db)) -> users' = users db)
    /\ (~ In "admin@wunderwohn.com" (emails (users db)) ->
        users' = (users db ++ [mkstored (Some (object_id (fresh 12%nat)))
                                        (admin_user (fresh 12%nat) salt)])%list)
    /\ (NoDup (emails (users db)) -> NoDup (emails users')) in
  (properties db = [] ->
     accounts (users (initialize_sample_data fresh salt db).2))
  /\ (User.email current_user = "admin@wunderwohn.com" ->
        accounts (users (refresh_sample_data current_user fresh salt db).2)).
Proof.
  intros accounts. subst accounts. cbv beta. split.
  - intros Hnil. unfold initialize_sample_data.
    rewrite count_documents_all, Hnil.
    cbn -[insert_samples written_samples sample_properties ensure_admin emails].
    apply ensure_admin_spec.
  - intros Hadmin. rewrite (refresh_by_admin _ _ _ _ Hadmin).
    cbn -[insert_samples written_samples sample_properties ensure_admin emails].
    apply ensure_admin_spec.
Qed.

Lemma selects_nothing_asked (p : Property) :
  selects regex_search None None None None None p = Property.available p.
Proof. unfold selects, admits. now rewrite !andb_true_r. Qed.

Lemma filter_all_available (l : list (stored Property)) :
  Forall (fun d => Property.available (fields d) = true) l ->
  List.filter (selects regex_search None None None None None) (map fields l)
  = map fields l.
Proof.
  induction 1 as [|d l Hd _ IH]; simpl; [reflexivity|].
  rewrite selects_nothing_asked, Hd. now rewrite IH.
Qed.

Lemma written_samples_titles fresh i samples :
  map Property.title (map fields (written_samples fresh i samples))
  = map PropertyCreate.title samples.
Proof.
  revert i. induction samples as [|p l IH]; intros i; simpl; [reflexivity|].
  f_equal. apply IH.
Qed.

(** X23.  A store seeded from nothing shows all it has: the search without
    criteria returns the twelve sample listings, in the order of the
    table. *)
Theorem seeded_store_search fresh salt db :
  properties db = [] ->
  get_properties regex_search None None None None None
                 (initialize_sample_data fresh salt db).2
  = map fields (written_samples fresh 0 sample_properties)
  /\ map Property.title
         (get_properties regex_search None None None None None
                         (initialize_sample_data fresh salt db).2)
     = map PropertyCreate.title sample_properties.
Proof.
  intros Hnil.
  destruct (initialize_sample_data_once fresh salt db) as (_ & Hseed & _).
  destruct (Hseed Hnil) as (_ & Hp & Hlen & Hav & _).
  assert (Hall : get_properties regex_search None None None None None
                   (initialize_sample_data fresh salt db).2
                 = map fields (written_samples fresh 0 sample_properties)).
  { rewrite get_properties_selects, filter_all_available by exact Hav.
    rewrite Hp. apply take_ge.
    rewrite length_map, written_samples_length. simpl. lia. }
  split; [exact Hall|]. rewrite Hall. apply written_samples_titles.
Qed.

End Seeding.

(* ===================================================================== *)
(** * More of the handlers at work *)
(* ===================================================================== *)

(** A password context that keeps the password as it is, a token library
    that issues one token and knows a few strings more, and a store that
    reads one kind of condition document: enough to run the account
    handlers. *)

Definition plain_hash (password salt : string) : string := password.
Definition plain_verify (password hashed : string) : bool := String.eqb password hashed.

Definition one_token_encode (payload : dict) (key algorithm : string) : string :=
  "token".

Definition one_token_decode (token key : string) (algorithms : list string)
    (now : float) : decoded :=
  if String.eqb token "token" then
    Payload (<["user_id" := VStr "u-new"]>
               {["exp" := VFloat (PrimFloat.add 1000 86400)]})
  else if String.eqb token "expired" then ExpiredSignatureError
  else if String.eqb token "anonymous" then
    Payload {["exp" := VFloat (PrimFloat.add 1000 86400)]}
  else if String.eqb token "numbered" then
    Payload (<["user_id" := VInt 7]>
               {["exp" := VFloat (PrimFloat.add 1000 86400)]})
  else if String.eqb token "forged" then
    Payload (<["user_id" := VDict [("$ne", VStr "nobody")]]>
               {["exp" := VFloat (PrimFloat.add 1000 86400)]})
  else if String.eqb token "malformed" then
    Payload (<["user_id" := VDict [("$no", VStr "nobody")]]>
               {["exp" := VFloat (PrimFloat.add 1000 86400)]})
  else InvalidTokenError.

(** [{"$ne": v}] selects what is not [v]; any other document is rejected. *)
Definition ne_condition (d : list (string * value)) : option (option value -> bool) :=
  match d with
  | [(op, v)] =>
      if String.eqb op "$ne" then
        Some (fun x => match x with
                       | Some y => negb (value_eqb y v)
                       | None => true
                       end)
      else None
  | _ => None
  end.

Module Sample2.

Definition newcomer : UserCreate :=
  UserCreate.mk "new@example.com" "Nora" "Neu" "secret".

Definition fresh_user : Fresh := mkFresh "u-new" 5 (mkObjectId 21).

(** The [i]-th draw of a seeding request. *)
Definition draws (i : nat) : Fresh :=
  mkFresh ("s-" +:+ str_of_nat i)%string 7 (mkObjectId (100 + N.of_nat i)).

Definition empty : Database := mkDatabase [] [] [].

Definition cabin : PropertyCreate :=
  PropertyCreate.mk "Cabin in the Harz" "" "cabin" "Goslar" "Lower Saxony" ""
                    90%float 2 1 1 ["Fireplace"] [].

Definition fresh_cabin : Fresh := mkFresh "p-cabin" 6 (mkObjectId 31).

(** The cabin, for more guests than the store can count. *)
Definition crowded_cabin : PropertyCreate :=
  PropertyCreate.mk "Cabin in the Harz" "" "cabin" "Goslar" "Lower Saxony" ""
                    90%float (2 ^ 63) 1 1 ["Fireplace"] [].

(** The store after [newcomer] has registered. *)
Definition joined : Database :=
  (register literal_search plain_hash one_token_encode newcomer "salt"
            fresh_user 1000%float empty).2.

End Sample2.

Section MoreExamples.

Import Sample Sample2.

Lemma delete_booking_removes_first_witness :
  find_one literal_search {["id" := Equals (VStr "b-1")]} (bookings booked)
  = Some june_booking
  /\ may_delete guest june_booking = true
  /\ exists before after,
       bookings booked = (before ++ june_booking :: after)%list
       /\ Forall (fun d => Booking.id (fields d) <> "b-1") before
       /\ Booking.id (fields june_booking) = "b-1"
       /\ delete_booking literal_search "b-1" guest booked
          = (Return (mkDeleted true "Booking deleted successfully"),
             mkDatabase (users booked) (properties booked) (before ++ after)%list).
Proof.
  assert (Hfind : find_one literal_search {["id" := Equals (VStr "b-1")]}
                           (bookings booked) = Some june_booking)
    by (vm_compute; reflexivity).
  assert (Hmay : may_delete guest june_booking = true) by (vm_compute; reflexivity).
  split; [exact Hfind|]. split; [exact Hmay|].
  exact (delete_booking_removes_first literal_search "b-1" guest booked
           june_booking Hfind Hmay).
Defined.

Lemma deleted_booking_is_gone_witness :
  NoDup (map (fun d => Booking.id (fields d)) (bookings booked))
  /\ delete_booking literal_search "b-1" guest booked
     = (Return (mkDeleted true "Booking deleted successfully"), store)
  /\ delete_booking literal_search "b-1" guest store
     = (Raise (mkHTTPException 404 "Booking not found"), store).
Proof.
  assert (Hnodup : NoDup (map (fun d => Booking.id (fields d)) (bookings booked)))
    by (vm_compute; apply NoDup_singleton).
  assert (Hdel : delete_booking literal_search "b-1" guest booked
                 = (Return (mkDeleted true "Booking deleted successfully"), store))
    by (vm_compute; reflexivity).
  split; [exact Hnodup|]. split; [exact Hdel|].
  exact (proj1 (deleted_booking_is_gone literal_search "b-1" guest booked _ _
                  Hnodup Hdel) guest).
Defined.

Lemma create_then_delete_witness :
  create_booking literal_search june guest fresh1 store
  = (Responds (Return (mkBookingCreated true "b-1" 360%float)), booked)
  /\ Forall (fun d => Booking.id (fields d) <> "b-1") (bookings store)
  /\ delete_booking literal_search "b-1" guest booked
     = (Return (mkDeleted true "Booking deleted successfully"), store).
Proof.
  assert (Hcreate : create_booking literal_search june guest fresh1 store
                    = (Responds (Return (mkBookingCreated true "b-1" 360%float)),
                       booked))
    by (vm_compute; reflexivity).
  assert (Hfresh : Forall (fun d => Booking.id (fields d) <> "b-1") (bookings store))
    by constructor.
  split; [exact Hcreate|]. split; [exact Hfresh|].
  exact (create_then_delete literal_search june guest fresh1 store _ _
           Hcreate Hfresh).
Defined.

Lemma created_booking_in_listing_witness :
  create_booking literal_search june guest fresh1 store
  = (Responds (Return (mkBookingCreated true "b-1" 360%float)), booked)
  /\ User.email guest <> "admin@wunderwohn.com"
  /\ (length (List.filter (owned_by guest) (bookings store)) < 100)%nat
  /\ In (mk_booking_with_property (del_id june_booking) (Some (del_id stored_berlin)))
        (get_user_bookings literal_search guest booked).
Proof.
  assert (Hcreate : create_booking literal_search june guest fresh1 store
                    = (Responds (Return (mkBookingCreated true "b-1" 360%float)),
                       booked))
    by (vm_compute; reflexivity).
  assert (Hfind : find_one literal_search
                    {["id" := Equals (VStr (BookingCreate.property_id june))]}
                    (properties store) = Some stored_berlin)
    by (vm_compute; reflexivity).
  assert (Hguest : User.email guest <> "admin@wunderwohn.com") by discriminate.
  assert (Hroom : (length (List.filter (owned_by guest) (bookings store)) < 100)%nat)
    by (vm_compute; lia).
  split; [exact Hcreate|]. split; [exact Hguest|]. split; [exact Hroom|].
  destruct (created_booking_in_listing literal_search june guest fresh1 store _ _
              Hcreate Hguest) as (property_doc & Hfound & Hlisted).
  rewrite Hfind in Hfound. injection Hfound as <-.
  cbv zeta in Hlisted. destruct Hlisted as (_ & _ & Hin & _).
  exact (Hin Hroom).
Defined.

Lemma create_booking_by_calendar_witness :
  datetime.valid (BookingCreate.check_in june) = true
  /\ datetime.valid (BookingCreate.check_out june) = true
  /\ calendar.date_lt (BookingCreate.check_in june) (BookingCreate.check_out june)
     = true
  /\ int64 (BookingCreate.guests june) = true
  /\ (exists r, (create_booking literal_search june guest fresh1 store).1
                = Responds (Return r))
  /\ int64 (BookingCreate.guests june_crowd) = false
  /\ (create_booking literal_search june_crowd guest fresh1 store).1
     = Uncaught OverflowError.
Proof.
  assert (Hin : datetime.valid (BookingCreate.check_in june) = true)
    by (vm_compute; reflexivity).
  assert (Hout : datetime.valid (BookingCreate.check_out june) = true)
    by (vm_compute; reflexivity).
  assert (Hfind : find_one literal_search
                    {["id" := Equals (VStr (BookingCreate.property_id june))]}
                    (properties store) = Some stored_berlin)
    by (vm_compute; reflexivity).
  assert (Hlater : calendar.date_lt (BookingCreate.check_in june)
                                    (BookingCreate.check_out june) = true)
    by (vm_compute; reflexivity).
  assert (Hfits : int64 (BookingCreate.guests june) = true)
    by (vm_compute; reflexivity).
  assert (Hcrowd : int64 (BookingCreate.guests june_crowd) = false)
    by (vm_compute; reflexivity).
  split; [exact Hin|]. split; [exact Hout|]. split; [exact Hlater|].
  split; [exact Hfits|]. split; [|split; [exact Hcrowd|]].
  - exact (proj2 (proj1 (create_booking_by_calendar literal_search june guest fresh1
                           store stored_berlin Hin Hout Hfind))
                 (conj Hlater Hfits)).
  - exact (proj2 (proj1 (proj2 (proj2
             (create_booking_by_calendar literal_search june_crowd guest fresh1
                store stored_berlin Hin Hout Hfind))))
                 (conj Hlater Hcrowd)).
Defined.

Lemma isoformat_injective_witness :
  datetime.valid (datetime.mkdate 2025 6 1) = true
  /\ datetime.valid (datetime.mkdate 2024 2 29) = true
  /\ datetime.isoformat (datetime.mkdate 2025 6 1) = "2025-06-01"
  /\ String.length (datetime.isoformat (datetime.mkdate 2025 6 1)) = 10%nat.
Proof.
  assert (Ha : datetime.valid (datetime.mkdate 2025 6 1) = true)
    by (vm_compute; reflexivity).
  assert (Hb : datetime.valid (datetime.mkdate 2024 2 29) = true)
    by (vm_compute; reflexivity).
  split; [exact Ha|]. split; [exact Hb|]. split; [vm_compute; reflexivity|].
  exact (proj1 (proj2 (isoformat_injective _ _ Ha Hb))).
Defined.

Lemma search_results_meet_criteria_witness :
  In munich (get_properties literal_search (Some "MUN") None (Some 200%float)
                            (Some 6) (Some "villa") store)
  /\ literal_search "MUN" "i" (Property.city munich) = true
  /\ 6 <= Property.max_guests munich.
Proof.
  assert (Hin : In munich (get_properties literal_search (Some "MUN") None
                                          (Some 200%float) (Some 6) (Some "villa")
                                          store))
    by (vm_compute; left; reflexivity).
  pose proof (search_results_meet_criteria literal_search _ _ _ _ _ _ _ Hin)
    as (_ & Hcity & _ & _ & Hguests & _).
  split; [exact Hin|]. split.
  - apply (Hcity "MUN" eq_refl). discriminate.
  - apply (Hguests 6 eq_refl). discriminate.
Defined.


Lemma listing_joins_by_property_id_witness :
  In (mk_booking_with_property (del_id dangling) None)
     (get_user_bookings literal_search guest with_dangling)
  /\ Forall (fun d => Property.id (fields d) <> "p-gone") (properties with_dangling).
Proof.
  assert (Hin : In (mk_booking_with_property (del_id dangling) None)
                   (get_user_bookings literal_search guest with_dangling))
    by (vm_compute; right; left; reflexivity).
  split; [exact Hin|].
  exact (listing_joins_by_property_id literal_search guest with_dangling _ Hin).
Defined.

Lemma register_then_login_witness :
  (forall password salt, plain_verify password (plain_hash password salt) = true)
  /\ ~ In (UserCreate.email newcomer)
          (map (fun d => User.email (fields d)) (users empty))
  /\ login literal_search plain_verify one_token_encode
           (UserLogin.mk "new@example.com" "secret") 2000%float
           (register literal_search plain_hash one_token_encode newcomer "salt"
                     fresh_user 1000%float empty).2
     = Return (mk_token_response "token"
                 (mk_user_info "u-new" "new@example.com" "Nora" "Neu")).
Proof.
  assert (Hverify : forall password salt,
             plain_verify password (plain_hash password salt) = true)
    by (intros; apply String.eqb_refl).
  assert (Hnew : ~ In (UserCreate.email newcomer)
                      (map (fun d => User.email (fields d)) (users empty)))
    by (intros []).
  split; [exact Hverify|]. split; [exact Hnew|].
  exact (register_then_login literal_search plain_hash plain_verify one_token_encode
           Hverify newcomer "salt" fresh_user 1000%float 2000%float empty Hnew).
Defined.

Lemma register_token_authenticates_witness :
  uuid4 fresh_user <> EmptyString
  /\ Forall (fun d => User.id (fields d) <> uuid4 fresh_user) (users empty)
  /\ get_current_user literal_search one_token_decode ne_condition "token" 2000%float
       (register literal_search plain_hash one_token_encode newcomer "salt"
                 fresh_user 1000%float empty).2
     = Return (registered_user plain_hash newcomer "salt" fresh_user).
Proof.
  assert (Hid : uuid4 fresh_user <> EmptyString) by discriminate.
  assert (Hfresh : Forall (fun d => User.id (fields d) <> uuid4 fresh_user)
                          (users empty)) by constructor.
  split; [exact Hid|]. split; [exact Hfresh|].
  exact (register_token_authenticates literal_search plain_hash one_token_encode
           one_token_decode ne_condition newcomer "salt" fresh_user 1000%float
           2000%float empty _ _ eq_refl eq_refl Hid Hfresh).
Defined.

(** The ways [get_current_user] ends, on the store [newcomer] has joined:
    the issued token opens the session; an expired one is answered 401; a
    string the library rejects, a payload without ["user_id"], a
    ["user_id"] that is no user's, and a condition the store rejects all
    end in [AttributeError]; and a payload whose ["user_id"] is the
    condition [{"$ne": "nobody"}] opens the session of the first user of
    the store. *)
Lemma get_current_user_endings :
  let me (credentials : string) :=
    get_current_user literal_search one_token_decode ne_condition credentials
                     2000%float joined in
  me "token" = Return (registered_user plain_hash newcomer "salt" fresh_user)
  /\ me "expired" = Raise (mkHTTPException 401 "Token expired")
  /\ me "garbage" = Uncaught AttributeError
  /\ me "anonymous" = Uncaught AttributeError
  /\ me "numbered" = Uncaught AttributeError
  /\ me "malformed" = Uncaught AttributeError
  /\ me "forged" = Return (registered_user plain_hash newcomer "salt" fresh_user)
  /\ get_current_user literal_search one_token_decode ne_condition "token"
                      2000%float empty
     = Uncaught AttributeError.
Proof.
  cbv zeta. repeat split; vm_compute; reflexivity.
Qed.

Lemma refresh_keeps_bookings_joined_witness :
  User.email admin = "admin@wunderwohn.com"
  /\ Forall (fun b => is_Some (find_one literal_search
                                 {["id" := Equals (VStr (Booking.property_id (fields b)))]}
                                 (properties booked)))
            (bookings booked)
  /\ get_user_bookings literal_search guest
       (refresh_sample_data literal_search plain_hash admin draws "salt" booked).2
     = get_user_bookings literal_search guest booked.
Proof.
  assert (Hall : Forall (fun b => is_Some
                           (find_one literal_search
                              {["id" := Equals (VStr (Booking.property_id (fields b)))]}
                              (properties booked)))
                        (bookings booked)).
  { vm_compute. constructor; [|constructor]. eexists. reflexivity. }
  split; [reflexivity|]. split; [exact Hall|].
  exact (proj2 (refresh_keeps_bookings_joined literal_search plain_hash admin draws
                  "salt" booked eq_refl) Hall guest).
Defined.

Lemma seeded_store_search_witness :
  properties empty = []
  /\ map Property.city
         (get_properties literal_search None None None None None
            (initialize_sample_data literal_search plain_hash draws "salt" empty).2)
     = map PropertyCreate.city sample_properties.
Proof.
  split; [reflexivity|].
  rewrite (proj1 (seeded_store_search literal_search plain_hash draws "salt" empty
                    eq_refl)).
  vm_compute. reflexivity.
Defined.

Lemma create_then_get_property_witness :
  Forall (fun d => Property.id (fields d) <> uuid4 fresh_cabin) (properties store)
  /\ (create_property cabin fresh_cabin store).1
     = Responds (Return (new_Property cabin fresh_cabin))
  /\ get_property literal_search "p-cabin"
                  (create_property cabin fresh_cabin store).2
     = Return (stored_property (new_Property cabin fresh_cabin))
  /\ Property.created_at (new_Property cabin fresh_cabin) = 6
  /\ Property.created_at (stored_property (new_Property cabin fresh_cabin)) = 0
  /\ create_property crowded_cabin fresh_cabin store = (Uncaught OverflowError, store).
Proof.
  assert (Hfresh : Forall (fun d => Property.id (fields d) <> uuid4 fresh_cabin)
                          (properties store))
    by (repeat constructor; discriminate).
  pose proof (create_then_get_property literal_search cabin fresh_cabin store) as H.
  cbv zeta in H. destruct H as (_ & H).
  destruct (H eq_refl)
    as (Hreturned & _ & _ & Hclock & _ & Hstored & _ & _ & _ & Hget).
  pose proof (create_then_get_property literal_search crowded_cabin fresh_cabin store)
    as Hcrowd.
  cbv zeta in Hcrowd. destruct Hcrowd as (Hcrowd & _).
  split; [exact Hfresh|]. split; [exact Hreturned|]. split; [exact (Hget Hfresh)|].
  split; [exact Hclock|]. split; [exact Hstored|].
  apply Hcrowd. vm_compute. reflexivity.
Defined.

Lemma register_keeps_emails_distinct_witness :
  ~ In (UserCreate.email newcomer)
       (map (fun d => User.email (fields d)) (users empty))
  /\ map (fun d => User.email (fields d))
         (users (register literal_search plain_hash one_token_encode newcomer "salt"
                          fresh_user 1000%float empty).2)
     = ["new@example.com"]
  /\ register literal_search plain_hash one_token_encode newcomer "pepper"
              fresh_user 3000%float
              (register literal_search plain_hash one_token_encode newcomer "salt"
                        fresh_user 1000%float empty).2
     = (Raise (mkHTTPException 400 "Email already registered"),
        (register literal_search plain_hash one_token_encode newcomer "salt"
                  fresh_user 1000%float empty).2).
Proof.
  assert (Hnew : ~ In (UserCreate.email newcomer)
                      (map (fun d => User.email (fields d)) (users empty)))
    by (intros []).
  split; [exact Hnew|]. split; [vm_compute; reflexivity|].
  pose proof (register_keeps_emails_distinct literal_search plain_hash
                one_token_encode newcomer "pepper" fresh_user 3000%float
                (register literal_search plain_hash one_token_encode newcomer "salt"
                          fresh_user 1000%float empty).2) as H.
  cbv zeta beta in H. destruct H as (Hknown & _).
  apply Hknown. vm_compute. left. reflexivity.
Defined.

Lemma initialize_sample_data_once_witness :
  properties empty = []
  /\ properties store <> []
  /\ initialize_sample_data literal_search plain_hash draws "salt" store
     = ("Sample data already exists", store)
  /\ length (properties (initialize_sample_data literal_search plain_hash draws
                                                "salt" empty).2) = 12%nat.
Proof.
  assert (Hfull : properties store <> []) by discriminate.
  split; [reflexivity|]. split; [exact Hfull|]. split.
  - exact (proj1 (initialize_sample_data_once literal_search plain_hash draws "salt"
                    store) Hfull).
  - pose proof (initialize_sample_data_once literal_search plain_hash draws "salt"
                  empty) as H.
    cbv zeta in H. destruct H as (_ & Hempty & _).
    exact (proj1 (proj2 (proj2 (Hempty eq_refl)))).
Defined.

Lemma refresh_keeps_booked_properties_witness :
  User.email guest <> "admin@wunderwohn.com"
  /\ User.email admin = "admin@wunderwohn.com"
  /\ refresh_sample_data literal_search plain_hash guest draws "salt" booked
     = (Raise (mkHTTPException 403 "Only admin can refresh data"), booked)
  /\ properties (refresh_sample_data literal_search plain_hash admin draws "salt"
                                     booked).2
     = (List.filter (has_booking booked) (properties booked)
        ++ written_samples draws 0 sample_properties)%list.
Proof.
  assert (Hguest : User.email guest <> "admin@wunderwohn.com") by discriminate.
  pose proof (refresh_keeps_booked_properties literal_search plain_hash guest draws
                "salt" booked) as Hg.
  pose proof (refresh_keeps_booked_properties literal_search plain_hash admin draws
                "salt" booked) as Ha.
  cbv zeta in Hg, Ha. destruct Hg as (Hg & _). destruct Ha as (_ & Ha).
  split; [exact Hguest|]. split; [reflexivity|]. split; [exact (Hg Hguest)|].
  exact (proj1 (proj2 (Ha eq_refl))).
Defined.

Lemma seeding_admin_account_witness :
  properties empty = []
  /\ In "admin@wunderwohn.com"
        (emails (users (initialize_sample_data literal_search plain_hash draws
                                               "salt" empty).2))
  /\ users (refresh_sample_data literal_search plain_hash admin draws "salt"
              (initialize_sample_data literal_search plain_hash draws "salt" empty).2).2
     = users (initialize_sample_data literal_search plain_hash draws "salt" empty).2.
Proof.
  pose proof (seeding_admin_account literal_search plain_hash admin draws "salt"
                empty) as He.
  pose proof (seeding_admin_account literal_search plain_hash admin draws "salt"
                (initialize_sample_data literal_search plain_hash draws "salt"
                                        empty).2) as Hr.
  cbv zeta beta in He, Hr. destruct He as (He & _). destruct Hr as (_ & Hr).
  split; [reflexivity|]. split; [exact (proj1 (He eq_refl))|].
  apply (proj1 (proj2 (Hr eq_refl))). vm_compute. left. reflexivity.
Defined.

End MoreExamples.
